(** * TopicVideoLearning: waiting-pool matcher, session lifecycle and
      signaling relay

    A shallow embedding of the request handlers of
    [backend/routes/topics.js] (the [/matching] router that file ends with),
    [backend/routes/sessions.js] and [backend/socket/socketHandler.js],
    over the Mongoose collections of [backend/models].

    Every handler is an [async] function: it runs atomically between two
    [await]s and may be interleaved with other handlers at each [await].
    Handlers are therefore written in a small monad, [Async], whose binds
    are the [await]s of the source (and the synchronous updates of the
    in-memory registry and rooms).  [Async.run] executes one handler to
    completion with nothing in between, [serveAll] a sequence of requests
    one after another; [Async.interleave] executes several handlers under a
    schedule.  Statements about one request, or about requests that follow
    one another, are about [Async.run] and [serveAll]; the statements about
    requests that overlap are about [Async.interleave].

    Embedded: [POST /matching/join], [/leave], [/cancel],
    [GET /matching/status], [GET /matching/stats/:topicId],
    [GET /sessions/:id], [PATCH /sessions/:id/end], every listener of
    [socketHandler.js] with the minute timer that sweeps
    [activeConnections], and the reconnect logic of the browser's
    [SocketService].  Left out: the feedback, history and overview routes
    of [sessions.js] and the topic catalog routes ([GET], [POST] and
    [PUT /topics]), which no embedded handler calls. *)

From Stdlib Require Import ZArith String List Bool Lia.
From stdpp Require Import base option list gmap strings pretty.

Local Open Scope string_scope.
Local Open Scope list_scope.

(** ** Documents *)

(** [models/WaitingPool.js].  [_id] is the ObjectId Mongoose gives the
    document when it is constructed. *)
Record WaitingEntry := mkWaitingEntry {
  we_id : nat;
  we_user : string;
  we_topic : string;
  we_joinedAt : Z;
  we_socketId : string;
  we_isActive : bool
}.

(** The [status] enum of the session schema. *)
Inductive SessionStatus := StWaiting | StActive | StCompleted | StCancelled.

(** The session schema (second half of [models/Topic.js]).  The
    [feedback] and [connectionDetails] sub-documents are written by no
    handler embedded here and are left out. *)
Record Session := mkSession {
  s_id : nat;
  s_topic : string;
  s_user1 : string;
  s_user2 : string;
  s_roomId : string;
  s_status : SessionStatus;
  s_startTime : Z;
  s_endTime : option Z;
  s_duration : Z
}.

(** [models/Topic.js], the fields the handlers read or write. *)
Record Topic := mkTopic {
  t_name : string;
  t_isActive : bool;
  t_sessionsCount : nat
}.

(** [models/User.js] is not among the sources; the record keeps the fields
    the handlers read or write ([username], [$inc sessionsCompleted],
    [lastSeen]). *)
Record User := mkUser {
  u_username : string;
  u_sessionsCompleted : nat;
  u_lastSeen : Z
}.

(** A value of the [activeConnections] map of [socketHandler.js];
    [status] is the property [updateStatus] adds. *)
Record Connection := mkConnection {
  c_socketId : string;
  c_username : string;
  c_connectedAt : Z;
  c_status : option string
}.

(** An authenticated socket: [socket.id], [socket.userId] and
    [socket.user.username] as the [io.use] middleware leaves them. *)
Record Socket := mkSocket {
  sk_id : string;
  sk_userId : string;
  sk_username : string
}.

(** ** The state the handlers share

    The four collections in their natural (storage) order, the ObjectId
    supply, the module-level [activeConnections] map and the rooms of the
    socket.io server (room name to the ids of the sockets in it). *)
Record World := mkWorld {
  waitingPool : list WaitingEntry;
  sessions : list Session;
  topics : gmap string Topic;
  users : gmap string User;
  nextId : nat;
  activeConnections : gmap string Connection;
  rooms : gmap string (gset string)
}.

Definition set_waitingPool (f : list WaitingEntry → list WaitingEntry) (w : World) : World :=
  mkWorld (f (waitingPool w)) (sessions w) (topics w) (users w) (nextId w)
          (activeConnections w) (rooms w).

Definition set_sessions (f : list Session → list Session) (w : World) : World :=
  mkWorld (waitingPool w) (f (sessions w)) (topics w) (users w) (nextId w)
          (activeConnections w) (rooms w).

Definition set_topics (f : gmap string Topic → gmap string Topic) (w : World) : World :=
  mkWorld (waitingPool w) (sessions w) (f (topics w)) (users w) (nextId w)
          (activeConnections w) (rooms w).

Definition set_users (f : gmap string User → gmap string User) (w : World) : World :=
  mkWorld (waitingPool w) (sessions w) (topics w) (f (users w)) (nextId w)
          (activeConnections w) (rooms w).

Definition bump_nextId (w : World) : World :=
  mkWorld (waitingPool w) (sessions w) (topics w) (users w) (S (nextId w))
          (activeConnections w) (rooms w).

Definition set_activeConnections
    (f : gmap string Connection → gmap string Connection) (w : World) : World :=
  mkWorld (waitingPool w) (sessions w) (topics w) (users w) (nextId w)
          (f (activeConnections w)) (rooms w).

Definition set_rooms
    (f : gmap string (gset string) → gmap string (gset string)) (w : World) : World :=
  mkWorld (waitingPool w) (sessions w) (topics w) (users w) (nextId w)
          (activeConnections w) (f (rooms w)).

(** ** Asynchronous handlers *)

Module Async.

(** A handler is finished with a result, or stands at an [await] of one
    store operation and continues with what the operation returns. *)
Inductive t (St R : Type) : Type :=
| Done (r : R)
| Await {X : Type} (op : St → X * St) (k : X → t St R).
Arguments Done {St R} r.
Arguments Await {St R X} op k.

(** The handler served alone: every [await] resumes at once. *)
Fixpoint run {St R} (m : t St R) (s : St) : R * St :=
  match m with
  | Done r => (r, s)
  | Await op k => let '(x, s') := op s in run (k x) s'
  end.

(** The handler advanced to its next [await]. *)
Definition step {St R} (m : t St R) (s : St) : t St R * St :=
  match m with
  | Done r => (Done r, s)
  | Await op k => let '(x, s') := op s in (k x, s')
  end.

Definition result {St R} (m : t St R) : option R :=
  match m with
  | Done r => Some r
  | Await _ _ => None
  end.

(** Handlers in flight, advanced in the order a schedule names them
    (an index out of range names nobody). *)
Fixpoint interleave {St R} (sched : list nat) (ms : list (t St R)) (s : St)
    : list (t St R) * St :=
  match sched with
  | [] => (ms, s)
  | i :: sched' =>
      match ms !! i with
      | None => interleave sched' ms s
      | Some m =>
          let '(m', s') := step m s in
          interleave sched' (<[i := m']> ms) s'
      end
  end.

End Async.

Notation "'const' x ← 'await' op ; k" := (Async.Await op (fun x => k))
  (at level 10, x name, op at level 100, k at level 200, only parsing).
Notation "'await_' op ; k" := (Async.Await op (fun _ => k))
  (at level 10, op at level 100, k at level 200, only parsing).

(** ** Queries and updates on a collection

    A collection is the list of its documents in natural order: [findOne]
    without a sort returns the first document that matches ([List.find]),
    an insert appends. *)

(** [deleteOne], [findOneAndDelete]: the first match goes. *)
Fixpoint deleteFirst {A} (q : A → bool) (l : list A) : list A :=
  match l with
  | [] => []
  | x :: l' => if q x then l' else x :: deleteFirst q l'
  end.

(** [updateOne], [findOneAndUpdate], [save] of a loaded document: the
    first match is rewritten in place. *)
Fixpoint updateFirst {A} (q : A → bool) (f : A → A) (l : list A) : list A :=
  match l with
  | [] => []
  | x :: l' => if q x then f x :: l' else x :: updateFirst q f l'
  end.

(** [deleteMany]: every match goes; [deletedCount] is their number. *)
Definition deleteAll {A} (q : A → bool) (l : list A) : list A :=
  List.filter (fun x => negb (q x)) l.

Definition countMatches {A} (q : A → bool) (l : list A) : nat :=
  length (List.filter q l).

(** JavaScript truthiness of an optional string: [undefined] and the empty
    string are falsy. *)
Definition truthy (s : option string) : option string :=
  match s with
  | Some EmptyString => None
  | _ => s
  end.

(** A [topicId] as a client sends it to a handler that looks at no
    validator's verdict ([POST /leave] declares [isMongoId] but never
    reads [validationResult]; the socket listeners have no validator):
    text that Mongoose casts to an ObjectId, which is what a topic id is
    everywhere else, or any other text, on which the cast throws. *)
Inductive SentId :=
| ObjectIdText (id : string)
| OtherText (text : string).

Definition sentText (topicId : SentId) : string :=
  match topicId with
  | ObjectIdText id => id
  | OtherText text => text
  end.

(** Mongoose casts the [topic] of a filter to an ObjectId before the
    query is sent; [None] is the [CastError] the query is rejected with. *)
Definition castObjectId (topicId : SentId) : option string :=
  match topicId with
  | ObjectIdText id => Some id
  | OtherText _ => None
  end.

(** [if (topicId)] on what the client sent. *)
Definition truthySent (topicId : option SentId) : option SentId :=
  match topicId with
  | Some t => if String.eqb (sentText t) "" then None else Some t
  | None => None
  end.

(** [Math.round (n / d)] for [d > 0]: halves round up. *)
Definition jsRoundDiv (n d : Z) : Z := ((2 * n + d) / (2 * d))%Z.

Definition isParticipant (s : Session) (userId : string) : bool :=
  String.eqb (s_user1 s) userId || String.eqb (s_user2 s) userId.

(** [status === 'completed' || status === 'cancelled'] *)
Definition ended (st : SessionStatus) : bool :=
  match st with
  | StCompleted | StCancelled => true
  | StWaiting | StActive => false
  end.

(** [status: { $in: ['waiting', 'active'] }] *)
Definition waitingOrActive (st : SessionStatus) : bool :=
  match st with
  | StWaiting | StActive => true
  | StCompleted | StCancelled => false
  end.

Definition isActiveStatus (st : SessionStatus) : bool :=
  match st with
  | StActive => true
  | _ => false
  end.

(** The queries the handlers send. *)

(** [{ user: userId, topic: topicId, isActive: true }] *)
Definition qEntryOf (userId topicId : string) (e : WaitingEntry) : bool :=
  String.eqb (we_user e) userId && String.eqb (we_topic e) topicId && we_isActive e.

(** [{ topic: topicId, user: { $ne: userId }, isActive: true }] *)
Definition qPartnerFor (userId topicId : string) (e : WaitingEntry) : bool :=
  String.eqb (we_topic e) topicId && negb (String.eqb (we_user e) userId)
  && we_isActive e.

(** [{ $or: [{ user1: userId }, { user2: userId }],
       status: { $in: ['waiting', 'active'] } }] *)
Definition qOpenSessionOf (userId : string) (s : Session) : bool :=
  isParticipant s userId && waitingOrActive (s_status s).

(** [{ $or: [{ user1: userId }, { user2: userId }], status: 'active' }] *)
Definition qActiveSessionOf (userId : string) (s : Session) : bool :=
  isParticipant s userId && isActiveStatus (s_status s).

(** [{ user: userId, isActive: true }], with [topic] when one is given *)
Definition qLeave (userId : string) (topicId : option string) (e : WaitingEntry) : bool :=
  String.eqb (we_user e) userId && we_isActive e
  && match truthy topicId with
     | Some t => String.eqb (we_topic e) t
     | None => true
     end.

(** [{ user: socket.userId, socketId: socket.id }] *)
Definition qOfSocket (sock : Socket) (e : WaitingEntry) : bool :=
  String.eqb (we_user e) (sk_userId sock) && String.eqb (we_socketId e) (sk_id sock).

Definition qEntryId (id : nat) (e : WaitingEntry) : bool := Nat.eqb (we_id e) id.

Definition qSessionId (id : nat) (s : Session) : bool := Nat.eqb (s_id s) id.

(** ** Operations on the shared state, one per [await] *)

Definition Topic_findById (id : string) (w : World) : option Topic * World :=
  (topics w !! id, w).

Definition WaitingPool_findOne (q : WaitingEntry → bool) (w : World)
    : option WaitingEntry * World :=
  (List.find q (waitingPool w), w).

Definition Session_findOne (q : Session → bool) (w : World) : option Session * World :=
  (List.find q (sessions w), w).

Definition Session_find (q : Session → bool) (w : World) : list Session * World :=
  (List.filter q (sessions w), w).

Definition Session_findById (id : nat) (w : World) : option Session * World :=
  (List.find (qSessionId id) (sessions w), w).

(** [new WaitingPool({ user, topic, socketId })] then [save()].  [joinedAt]
    and [isActive] take their defaults; the unique index on
    [{ user, topic }] rejects a second document for the pair, and [save]
    throws. *)
Definition WaitingPool_create (userId topicId socketId : string) (now : Z) (w : World)
    : option WaitingEntry * World :=
  let e := mkWaitingEntry (nextId w) userId topicId now socketId true in
  if existsb (fun e' => String.eqb (we_user e') userId && String.eqb (we_topic e') topicId)
             (waitingPool w)
  then (None, w)
  else (Some e, bump_nextId (set_waitingPool (fun l => (l ++ [e])%list) w)).

(** [new Session({ topic, user1, user2, roomId, status: 'active' })] then
    [save()].  [startTime] and [duration] take their defaults, [endTime]
    is unset so the pre-save hook computes nothing; the unique index on
    [roomId] rejects a room id already stored. *)
Definition Session_create (topicId user1 user2 roomId : string) (now : Z) (w : World)
    : option Session * World :=
  let s := mkSession (nextId w) topicId user1 user2 roomId StActive now None 0 in
  if existsb (fun s' => String.eqb (s_roomId s') roomId) (sessions w)
  then (None, w)
  else (Some s, bump_nextId (set_sessions (fun l => (l ++ [s])%list) w)).

(** The pre-save hook of the session schema. *)
Definition preSave (s : Session) : Session :=
  match s_endTime s with
  | Some e =>
      mkSession (s_id s) (s_topic s) (s_user1 s) (s_user2 s) (s_roomId s) (s_status s)
                (s_startTime s) (s_endTime s) (jsRoundDiv (e - s_startTime s) 60000)
  | None => s
  end.

(** [session.status = st; session.endTime = new Date()] on a loaded
    document. *)
Definition finish (s : Session) (st : SessionStatus) (now : Z) : Session :=
  mkSession (s_id s) (s_topic s) (s_user1 s) (s_user2 s) (s_roomId s) st
            (s_startTime s) (Some now) (s_duration s).

(** What [save()] writes of a loaded session into the stored one: the
    paths the handler and the hook modified. *)
Definition writeEnd (s : Session) (stored : Session) : Session :=
  mkSession (s_id stored) (s_topic stored) (s_user1 stored) (s_user2 stored)
            (s_roomId stored) (s_status s) (s_startTime stored) (s_endTime s)
            (s_duration s).

(** [session.save()] of a loaded session: the hook runs, then the stored
    document with the same [_id] is updated; [save] throws when there is
    none. *)
Definition Session_save (s : Session) (w : World) : option Session * World :=
  let s' := preSave s in
  if existsb (qSessionId (s_id s)) (sessions w)
  then (Some s', set_sessions (updateFirst (qSessionId (s_id s)) (writeEnd s')) w)
  else (None, w).

Definition WaitingPool_deleteOne (q : WaitingEntry → bool) (w : World) : unit * World :=
  (tt, set_waitingPool (deleteFirst q) w).

Definition WaitingPool_deleteMany (q : WaitingEntry → bool) (w : World) : nat * World :=
  (countMatches q (waitingPool w), set_waitingPool (deleteAll q) w).

Definition setSocketId (socketId : string) (e : WaitingEntry) : WaitingEntry :=
  mkWaitingEntry (we_id e) (we_user e) (we_topic e) (we_joinedAt e) socketId (we_isActive e).

(** [findOneAndUpdate(q, { socketId }, { upsert: false })] *)
Definition WaitingPool_findOneAndUpdate (q : WaitingEntry → bool) (socketId : string)
    (w : World) : unit * World :=
  (tt, set_waitingPool (updateFirst q (setSocketId socketId)) w).

Definition incSessionsCompleted (u : User) : User :=
  mkUser (u_username u) (S (u_sessionsCompleted u)) (u_lastSeen u).

Definition setLastSeen (now : Z) (u : User) : User :=
  mkUser (u_username u) (u_sessionsCompleted u) now.

Definition incSessionsCount (t : Topic) : Topic :=
  mkTopic (t_name t) (t_isActive t) (S (t_sessionsCount t)).

(** [User.findByIdAndUpdate(id, update)]: nothing happens when no user has
    the id. *)
Definition User_findByIdAndUpdate (id : string) (f : User → User) (w : World)
    : unit * World :=
  (tt, set_users (alter f id) w).

(** [Promise.all] of the two counter updates of the end handler. *)
Definition User_incBoth (user1 user2 : string) (w : World) : unit * World :=
  (tt, set_users (fun us => alter incSessionsCompleted user2
                              (alter incSessionsCompleted user1 us)) w).

Definition Topic_findByIdAndUpdate (id : string) (f : Topic → Topic) (w : World)
    : unit * World :=
  (tt, set_topics (alter f id) w).

(** [session.populate(...)]: adds names to the reply, changes nothing. *)
Definition populate (w : World) : unit * World := (tt, w).

(** *** Rooms of the socket.io server *)

Definition members (rs : gmap string (gset string)) (room : string) : gset string :=
  default ∅ (rs !! room).

(** [socket.join(room)] *)
Definition socket_join (sock : Socket) (room : string) (w : World) : unit * World :=
  (tt, set_rooms (fun rs => <[room := {[sk_id sock]} ∪ members rs room]> rs) w).

(** [socket.leave(room)] *)
Definition socket_leave (sock : Socket) (room : string) (w : World) : unit * World :=
  (tt, set_rooms (fun rs => <[room := members rs room ∖ {[sk_id sock]}]> rs) w).

(** What socket.io does to a closing socket before the [disconnect]
    listeners run: it leaves every room. *)
Definition socket_leaveAll (sock : Socket) (w : World) : unit * World :=
  (tt, set_rooms (fmap (fun ms => ms ∖ {[sk_id sock]})) w).

(** [activeConnections.set(socket.userId, { socketId, user, connectedAt })] *)
Definition registry_set (sock : Socket) (now : Z) (w : World) : unit * World :=
  (tt, set_activeConnections
         (insert (sk_userId sock) (mkConnection (sk_id sock) (sk_username sock) now None))
         w).

(** [activeConnections.delete(socket.userId)] *)
Definition registry_delete (sock : Socket) (w : World) : unit * World :=
  (tt, set_activeConnections (delete (sk_userId sock)) w).

Definition setStatus (status : string) (c : Connection) : Connection :=
  mkConnection (c_socketId c) (c_username c) (c_connectedAt c) (Some status).

(** [const connection = activeConnections.get(userId);
     if (connection) { connection.status = status; ... }] *)
Definition registry_setStatus (sock : Socket) (status : string) (w : World) : unit * World :=
  (tt, set_activeConnections (alter (setStatus status) (sk_userId sock)) w).

(** [isUserOnline] of the object [socketHandler] returns. *)
Definition isUserOnline (w : World) (userId : string) : bool :=
  bool_decide (is_Some (activeConnections w !! userId)).

(** ** What a handler sends *)

(** Events pushed to sockets; payloads the server only forwards are kept
    as the text the client sent. *)
Inductive Event :=
| MatchFound (session : Session) (partner : string)
| SessionEnded (sessionId : nat) (endedBy : string)
| SessionCancelled (sessionId : nat) (cancelledBy : string)
| WaitingPoolJoined (topicId socketId : string)
| WaitingPoolLeft (topicId : string)
| ErrorEvent (message : string)
| ParticipantJoined (userId username : string)
| SessionJoined (sessionId : nat) (roomId : string)
| ParticipantLeft (userId username : string)
| Offer (offer from : string)
| Answer (answer from : string)
| IceCandidate (candidate from : string)
| SessionMessage (message fromId fromUsername : string) (timestamp : Z)
| Typing (userId username isTyping : string)
| ParticipantDisconnected (userId username reason : string).

(** [io.to(room)], [socket.to(room)] (the room without the sender) and
    [socket.emit] (the sender alone). *)
Inductive Target :=
| ToRoom (room : string)
| ToRoomExcept (room sender : string)
| ToSocket (socketId : string).

Record Emit := mkEmit { e_target : Target; e_event : Event }.

(** The sockets an emit reaches, given the rooms at that moment. *)
Definition recipients (rs : gmap string (gset string)) (t : Target) : gset string :=
  match t with
  | ToRoom room => members rs room
  | ToRoomExcept room sender => members rs room ∖ {[sender]}
  | ToSocket socketId => {[socketId]}
  end.

(** The HTTP replies of the routes; socket listeners answer with events
    only ([NoResponse]).  [Matched] keeps the pool entry the join took:
    the [partner] of the reply is its user. *)
Inductive Response :=
| ValidationFailed
| TopicNotFound
| AlreadyWaiting
| InActiveSession
| Matched (session : Session) (waitingUser : WaitingEntry)
| AddedToPool (waitingPoolId : nat)
| LeftPool (removedCount : nat)
| SessionNotFound
| AccessDenied
| AlreadyEnded
| SessionCancelledOk
| RemovedFromAllPools
| SessionEndedOk (session : Session)
| ServerError (message : string)
| NoResponse.

Definition statusCode (r : Response) : nat :=
  match r with
  | ValidationFailed | AlreadyWaiting | InActiveSession | AlreadyEnded => 400
  | AccessDenied => 403
  | TopicNotFound | SessionNotFound => 404
  | ServerError _ => 500
  | Matched _ _ | AddedToPool _ | LeftPool _ | SessionCancelledOk
  | RemovedFromAllPools | SessionEndedOk _ | NoResponse => 200
  end.

Definition message (r : Response) : string :=
  match r with
  | ValidationFailed => "Validation failed"
  | TopicNotFound => "Topic not found"
  | AlreadyWaiting => "Already in waiting pool for this topic"
  | InActiveSession => "Cannot join while in an active session"
  | Matched _ _ => "Match found!"
  | AddedToPool _ => "Added to waiting pool"
  | LeftPool _ => "Left waiting pool"
  | SessionNotFound => "Session not found"
  | AccessDenied => "Access denied to this session"
  | AlreadyEnded => "Session already ended"
  | SessionCancelledOk => "Session cancelled"
  | RemovedFromAllPools => "Removed from all waiting pools"
  | SessionEndedOk _ => "Session ended successfully"
  | ServerError m => m
  | NoResponse => ""
  end.

(** The two replies of the conflict checks of [/matching/join]. *)
Definition isConflict (r : Response) : bool :=
  match r with
  | AlreadyWaiting | InActiveSession => true
  | _ => false
  end.

Definition Handler := Async.t World (Response * list Emit).

Definition reply (r : Response) : Handler := Async.Done (r, []).

(** ** [/matching] routes (the router at the end of [routes/topics.js])

    [userId] is [req.user._id]; [now] is what [Date.now()] returns while
    the request is served and [uuid] what [uuidv4()] returns. *)
Module Matching.

(** [POST /join].  [topicId = None] is a body whose [topicId] the
    [isMongoId] validator rejects. *)
Definition join (userId : string) (topicId socketId : option string) (now : Z)
    (uuid : string) : Handler :=
  match topicId with
  | None => reply ValidationFailed
  | Some topicId =>
      const topic ← await Topic_findById topicId;
      match topic with
      | None => reply TopicNotFound
      | Some topic =>
          if negb (t_isActive topic) then reply TopicNotFound else
          const existingEntry ← await WaitingPool_findOne (qEntryOf userId topicId);
          if existingEntry is Some _ then reply AlreadyWaiting else
          const activeSession ← await Session_findOne (qOpenSessionOf userId);
          if activeSession is Some _ then reply InActiveSession else
          const waitingUser ← await WaitingPool_findOne (qPartnerFor userId topicId);
          match waitingUser with
          | Some waitingUser =>
              const saved ← await Session_create topicId (we_user waitingUser) userId uuid now;
              match saved with
              | None => reply (ServerError "Server error during matching")
              | Some session =>
                  await_ WaitingPool_deleteOne (qEntryId (we_id waitingUser));
                  await_ populate;
                  Async.Done
                    (Matched session waitingUser,
                     [mkEmit (ToRoom (we_socketId waitingUser))
                             (MatchFound session userId)])
              end
          | None =>
              let socketId :=
                match truthy socketId with
                | Some s => s
                | None => "temp-" +:+ pretty now
                end in
              const saved ← await WaitingPool_create userId topicId socketId now;
              match saved with
              | None => reply (ServerError "Server error during matching")
              | Some waitingEntry => reply (AddedToPool (we_id waitingEntry))
              end
          end
      end
  end.

(** [POST /leave].  The validator's verdict is not read, so the
    [topicId] reaches the query as sent, and a [topicId] that cannot be
    cast makes [deleteMany] throw into the [catch]. *)
Definition leave (userId : string) (topicId : option SentId) : Handler :=
  match truthySent topicId with
  | None =>
      const removed ← await WaitingPool_deleteMany (qLeave userId None);
      reply (LeftPool removed)
  | Some topicId =>
      match castObjectId topicId with
      | None => reply (ServerError "Server error leaving waiting pool")
      | Some topicId =>
          const removed ← await WaitingPool_deleteMany (qLeave userId (Some topicId));
          reply (LeftPool removed)
      end
  end.

(** [POST /cancel] *)
Definition cancel (userId : string) (sessionId : option nat) (now : Z) : Handler :=
  match sessionId with
  | Some sessionId =>
      const session ← await Session_findById sessionId;
      match session with
      | None => reply SessionNotFound
      | Some session =>
          if negb (isParticipant session userId) then reply AccessDenied else
          if ended (s_status session) then reply AlreadyEnded else
          const saved ← await Session_save (finish session StCancelled now);
          match saved with
          | None => reply (ServerError "Server error during cancellation")
          | Some session =>
              Async.Done
                (SessionCancelledOk,
                 [mkEmit (ToRoom (s_roomId session))
                         (SessionCancelled (s_id session) userId)])
          end
      end
  | None =>
      await_ WaitingPool_deleteMany (qLeave userId None);
      reply RemovedFromAllPools
  end.

End Matching.

(** ** [routes/sessions.js] *)
Module Sessions.

(** [PATCH /:id/end] *)
Definition endSession (userId : string) (id : nat) (now : Z) : Handler :=
  const session ← await Session_findById id;
  match session with
  | None => reply SessionNotFound
  | Some session =>
      if negb (isParticipant session userId) then reply AccessDenied else
      if ended (s_status session) then reply AlreadyEnded else
      const saved ← await Session_save (finish session StCompleted now);
      match saved with
      | None => reply (ServerError "Server error ending session")
      | Some session =>
          await_ User_incBoth (s_user1 session) (s_user2 session);
          await_ Topic_findByIdAndUpdate (s_topic session) incSessionsCount;
          Async.Done
            (SessionEndedOk session,
             [mkEmit (ToRoom (s_roomId session)) (SessionEnded (s_id session) userId)])
      end
  end.

End Sessions.

(** ** [socket/socketHandler.js]: the listeners of one connected socket *)
Module SocketHandler.

Definition Listener := Async.t World (list Emit).

Definition toSelf (sock : Socket) (ev : Event) : Emit := mkEmit (ToSocket (sk_id sock)) ev.

Definition toOthers (sock : Socket) (room : string) (ev : Event) : Emit :=
  mkEmit (ToRoomExcept room (sk_id sock)) ev.

(** [io.on('connection', ...)]: socket.io has put the socket in the room
    of its own id; the callback records the connection, touches
    [lastSeen] and joins the user's personal room. *)
Definition connection (sock : Socket) (now : Z) : Listener :=
  await_ socket_join sock (sk_id sock);
  await_ registry_set sock now;
  await_ User_findByIdAndUpdate (sk_userId sock) (setLastSeen now);
  await_ socket_join sock ("user_" +:+ sk_userId sock);
  Async.Done [].

(** [socket.on('joinWaitingPool', ...)]; a [topicId] that cannot be cast
    makes [findOneAndUpdate] throw into the [catch], before the socket
    has joined the room. *)
Definition joinWaitingPool (sock : Socket) (topicId : SentId) : Listener :=
  match castObjectId topicId with
  | None => Async.Done [toSelf sock (ErrorEvent "Failed to join waiting pool")]
  | Some topicId =>
      await_ WaitingPool_findOneAndUpdate (qEntryOf (sk_userId sock) topicId) (sk_id sock);
      await_ socket_join sock ("waiting_" +:+ topicId);
      Async.Done [toSelf sock (WaitingPoolJoined topicId (sk_id sock))]
  end.

(** [socket.on('leaveWaitingPool', ...)]; a [topicId] that cannot be cast
    makes [findOneAndDelete] throw into the [catch], before the socket
    has left the room. *)
Definition leaveWaitingPool (sock : Socket) (topicId : SentId) : Listener :=
  match castObjectId topicId with
  | None => Async.Done [toSelf sock (ErrorEvent "Failed to leave waiting pool")]
  | Some topicId =>
      await_ WaitingPool_deleteOne (qEntryOf (sk_userId sock) topicId);
      await_ socket_leave sock ("waiting_" +:+ topicId);
      Async.Done [toSelf sock (WaitingPoolLeft topicId)]
  end.

(** [socket.on('joinSession', ...)] *)
Definition joinSession (sock : Socket) (sessionId : nat) (roomId : string) : Listener :=
  const session ← await Session_findById sessionId;
  match session with
  | None => Async.Done [toSelf sock (ErrorEvent "Session not found")]
  | Some session =>
      if negb (isParticipant session (sk_userId sock))
      then Async.Done [toSelf sock (ErrorEvent "Access denied to session")]
      else
        await_ socket_join sock roomId;
        Async.Done
          [toOthers sock roomId (ParticipantJoined (sk_userId sock) (sk_username sock));
           toSelf sock (SessionJoined sessionId roomId)]
  end.

(** [socket.on('leaveSession', ...)] *)
Definition leaveSession (sock : Socket) (roomId : string) : Listener :=
  await_ socket_leave sock roomId;
  Async.Done
    [toOthers sock roomId (ParticipantLeft (sk_userId sock) (sk_username sock))].

(** [socket.on('offer', ...)] *)
Definition offer (sock : Socket) (roomId payload : string) : Listener :=
  Async.Done [toOthers sock roomId (Offer payload (sk_userId sock))].

(** [socket.on('answer', ...)] *)
Definition answer (sock : Socket) (roomId payload : string) : Listener :=
  Async.Done [toOthers sock roomId (Answer payload (sk_userId sock))].

(** [socket.on('ice-candidate', ...)] *)
Definition iceCandidate (sock : Socket) (roomId payload : string) : Listener :=
  Async.Done [toOthers sock roomId (IceCandidate payload (sk_userId sock))].

(** [socket.on('sessionMessage', ...)] *)
Definition sessionMessage (sock : Socket) (roomId payload : string) (now : Z) : Listener :=
  Async.Done
    [toOthers sock roomId (SessionMessage payload (sk_userId sock) (sk_username sock) now)].

(** [socket.on('typing', ...)] *)
Definition typing (sock : Socket) (roomId payload : string) : Listener :=
  Async.Done [toOthers sock roomId (Typing (sk_userId sock) (sk_username sock) payload)].

(** [socket.on('updateStatus', ...)] *)
Definition updateStatus (sock : Socket) (status : string) (now : Z) : Listener :=
  await_ registry_setStatus sock status;
  await_ User_findByIdAndUpdate (sk_userId sock) (setLastSeen now);
  Async.Done [].

(** [socket.on('disconnect', ...)]; the closing socket has left its rooms
    when the listener starts. *)
Definition disconnect (sock : Socket) (reason : string) (now : Z) : Listener :=
  await_ socket_leaveAll sock;
  await_ registry_delete sock;
  await_ User_findByIdAndUpdate (sk_userId sock) (setLastSeen now);
  await_ WaitingPool_deleteMany (qOfSocket sock);
  const activeSessions ← await Session_find (qActiveSessionOf (sk_userId sock));
  Async.Done
    (map (fun session =>
            toOthers sock (s_roomId session)
              (ParticipantDisconnected (sk_userId sock) (sk_username sock) reason))
         activeSessions).

(** The five listeners that only forward a payload. *)
Inductive RelayKind := KOffer | KAnswer | KIceCandidate | KSessionMessage | KTyping.

Definition relay (kind : RelayKind) (sock : Socket) (roomId payload : string) (now : Z)
    : Listener :=
  match kind with
  | KOffer => offer sock roomId payload
  | KAnswer => answer sock roomId payload
  | KIceCandidate => iceCandidate sock roomId payload
  | KSessionMessage => sessionMessage sock roomId payload now
  | KTyping => typing sock roomId payload
  end.

End SocketHandler.

(** ** The server as a whole: requests and socket events *)

Inductive Op :=
| OpJoin (userId : string) (topicId socketId : option string) (now : Z) (uuid : string)
| OpLeave (userId : string) (topicId : option SentId)
| OpCancel (userId : string) (sessionId : option nat) (now : Z)
| OpEnd (userId : string) (sessionId : nat) (now : Z)
| OpConnection (sock : Socket) (now : Z)
| OpJoinWaitingPool (sock : Socket) (topicId : SentId)
| OpLeaveWaitingPool (sock : Socket) (topicId : SentId)
| OpJoinSession (sock : Socket) (sessionId : nat) (roomId : string)
| OpLeaveSession (sock : Socket) (roomId : string)
| OpRelay (kind : SocketHandler.RelayKind) (sock : Socket) (roomId payload : string)
          (now : Z)
| OpUpdateStatus (sock : Socket) (status : string) (now : Z)
| OpDisconnect (sock : Socket) (reason : string) (now : Z).

(** A request or event served with nothing in between. *)
Definition serve (op : Op) (w : World) : (Response * list Emit) * World :=
  let listener (l : SocketHandler.Listener) :=
    let '(emits, w') := Async.run l w in ((NoResponse, emits), w') in
  match op with
  | OpJoin u t s now uuid => Async.run (Matching.join u t s now uuid) w
  | OpLeave u t => Async.run (Matching.leave u t) w
  | OpCancel u s now => Async.run (Matching.cancel u s now) w
  | OpEnd u s now => Async.run (Sessions.endSession u s now) w
  | OpConnection sock now => listener (SocketHandler.connection sock now)
  | OpJoinWaitingPool sock t => listener (SocketHandler.joinWaitingPool sock t)
  | OpLeaveWaitingPool sock t => listener (SocketHandler.leaveWaitingPool sock t)
  | OpJoinSession sock s r => listener (SocketHandler.joinSession sock s r)
  | OpLeaveSession sock r => listener (SocketHandler.leaveSession sock r)
  | OpRelay k sock r p now => listener (SocketHandler.relay k sock r p now)
  | OpUpdateStatus sock st now => listener (SocketHandler.updateStatus sock st now)
  | OpDisconnect sock reason now => listener (SocketHandler.disconnect sock reason now)
  end.

(** A sequence of them, each served in turn. *)
Fixpoint serveAll (ops : list Op) (w : World) : list (Response * list Emit) * World :=
  match ops with
  | [] => ([], w)
  | op :: ops' =>
      let '(r, w') := serve op w in
      let '(rs, w'') := serveAll ops' w' in
      (r :: rs, w'')
  end.

(** ** Predicates the statements use *)

Definition findSession (w : World) (id : nat) : option Session :=
  List.find (qSessionId id) (sessions w).

(** The ObjectId supply is ahead of every stored waiting entry. *)
Definition poolIdsBelow (w : World) : Prop :=
  Forall (fun e => we_id e < nextId w) (waitingPool w).

(** ... and no two entries share an [_id]. *)
Definition poolIdsFresh (w : World) : Prop :=
  poolIdsBelow w ∧ NoDup (map we_id (waitingPool w)).

Definition roomUnused (w : World) (roomId : string) : Prop :=
  existsb (fun s => String.eqb (s_roomId s) roomId) (sessions w) = false.

Definition hasEntry (w : World) (userId topicId : string) : bool :=
  existsb (qEntryOf userId topicId) (waitingPool w).

Definition hasOpenSession (w : World) (userId : string) : bool :=
  existsb (qOpenSessionOf userId) (sessions w).

Definition topicActive (w : World) (topicId : string) : bool :=
  match topics w !! topicId with
  | Some t => t_isActive t
  | None => false
  end.

(** The entries a run of replies consumed in matches. *)
Definition matchedEntries (rs : list (Response * list Emit)) : list WaitingEntry :=
  flat_map (fun r => match fst r with Matched _ e => [e] | _ => [] end) rs.

(** How many of the replies are a successful end of session [id]. *)
Definition isEndOf (id : nat) (r : Response * list Emit) : bool :=
  match fst r with
  | SessionEndedOk s => Nat.eqb (s_id s) id
  | _ => false
  end.

Definition sessionsCompleted (w : World) (userId : string) : option nat :=
  u_sessionsCompleted <$> users w !! userId.

Definition sessionsCount (w : World) (topicId : string) : option nat :=
  t_sessionsCount <$> topics w !! topicId.

(** Entries of the pool in joining order: [joinedAt] never decreases along
    the collection. *)
Fixpoint chronological (l : list WaitingEntry) : Prop :=
  match l with
  | [] => True
  | e :: l' => Forall (fun e' => (we_joinedAt e <= we_joinedAt e')%Z) l' ∧ chronological l'
  end.

(** The state after a loaded session was finished and saved. *)
Definition saved (s : Session) (st : SessionStatus) (now : Z) (w : World) : World :=
  set_sessions (updateFirst (qSessionId (s_id s)) (writeEnd (preSave (finish s st now)))) w.

(** Whether a request is an end or a cancel of session [id]. *)
Definition closes (id : nat) (op : Op) : bool :=
  match op with
  | OpEnd _ id' _ | OpCancel _ (Some id') _ => Nat.eqb id' id
  | _ => false
  end.

(** The ways a handler other than a successful join changes the pool. *)
Inductive PoolChange (l : list WaitingEntry) : list WaitingEntry → Prop :=
| PcSame : PoolChange l l
| PcDeleteOne q : PoolChange l (deleteFirst q l)
| PcDeleteMany q : PoolChange l (deleteAll q l)
| PcRebind q socketId : PoolChange l (updateFirst q (setSocketId socketId) l).

(** An [_id] a later match may still consume: it is in the pool, or not
    handed out yet. *)
Definition matchable (w : World) (id : nat) : Prop :=
  In id (map we_id (waitingPool w)) ∨ (nextId w ≤ id)%nat.

(** ** Concrete states for the examples *)
Module Scenario.

Definition css : Topic := mkTopic "css" true 0.

Definition people : gmap string User :=
  {[ "A" := mkUser "alice" 0 0; "B" := mkUser "bob" 0 0; "C" := mkUser "carol" 0 0 ]}.

(** Nobody waits, nobody is in a session. *)
Definition empty : World := mkWorld [] [] {[ "css" := css ]} people 0 ∅ ∅.

(** B and C are in an active session; nobody waits. *)
Definition busy : World :=
  mkWorld [] [mkSession 0 "css" "B" "C" "room-0" StActive 1 None 0]
          {[ "css" := css ]} people 1 ∅ ∅.

(** As [busy], but the topic has been switched off. *)
Definition retired : World :=
  mkWorld [] [mkSession 0 "css" "B" "C" "room-0" StActive 1 None 0]
          {[ "css" := mkTopic "css" false 0 ]} people 1 ∅ ∅.

(** A waits for css. *)
Definition oneWaiting : World :=
  mkWorld [mkWaitingEntry 0 "A" "css" 5 "sock-A" true] [] {[ "css" := css ]} people 1 ∅ ∅.

(** A and B both wait for css; A's entry is stored first, B's carries the
    earlier [joinedAt]. *)
Definition twoWaiting : World :=
  mkWorld [mkWaitingEntry 0 "A" "css" 20 "sock-A" true;
           mkWaitingEntry 1 "B" "css" 10 "sock-B" true]
          [] {[ "css" := css ]} people 2 ∅ ∅.

Definition sockA1 : Socket := mkSocket "sock-A1" "A" "alice".
Definition sockA2 : Socket := mkSocket "sock-A2" "A" "alice".
Definition sockB : Socket := mkSocket "sock-B" "B" "bob".
Definition sockC : Socket := mkSocket "sock-C" "C" "carol".

End Scenario.

(** ** The read-only routes *)

(** [WaitingPool.find(q)] *)
Definition WaitingPool_find (q : WaitingEntry → bool) (w : World)
    : list WaitingEntry * World :=
  (List.filter q (waitingPool w), w).

(** [WaitingPool.countDocuments(q)] *)
Definition WaitingPool_countDocuments (q : WaitingEntry → bool) (w : World) : nat * World :=
  (countMatches q (waitingPool w), w).

(** [Session.countDocuments(q)] *)
Definition Session_countDocuments (q : Session → bool) (w : World) : nat * World :=
  (countMatches q (sessions w), w).

(** [GET /status] and [GET /stats/:topicId] of the [/matching] router. *)
Module MatchingQueries.

(** [{ user: userId, isActive: true }] *)
Definition qWaitingOf (userId : string) (e : WaitingEntry) : bool :=
  String.eqb (we_user e) userId && we_isActive e.

(** [{ topic: topicId, isActive: true }] *)
Definition qWaitingFor (topicId : string) (e : WaitingEntry) : bool :=
  String.eqb (we_topic e) topicId && we_isActive e.

(** The body [GET /status] answers with. *)
Record Status := mkStatus {
  isWaiting : bool;
  waitingFor : list WaitingEntry;
  hasActiveSession : bool;
  activeSession : option Session
}.

(** [GET /status] *)
Definition status (userId : string) : Async.t World Status :=
  const waitingEntries ← await WaitingPool_find (qWaitingOf userId);
  const activeSession ← await Session_findOne (qOpenSessionOf userId);
  Async.Done
    (mkStatus (Nat.ltb 0 (List.length waitingEntries)) waitingEntries
              (if activeSession is Some _ then true else false) activeSession).

(** [waitingCount > 0 ? Math.max(1, Math.ceil(waitingCount / 2)) * 2 : 1] *)
Definition estimatedWaitTime (waitingCount : nat) : nat :=
  if Nat.ltb 0 waitingCount
  then Nat.max 1 (Nat.div (waitingCount + 1) 2) * 2
  else 1.

Inductive Stats :=
| StatsTopicNotFound
| StatsOk (topicName : string) (waitingCount recentSessions24h estimated : nat).

(** [GET /stats/:topicId].  [createdAt] is the timestamp Mongoose's
    [timestamps] option keeps for each session, which the [Session] record
    does not carry. *)
Definition stats (createdAt : Session → Z) (topicId : string) (now : Z)
    : Async.t World Stats :=
  const topic ← await Topic_findById topicId;
  match topic with
  | None => Async.Done StatsTopicNotFound
  | Some topic =>
      const waitingCount ← await WaitingPool_countDocuments (qWaitingFor topicId);
      const recentSessions ← await Session_countDocuments
        (fun s => String.eqb (s_topic s) topicId
                  && (now - 24 * 60 * 60 * 1000 <=? createdAt s)%Z);
      Async.Done
        (StatsOk (t_name topic) waitingCount recentSessions
                 (estimatedWaitTime waitingCount))
  end.

End MatchingQueries.

(** [GET /:id] of [routes/sessions.js]. *)
Module SessionQueries.

Inductive Found :=
| GetNotFound
| GetAccessDenied
| GetOk (session : Session).

Definition getSession (userId : string) (id : nat) : Async.t World Found :=
  const session ← await Session_findById id;
  match session with
  | None => Async.Done GetNotFound
  | Some session =>
      if negb (isParticipant session userId) then Async.Done GetAccessDenied
      else Async.Done (GetOk session)
  end.

End SessionQueries.

(** ** The object [socketHandler] returns, and its timer *)
Module ServerHandle.

(** [getConnectionCount: () => activeConnections.size] *)
Definition getConnectionCount (w : World) : nat := size (activeConnections w).

(** [notifyUser: (userId, event, data) => io.to(`user_${userId}`).emit(event, data)] *)
Definition notifyUser (userId : string) (ev : Event) : Emit :=
  mkEmit (ToRoom ("user_" +:+ userId)) ev.

(** What the sweep deletes: a connection older than five minutes whose
    socket is not (or no longer) among the connected sockets of the
    server. *)
Definition swept (now : Z) (connected : gset string) (c : Connection) : bool :=
  (c_connectedAt c <? now - 5 * 60 * 1000)%Z
  && negb (bool_decide (c_socketId c ∈ connected)).

(** One run of the [setInterval] callback; [connected] are the ids of the
    sockets [io.sockets.sockets] holds with [connected] set. *)
Definition cleanup (now : Z) (connected : gset string) (w : World) : World :=
  set_activeConnections
    (filter (fun kc : string * Connection => swept now connected kc.2 = false)) w.

End ServerHandle.

(** ** The browser's [SocketService]: reconnecting *)
Module SocketService.

(** The fields of the service the reconnect logic uses: whether [socket]
    is set, and [reconnectAttempts]. *)
Record State := mkState {
  socketSet : bool;
  reconnectAttempts : nat
}.

Definition maxReconnectAttempts : nat := 5.

(** [handleReconnect()]: the new state and the delay (ms) of the timer it
    sets, if it sets one. *)
Definition handleReconnect (st : State) : State * option nat :=
  if Nat.ltb (reconnectAttempts st) maxReconnectAttempts
  then
    let n := S (reconnectAttempts st) in
    (mkState (socketSet st) n, Some (1000 * n))
  else (st, None).

(** What happens to the service: a call of [connect()] (with or without
    a token in the cookie), the socket's [connect] and [disconnect]
    events, and a call of the service's own [disconnect()]. *)
Inductive Happening :=
| ConnectCalled (token : bool)
| Connected
| Disconnected (reason : string)
| DisconnectCalled.

Definition happen (h : Happening) (st : State) : State * option nat :=
  match h with
  | ConnectCalled token =>
      (if token then mkState true (reconnectAttempts st) else st, None)
  | Connected => (mkState (socketSet st) 0, None)
  | Disconnected reason =>
      if String.eqb reason "io server disconnect" then handleReconnect st
      else (st, None)
  | DisconnectCalled => (mkState false (reconnectAttempts st), None)
  end.

(** The disconnect the service answers by reconnecting. *)
Definition serverDisconnect : Happening := Disconnected "io server disconnect".

Definition isConnectEvent (h : Happening) : bool :=
  match h with
  | Connected => true
  | _ => false
  end.

(** The timers set over a run of happenings, in order. *)
Fixpoint timers (hs : list Happening) (st : State) : list nat * State :=
  match hs with
  | [] => ([], st)
  | h :: hs' =>
      let '(st', t) := happen h st in
      let '(ts, st'') := timers hs' st' in
      (match t with Some d => d :: ts | None => ts end, st'')
  end.

(** The timer callback: [if (this.socket) this.socket.connect()]. *)
Definition timerFires (st : State) : bool := socketSet st.

End SocketService.

(** ** More predicates the statements use *)

(** No two waiting entries for the same user and topic (the unique index
    of the schema). *)
Definition pairsUnique (w : World) : Prop :=
  NoDup (map (fun e => (we_user e, we_topic e)) (waitingPool w)).

(** Every waiting entry is active, and no topic has two of them. *)
Definition oneWaiterPerTopic (w : World) : Prop :=
  Forall (fun e => we_isActive e = true) (waitingPool w)
  ∧ NoDup (map we_topic (waitingPool w)).

Definition distinctParticipants (w : World) : Prop :=
  Forall (fun s => s_user1 s ≠ s_user2 s) (sessions w).

(** ** More concrete states *)
Module Cases.

Definition js : Topic := mkTopic "js" true 0.

(** A waits for css and B for js. *)
Definition crossWaiting : World :=
  mkWorld [mkWaitingEntry 0 "A" "css" 5 "sock-A" true;
           mkWaitingEntry 1 "B" "js" 6 "temp-6" true]
          [] {[ "css" := Scenario.css; "js" := js ]} Scenario.people 2 ∅ ∅.

(** The session of B and C has been completed. *)
Definition over : World :=
  mkWorld [] [mkSession 0 "css" "B" "C" "room-0" StCompleted 1 (Some 90001%Z) 2]
          {[ "css" := mkTopic "css" true 1 ]} Scenario.people 1 ∅ ∅.

End Cases.

(** * Properties *)

(** ** Lists as collections *)
Section Collections.
Context {A : Type}.
Implicit Types (q : A → bool) (l : list A).

Lemma find_None_Forall q l :
  List.find q l = None ↔ Forall (fun x => q x = false) l.
Proof.
  induction l as [|x l IH]; cbn.
  - split; [constructor | done].
  - destruct (q x) eqn:Hq.
    + split; [done | intros H; inversion H; congruence].
    + rewrite IH. split; [by constructor | by inversion 1].
Qed.

Lemma existsb_false_Forall q l :
  existsb q l = false ↔ Forall (fun x => q x = false) l.
Proof.
  induction l as [|x l IH]; cbn.
  - split; [constructor | done].
  - rewrite orb_false_iff, IH. split; [intros []; by constructor | by inversion 1].
Qed.

Lemma find_app_None q l l' :
  List.find q l = None → List.find q (l ++ l') = List.find q l'.
Proof.
  induction l as [|x l IH]; cbn; [done|].
  destruct (q x); [done | exact IH].
Qed.

Lemma find_app_Some q l l' x :
  List.find q l = Some x → List.find q (l ++ l') = Some x.
Proof.
  induction l as [|y l IH]; cbn; [done|].
  destruct (q y); [done | exact IH].
Qed.

Lemma existsb_app_false q l l' :
  existsb q l = false → existsb q (l ++ l') = existsb q l'.
Proof. intros H. by rewrite existsb_app, H. Qed.

Lemma deleteFirst_app_None q l l' :
  Forall (fun x => q x = false) l → deleteFirst q (l ++ l') = l ++ deleteFirst q l'.
Proof.
  induction 1 as [|x l Hx _ IH]; cbn; [done|].
  by rewrite Hx, IH.
Qed.

Lemma deleteFirst_None q l :
  Forall (fun x => q x = false) l → deleteFirst q l = l.
Proof.
  induction 1 as [|x l Hx _ IH]; cbn; [done|].
  by rewrite Hx, IH.
Qed.

Lemma updateFirst_None q (f : A → A) l :
  Forall (fun x => q x = false) l → updateFirst q f l = l.
Proof.
  induction 1 as [|x l Hx _ IH]; cbn; [done|].
  by rewrite Hx, IH.
Qed.

Lemma deleteAll_None q l :
  Forall (fun x => q x = false) l → deleteAll q l = l.
Proof.
  unfold deleteAll. induction 1 as [|x l Hx _ IH]; cbn; [done|].
  by rewrite Hx, IH.
Qed.

End Collections.

Lemma eqb_neq_false (a b : string) : a ≠ b → String.eqb a b = false.
Proof. apply String.eqb_neq. Qed.

(** ** Join after join *)

Lemma join_enqueued_inv w A T sockA now uuid id emits w1 :
  Async.run (Matching.join A (Some T) sockA now uuid) w = ((AddedToPool id, emits), w1) →
  topicActive w T = true
  ∧ List.find (qEntryOf A T) (waitingPool w) = None
  ∧ List.find (qOpenSessionOf A) (sessions w) = None
  ∧ List.find (qPartnerFor A T) (waitingPool w) = None
  ∧ existsb (fun e' => String.eqb (we_user e') A && String.eqb (we_topic e') T)
            (waitingPool w) = false
  ∧ id = nextId w ∧ emits = []
  ∧ ∃ sid, w1 = bump_nextId (set_waitingPool
                   (fun l => l ++ [mkWaitingEntry (nextId w) A T now sid true]) w).
Proof.
  unfold Matching.join, topicActive. cbn.
  destruct (topics w !! T) as [topic|] eqn:Ht; cbn; [|done].
  destruct (t_isActive topic) eqn:Hact; cbn; [|done].
  destruct (List.find (qEntryOf A T) (waitingPool w)) eqn:He; cbn; [done|].
  destruct (List.find (qOpenSessionOf A) (sessions w)) eqn:Hs; cbn; [done|].
  destruct (List.find (qPartnerFor A T) (waitingPool w)) eqn:Hp; cbn.
  { unfold Session_create. case (existsb _ (sessions w)); cbn; done. }
  unfold WaitingPool_create.
  case_eq (existsb (fun e' => String.eqb (we_user e') A && String.eqb (we_topic e') T)
                   (waitingPool w)); cbn; [done|].
  intros Hex [= <- <- <-]. eauto 10.
Qed.

(** C1, as the handler has it.  A's join for T was answered "Added to
    waiting pool"; B is another user, has no waiting or active session,
    and the room id drawn for B's request is not stored yet (the ObjectId
    supply being ahead of the stored entries).  Then B's join for T is
    answered "Match found!" with A's entry and a session that is new in
    the store, has A and B as its two participants and status [active];
    A's entry is gone and nothing of A waits for T any more. *)
Theorem join_after_enqueue (w w1 : World) (A B T : string) (sockA sockB : option string)
    (nowA nowB : Z) (uuidA uuidB : string) (idA : nat) (emitsA : list Emit) :
  poolIdsBelow w →
  A ≠ B →
  Async.run (Matching.join A (Some T) sockA nowA uuidA) w = ((AddedToPool idA, emitsA), w1) →
  hasOpenSession w B = false →
  roomUnused w uuidB →
  ∃ session entry w2,
    Async.run (Matching.join B (Some T) sockB nowB uuidB) w1
    = ((Matched session entry,
        [mkEmit (ToRoom (we_socketId entry)) (MatchFound session B)]), w2)
    ∧ we_id entry = idA ∧ we_user entry = A ∧ we_topic entry = T
    ∧ s_user1 session = A ∧ s_user2 session = B ∧ s_topic session = T
    ∧ s_status session = StActive
    ∧ sessions w2 = sessions w ++ [session]
    ∧ waitingPool w1 = waitingPool w ++ [entry]
    ∧ waitingPool w2 = waitingPool w
    ∧ Forall (fun e => ¬ (we_user e = A ∧ we_topic e = T)) (waitingPool w2).
Proof.
  intros Hids Hne Hjoin Hsess Hroom.
  apply join_enqueued_inv in Hjoin
    as (Htopic & HeA & HsA & HpA & Huniq & -> & -> & sid & ->).
  apply find_None_Forall in HpA. apply existsb_false_Forall in Huniq.
  apply existsb_false_Forall in Hsess.
  set (eA := mkWaitingEntry (nextId w) A T nowA sid true).
  (* nobody but A waits for T, and A did not: no entry for T answers B's queries *)
  assert (Forall (fun e => qEntryOf B T e = false) (waitingPool w)) as HeB.
  { eapply Forall_impl; [exact HpA|]. intros e. unfold qPartnerFor, qEntryOf.
    destruct (String.eqb_spec (we_user e) B) as [->|]; [|done].
    rewrite (eqb_neq_false B A) by done. cbn.
    destruct (we_topic e =? T)%string, (we_isActive e); cbn; congruence. }
  assert (Forall (fun e => qPartnerFor B T e = false) (waitingPool w)) as HpB.
  { apply Forall_forall. intros e He.
    pose proof (proj1 (Forall_forall _ _) HpA e He) as H1.
    pose proof (proj1 (Forall_forall _ _) Huniq e He) as H2. cbn in H2.
    unfold qPartnerFor in *.
    destruct (we_topic e =? T)%string; [|done].
    destruct (we_user e =? A)%string eqn:HA; [by rewrite andb_true_r in H2|].
    cbn in H1. destruct (we_isActive e); [done|]. by rewrite andb_false_r. }
  assert (qPartnerFor B T eA = true) as HeAB.
  { unfold qPartnerFor. cbn. rewrite String.eqb_refl.
    by rewrite (eqb_neq_false A B). }
  assert (qEntryOf B T eA = false) as HeAB'.
  { unfold qEntryOf. cbn. by rewrite (eqb_neq_false A B). }
  unfold topicActive in Htopic.
  destruct (topics w !! T) as [topic|] eqn:Ht; [|done].
  exists (mkSession (S (nextId w)) T A B uuidB StActive nowB None 0), eA.
  eexists. split.
  { unfold Matching.join. cbn. rewrite Ht. cbn. rewrite Htopic. cbn.
    rewrite (find_app_None _ _ _ (proj2 (find_None_Forall _ _) HeB)). cbn.
    rewrite HeAB'. cbn.
    rewrite (proj2 (find_None_Forall _ _) Hsess). cbn.
    rewrite (find_app_None _ _ _ (proj2 (find_None_Forall _ _) HpB)). cbn.
    rewrite HeAB. cbn.
    unfold Session_create. cbn. unfold roomUnused in Hroom. rewrite Hroom. cbn.
    reflexivity. }
  cbn.
  assert (deleteFirst (qEntryId (nextId w)) (waitingPool w ++ [eA]) = waitingPool w) as ->.
  { rewrite deleteFirst_app_None.
    - cbn. unfold qEntryId. cbn. rewrite Nat.eqb_refl. by rewrite app_nil_r.
    - eapply Forall_impl; [exact Hids|]. intros e He. cbn beta in He. unfold qEntryId.
      apply Nat.eqb_neq. lia. }
  do 10 (split; [reflexivity|]).
  eapply Forall_impl; [exact Huniq|]. intros e He [Hu Ht']. cbn in He.
  rewrite Hu, Ht', !String.eqb_refl in He. done.
Qed.

(** B's join is turned away when B is already in a session, although A was
    enqueued for the same topic just before. *)
Lemma join_after_enqueue_in_session :
  let w1 := snd (Async.run (Matching.join "A" (Some "css") None 5 "r1") Scenario.busy) in
  "A" ≠ "B"
  ∧ fst (Async.run (Matching.join "A" (Some "css") None 5 "r1") Scenario.busy)
    = (AddedToPool 1, [])
  ∧ Async.run (Matching.join "B" (Some "css") None 7 "r2") w1 = ((InActiveSession, []), w1)
  ∧ map we_user (waitingPool w1) = ["A"].
Proof. repeat split; done. Qed.

Lemma join_after_enqueue_witness :
  ∃ session entry w2,
    Async.run (Matching.join "B" (Some "css") None 7 "r2")
      (snd (Async.run (Matching.join "A" (Some "css") None 5 "r1") Scenario.empty))
    = ((Matched session entry,
        [mkEmit (ToRoom (we_socketId entry)) (MatchFound session "B")]), w2)
    ∧ s_user1 session = "A" ∧ s_user2 session = "B" ∧ s_status session = StActive
    ∧ waitingPool w2 = [].
Proof.
  destruct (join_after_enqueue Scenario.empty
              (snd (Async.run (Matching.join "A" (Some "css") None 5 "r1") Scenario.empty))
              "A" "B" "css" None None 5 7 "r1" "r2" 0 [])
    as (s & e & w2 & Hrun & _ & _ & _ & H1 & H2 & _ & H3 & _ & _ & Hpool & _).
  - constructor.
  - discriminate.
  - reflexivity.
  - reflexivity.
  - reflexivity.
  - exists s, e, w2. repeat split; assumption.
Defined.

(** ** Conflict checks of a join *)

Lemma existsb_find_None {A} (q : A → bool) l :
  existsb q l = false → List.find q l = None.
Proof. intros H. by apply find_None_Forall, existsb_false_Forall. Qed.

Lemma existsb_find_Some {A} (q : A → bool) l :
  existsb q l = true → ∃ x, List.find q l = Some x.
Proof.
  destruct (List.find q l) eqn:H; [eauto|].
  apply find_None_Forall, existsb_false_Forall in H. congruence.
Qed.

(** C4, as the handler has it.  A join of a user who already has an active
    entry for the topic, or a waiting or active session, changes nothing in
    the store and emits nothing.  When the topic exists and is active the
    reply is one of the two conflict errors (status 400), "Already in
    waiting pool for this topic" exactly when the entry exists; when the
    topic is missing or switched off, the topic check comes first and the
    reply is "Topic not found". *)
Theorem join_conflict (w : World) (userId topicId : string) (socketId : option string)
    (now : Z) (uuid : string) :
  hasEntry w userId topicId = true ∨ hasOpenSession w userId = true →
  Async.run (Matching.join userId (Some topicId) socketId now uuid) w
  = ((if topicActive w topicId
      then if hasEntry w userId topicId then AlreadyWaiting else InActiveSession
      else TopicNotFound, []), w)
  ∧ (topicActive w topicId = true →
     ∃ r, fst (fst (Async.run (Matching.join userId (Some topicId) socketId now uuid) w)) = r
          ∧ isConflict r = true ∧ statusCode r = 400
          ∧ (r = AlreadyWaiting ↔ hasEntry w userId topicId = true)).
Proof.
  intros Hc.
  assert (Async.run (Matching.join userId (Some topicId) socketId now uuid) w
          = ((if topicActive w topicId
              then if hasEntry w userId topicId then AlreadyWaiting else InActiveSession
              else TopicNotFound, []), w)) as Hrun.
  { unfold Matching.join, topicActive, hasEntry, hasOpenSession in *. cbn.
    destruct (topics w !! topicId) as [topic|]; cbn; [|done].
    destruct (t_isActive topic); cbn; [|done].
    destruct (existsb (qEntryOf userId topicId) (waitingPool w)) eqn:He.
    - apply existsb_find_Some in He as [e ->]. done.
    - rewrite (existsb_find_None _ _ He). cbn.
      destruct Hc as [|Hs]; [done|].
      apply existsb_find_Some in Hs as [s ->]. done. }
  split; [exact Hrun|]. intros Ht. rewrite Hrun, Ht. cbn.
  destruct (hasEntry w userId topicId); eexists; (repeat split; try done).
Qed.

(** With the topic switched off, the join of somebody in a session is
    answered "Topic not found", which is not a conflict reply. *)
Lemma join_conflict_topic_first :
  hasOpenSession Scenario.retired "B" = true
  ∧ Async.run (Matching.join "B" (Some "css") None 7 "r2") Scenario.retired
    = ((TopicNotFound, []), Scenario.retired)
  ∧ isConflict TopicNotFound = false
  ∧ statusCode TopicNotFound = 404.
Proof. repeat split; done. Qed.

Lemma join_conflict_witness :
  Async.run (Matching.join "B" (Some "css") None 7 "r2") Scenario.busy
  = ((InActiveSession, []), Scenario.busy).
Proof.
  apply (join_conflict Scenario.busy "B" "css" None 7 "r2").
  right. reflexivity.
Defined.

(** ** Session lifecycle *)

Section Updates.
Context {A : Type}.
Implicit Types (q : A → bool) (f : A → A) (l : list A).

Lemma find_Some_holds q l x : List.find q l = Some x → q x = true.
Proof. intros H. by apply List.find_some in H as [_ ?]. Qed.

Lemma find_Some_existsb q l x : List.find q l = Some x → existsb q l = true.
Proof.
  intros H. destruct (existsb q l) eqn:He; [done|].
  apply existsb_find_None in He. congruence.
Qed.

Lemma find_updateFirst_same q f l x :
  List.find q l = Some x → q (f x) = true →
  List.find q (updateFirst q f l) = Some (f x).
Proof.
  induction l as [|y l IH]; cbn; [done|].
  destruct (q y) eqn:Hy.
  - intros [= ->] Hf. cbn. by rewrite Hf.
  - intros Hx Hf. cbn. rewrite Hy. by apply IH.
Qed.

Lemma find_updateFirst_other q q' f l :
  (∀ x, q (f x) = q x) → (∀ x, q' x = true → q x = false) →
  List.find q (updateFirst q' f l) = List.find q l.
Proof.
  intros Hf Hqq'. induction l as [|y l IH]; cbn; [done|].
  destruct (q' y) eqn:Hy; cbn.
  - by rewrite Hf, (Hqq' y Hy).
  - by rewrite IH.
Qed.

End Updates.

Lemma findSession_id w id s : findSession w id = Some s → s_id s = id.
Proof.
  intros H. apply find_Some_holds in H. unfold qSessionId in H.
  by apply Nat.eqb_eq.
Qed.

Lemma preSave_id s : s_id (preSave s) = s_id s.
Proof. unfold preSave. by destruct (s_endTime s). Qed.

Lemma preSave_status s : s_status (preSave s) = s_status s.
Proof. unfold preSave. by destruct (s_endTime s). Qed.

Lemma preSave_endTime s : s_endTime (preSave s) = s_endTime s.
Proof. unfold preSave. destruct (s_endTime s) eqn:E; [cbn|]; done. Qed.

Lemma preSave_roomId s : s_roomId (preSave s) = s_roomId s.
Proof. unfold preSave. by destruct (s_endTime s). Qed.

Lemma preSave_users s :
  s_user1 (preSave s) = s_user1 s ∧ s_user2 (preSave s) = s_user2 s
  ∧ s_topic (preSave s) = s_topic s.
Proof. unfold preSave. by destruct (s_endTime s). Qed.

(** Saving a session that was loaded from the store and finished stores
    exactly the finished session. *)
Lemma writeEnd_loaded s st now :
  writeEnd (preSave (finish s st now)) s = preSave (finish s st now).
Proof. reflexivity. Qed.

Lemma Session_save_loaded w id s st now :
  findSession w id = Some s →
  Session_save (finish s st now) w = (Some (preSave (finish s st now)), saved s st now w).
Proof.
  intros H. unfold Session_save, saved. cbn [finish s_id].
  unfold findSession in H. rewrite <- (findSession_id _ _ _ H) in H.
  by rewrite (find_Some_existsb _ _ _ H).
Qed.

(** The end handler, served alone. *)
Lemma endSession_run w userId id now :
  Async.run (Sessions.endSession userId id now) w
  = match findSession w id with
    | None => ((SessionNotFound, []), w)
    | Some s =>
        if negb (isParticipant s userId) then ((AccessDenied, []), w)
        else if ended (s_status s) then ((AlreadyEnded, []), w)
        else
          let s' := preSave (finish s StCompleted now) in
          ((SessionEndedOk s', [mkEmit (ToRoom (s_roomId s)) (SessionEnded (s_id s) userId)]),
           set_topics (alter incSessionsCount (s_topic s))
             (set_users (fun us => alter incSessionsCompleted (s_user2 s)
                                     (alter incSessionsCompleted (s_user1 s) us))
                (saved s StCompleted now w)))
    end.
Proof.
  unfold Sessions.endSession. cbn. fold (findSession w id).
  destruct (findSession w id) as [s|] eqn:Hs; cbn; [|done].
  destruct (isParticipant s userId); cbn; [|done].
  destruct (ended (s_status s)); cbn; [done|].
  rewrite (Session_save_loaded _ _ _ _ _ Hs). reflexivity.
Qed.

(** The cancel handler on a session, served alone. *)
Lemma cancel_run w userId id now :
  Async.run (Matching.cancel userId (Some id) now) w
  = match findSession w id with
    | None => ((SessionNotFound, []), w)
    | Some s =>
        if negb (isParticipant s userId) then ((AccessDenied, []), w)
        else if ended (s_status s) then ((AlreadyEnded, []), w)
        else
          ((SessionCancelledOk,
            [mkEmit (ToRoom (s_roomId s)) (SessionCancelled (s_id s) userId)]),
           saved s StCancelled now w)
    end.
Proof.
  unfold Matching.cancel. cbn. fold (findSession w id).
  destruct (findSession w id) as [s|] eqn:Hs; cbn; [|done].
  destruct (isParticipant s userId); cbn; [|done].
  destruct (ended (s_status s)); cbn; [done|].
  rewrite (Session_save_loaded _ _ _ _ _ Hs). reflexivity.
Qed.

Lemma findSession_saved_same w id s st now :
  findSession w id = Some s →
  findSession (saved s st now w) id = Some (preSave (finish s st now)).
Proof.
  intros H. pose proof (findSession_id _ _ _ H) as Hid. subst id.
  unfold findSession, saved in *. cbn.
  rewrite (find_updateFirst_same _ _ _ _ H); [reflexivity|].
  unfold qSessionId. cbn. apply Nat.eqb_refl.
Qed.

Lemma findSession_saved_other w id s st now :
  s_id s ≠ id →
  findSession (saved s st now w) id = findSession w id.
Proof.
  intros Hne. unfold findSession, saved. cbn.
  apply find_updateFirst_other.
  - done.
  - intros x Hx. unfold qSessionId in *. apply Nat.eqb_eq in Hx.
    apply Nat.eqb_neq. congruence.
Qed.

(** The join handler, served alone. *)
Lemma join_run w userId topicId socketId now uuid :
  Async.run (Matching.join userId (Some topicId) socketId now uuid) w
  = if negb (topicActive w topicId) then ((TopicNotFound, []), w)
    else if hasEntry w userId topicId then ((AlreadyWaiting, []), w)
    else if hasOpenSession w userId then ((InActiveSession, []), w)
    else
      match List.find (qPartnerFor userId topicId) (waitingPool w) with
      | Some e =>
          if existsb (fun s' => String.eqb (s_roomId s') uuid) (sessions w)
          then ((ServerError "Server error during matching", []), w)
          else
            let s := mkSession (nextId w) topicId (we_user e) userId uuid StActive
                               now None 0 in
            ((Matched s e, [mkEmit (ToRoom (we_socketId e)) (MatchFound s userId)]),
             set_waitingPool (deleteFirst (qEntryId (we_id e)))
               (bump_nextId (set_sessions (fun l => l ++ [s]) w)))
      | None =>
          if existsb (fun e' => String.eqb (we_user e') userId
                                && String.eqb (we_topic e') topicId) (waitingPool w)
          then ((ServerError "Server error during matching", []), w)
          else
            let sid := match truthy socketId with
                       | Some s => s
                       | None => "temp-" +:+ pretty now
                       end in
            ((AddedToPool (nextId w), []),
             bump_nextId
               (set_waitingPool
                  (fun l => l ++ [mkWaitingEntry (nextId w) userId topicId now sid true]) w))
      end.
Proof.
  unfold Matching.join, topicActive, hasEntry, hasOpenSession. cbn.
  destruct (topics w !! topicId) as [topic|]; cbn; [|done].
  destruct (t_isActive topic); cbn; [|done].
  destruct (existsb (qEntryOf userId topicId) (waitingPool w)) eqn:He.
  { apply existsb_find_Some in He as [e ->]. done. }
  rewrite (existsb_find_None _ _ He). cbn.
  destruct (existsb (qOpenSessionOf userId) (sessions w)) eqn:Hs.
  { apply existsb_find_Some in Hs as [s ->]. done. }
  rewrite (existsb_find_None _ _ Hs). cbn.
  destruct (List.find (qPartnerFor userId topicId) (waitingPool w)) as [e|]; cbn.
  - unfold Session_create.
    destruct (existsb (fun s' => String.eqb (s_roomId s') uuid) (sessions w)); cbn; done.
  - unfold WaitingPool_create.
    destruct (existsb (fun e' => String.eqb (we_user e') userId
                                 && String.eqb (we_topic e') topicId) (waitingPool w));
      cbn; done.
Qed.

(** The three handlers that take a [topicId] as sent, served alone. *)
Lemma leave_run w userId topicId :
  Async.run (Matching.leave userId topicId) w
  = match truthySent topicId with
    | None =>
        ((LeftPool (countMatches (qLeave userId None) (waitingPool w)), []),
         set_waitingPool (deleteAll (qLeave userId None)) w)
    | Some (ObjectIdText t) =>
        ((LeftPool (countMatches (qLeave userId (Some t)) (waitingPool w)), []),
         set_waitingPool (deleteAll (qLeave userId (Some t))) w)
    | Some (OtherText _) => ((ServerError "Server error leaving waiting pool", []), w)
    end.
Proof. unfold Matching.leave. by destruct (truthySent topicId) as [[t|t]|]. Qed.

Lemma joinWaitingPool_run w sock topicId :
  Async.run (SocketHandler.joinWaitingPool sock topicId) w
  = match topicId with
    | ObjectIdText t =>
        ([mkEmit (ToSocket (sk_id sock)) (WaitingPoolJoined t (sk_id sock))],
         set_rooms (fun rs => <["waiting_" +:+ t
                                := {[sk_id sock]} ∪ members rs ("waiting_" +:+ t)]> rs)
           (set_waitingPool
              (updateFirst (qEntryOf (sk_userId sock) t) (setSocketId (sk_id sock))) w))
    | OtherText _ =>
        ([mkEmit (ToSocket (sk_id sock)) (ErrorEvent "Failed to join waiting pool")], w)
    end.
Proof. by destruct topicId. Qed.

Lemma leaveWaitingPool_run w sock topicId :
  Async.run (SocketHandler.leaveWaitingPool sock topicId) w
  = match topicId with
    | ObjectIdText t =>
        ([mkEmit (ToSocket (sk_id sock)) (WaitingPoolLeft t)],
         set_rooms (fun rs => <["waiting_" +:+ t
                                := members rs ("waiting_" +:+ t) ∖ {[sk_id sock]}]> rs)
           (set_waitingPool (deleteFirst (qEntryOf (sk_userId sock) t)) w))
    | OtherText _ =>
        ([mkEmit (ToSocket (sk_id sock)) (ErrorEvent "Failed to leave waiting pool")], w)
    end.
Proof. by destruct topicId. Qed.

(** Sessions are never deleted, and a stored session changes only when an
    end or a cancel of that very session goes through, which takes a
    session that has not ended. *)
Lemma serve_keeps_session op w id s :
  findSession w id = Some s →
  closes id op = false ∨ ended (s_status s) = true →
  findSession (snd (serve op w)) id = Some s.
Proof.
  intros Hs Hop. destruct op as
    [u [t|] so now uuid | u t | u [id'|] now | u id' now
    | sock now | sock t | sock t | sock id' r | sock r | k sock r p now
    | sock st now | sock reason now]; cbn [serve].
  - rewrite join_run.
    repeat match goal with
           | |- context [if ?b then _ else _] => destruct b
           | |- context [match List.find ?q ?l with _ => _ end] => destruct (List.find q l)
           end; cbn [snd]; try exact Hs.
    all: unfold findSession in *; cbn; by apply find_app_Some.
  - exact Hs.
  - rewrite leave_run. destruct (truthySent t) as [[?|?]|]; exact Hs.
  - rewrite cancel_run. destruct (findSession w id') as [s'|] eqn:Hs'; [|exact Hs].
    destruct (negb (isParticipant s' u)); [exact Hs|].
    destruct (ended (s_status s')) eqn:He; [exact Hs|]. cbn [snd].
    destruct (Nat.eq_dec id' id) as [->|Hne].
    + destruct Hop as [Hop|Hop]; cbn in Hop.
      * by rewrite Nat.eqb_refl in Hop.
      * congruence.
    + rewrite findSession_saved_other; [exact Hs|].
      by rewrite (findSession_id _ _ _ Hs').
  - exact Hs.
  - rewrite endSession_run. destruct (findSession w id') as [s'|] eqn:Hs'; [|exact Hs].
    destruct (negb (isParticipant s' u)); [exact Hs|].
    destruct (ended (s_status s')) eqn:He; [exact Hs|]. cbn [snd].
    destruct (Nat.eq_dec id' id) as [->|Hne].
    + destruct Hop as [Hop|Hop]; cbn in Hop.
      * by rewrite Nat.eqb_refl in Hop.
      * congruence.
    + change (findSession (saved s' StCompleted now w) id = Some s).
      rewrite findSession_saved_other; [exact Hs|].
      by rewrite (findSession_id _ _ _ Hs').
  - exact Hs.
  - destruct t; exact Hs.
  - destruct t; exact Hs.
  - cbn. fold (findSession w id').
    destruct (findSession w id') as [s'|]; cbn; [|exact Hs].
    destruct (isParticipant s' (sk_userId sock)); cbn; exact Hs.
  - exact Hs.
  - destruct k; exact Hs.
  - exact Hs.
  - exact Hs.
Qed.

Lemma serveAll_keeps_ended ops w id s :
  findSession w id = Some s → ended (s_status s) = true →
  findSession (snd (serveAll ops w)) id = Some s.
Proof.
  revert w. induction ops as [|op ops IH]; intros w Hs He; cbn; [done|].
  destruct (serve op w) as [r w'] eqn:Hop.
  destruct (serveAll ops w') as [rs w''] eqn:Hops. cbn.
  replace w'' with (snd (serveAll ops w')) by (by rewrite Hops).
  apply IH; [|done].
  replace w' with (snd (serve op w)) by (by rewrite Hop).
  apply serve_keeps_session; auto.
Qed.

(** C5, for requests handled one after another.  For a stored session
    and a participant of it: an end request on the [active] session
    completes it and sets [endTime] to the time of the request, after
    which every end or cancel by a participant is answered "Session
    already ended" and changes nothing; on a session that is completed or
    cancelled, end and cancel by a participant are answered "Session
    already ended" and by anybody else "Access denied to this session", no
    end or cancel by anybody changes the state, and no sequence of
    requests and socket events served in turn changes the stored
    session. *)
Theorem end_is_final (w : World) (id : nat) (userId : string) (now : Z) (s : Session) :
  findSession w id = Some s →
  isParticipant s userId = true →
  (s_status s = StActive →
   ∃ s' w',
     Async.run (Sessions.endSession userId id now) w
     = ((SessionEndedOk s', [mkEmit (ToRoom (s_roomId s)) (SessionEnded id userId)]), w')
     ∧ findSession w' id = Some s'
     ∧ s_status s' = StCompleted ∧ s_endTime s' = Some now
     ∧ ∀ caller now',
         isParticipant s caller = true →
         Async.run (Sessions.endSession caller id now') w' = ((AlreadyEnded, []), w')
         ∧ Async.run (Matching.cancel caller (Some id) now') w' = ((AlreadyEnded, []), w'))
  ∧ (ended (s_status s) = true →
     Async.run (Sessions.endSession userId id now) w = ((AlreadyEnded, []), w)
     ∧ Async.run (Matching.cancel userId (Some id) now) w = ((AlreadyEnded, []), w)
     ∧ (∀ caller now',
          snd (Async.run (Sessions.endSession caller id now') w) = w
          ∧ snd (Async.run (Matching.cancel caller (Some id) now') w) = w)
     ∧ (∀ caller now',
          isParticipant s caller = false →
          Async.run (Sessions.endSession caller id now') w = ((AccessDenied, []), w)
          ∧ Async.run (Matching.cancel caller (Some id) now') w = ((AccessDenied, []), w))
     ∧ ∀ ops, findSession (snd (serveAll ops w)) id = Some s).
Proof.
  intros Hs Hp. split.
  - intros Hact.
    exists (preSave (finish s StCompleted now)). eexists. split; [|split; [|split; [|split]]].
    + rewrite endSession_run, Hs, Hp, Hact. cbn [negb ended].
      by rewrite (findSession_id _ _ _ Hs).
    + change (findSession (saved s StCompleted now w) id
              = Some (preSave (finish s StCompleted now))).
      by apply findSession_saved_same.
    + by rewrite preSave_status.
    + by rewrite preSave_endTime.
    + intros caller now' Hc.
      assert (findSession
                (set_topics (alter incSessionsCount (s_topic s))
                   (set_users (fun us => alter incSessionsCompleted (s_user2 s)
                                           (alter incSessionsCompleted (s_user1 s) us))
                      (saved s StCompleted now w))) id
              = Some (preSave (finish s StCompleted now))) as Hs'.
      { change (findSession (saved s StCompleted now w) id
                = Some (preSave (finish s StCompleted now))).
        by apply findSession_saved_same. }
      assert (isParticipant (preSave (finish s StCompleted now)) caller = true) as Hc'.
      { unfold isParticipant in *. by destruct (preSave_users (finish s StCompleted now))
          as (-> & -> & _). }
      rewrite endSession_run, cancel_run, Hs', Hc', preSave_status. done.
  - intros He. rewrite endSession_run, cancel_run, Hs, Hp, He.
    split; [done|]. split; [done|]. split.
    + intros caller now'. rewrite endSession_run, cancel_run, Hs, He.
      by destruct (negb (isParticipant s caller)).
    + split; [|intros ops; by apply serveAll_keeps_ended].
      intros caller now' Hc. by rewrite endSession_run, cancel_run, Hs, Hc.
Qed.

Lemma end_is_final_witness :
  ∃ s' w',
    Async.run (Sessions.endSession "B" 0 100) Scenario.busy
    = ((SessionEndedOk s', [mkEmit (ToRoom "room-0") (SessionEnded 0 "B")]), w')
    ∧ s_status s' = StCompleted
    ∧ Async.run (Sessions.endSession "C" 0 200) w' = ((AlreadyEnded, []), w').
Proof.
  destruct (end_is_final Scenario.busy 0 "B" 100
              (mkSession 0 "css" "B" "C" "room-0" StActive 1 None 0))
    as [Hfirst _]; [reflexivity | reflexivity |].
  destruct (Hfirst eq_refl) as (s' & w' & Hrun & _ & Hst & _ & Hagain).
  exists s', w'. split; [exact Hrun|]. split; [exact Hst|].
  apply (Hagain "C" 200%Z). reflexivity.
Defined.

(** The handlers test the status on the copy [findById] loaded and save
    without a condition.  B ends and C cancels their active session, both
    having loaded it before either saves: both are answered with success,
    and the stored session, completed by the end, is then cancelled. *)
Lemma concurrent_end_cancel_leaves_completed :
  let s0 := mkSession 0 "css" "B" "C" "room-0" StActive 1 None 0 in
  let handlers := [Sessions.endSession "B" 0 60001; Matching.cancel "C" (Some 0) 120001] in
  let mid := Async.interleave [0; 1; 0] handlers Scenario.busy in
  let run := Async.interleave [0; 1; 0; 1; 0; 0] handlers Scenario.busy in
  sessions Scenario.busy = [s0]
  ∧ sessions (snd mid) = [mkSession 0 "css" "B" "C" "room-0" StCompleted 1 (Some 60001%Z) 1]
  ∧ map (fun m => fst <$> Async.result m) (fst run)
    = [Some (SessionEndedOk
               (mkSession 0 "css" "B" "C" "room-0" StCompleted 1 (Some 60001%Z) 1));
       Some SessionCancelledOk]
  ∧ sessions (snd run)
    = [mkSession 0 "css" "B" "C" "room-0" StCancelled 1 (Some 120001%Z) 2].
Proof. cbn zeta. repeat split; by vm_compute. Qed.

(** The same two requests served in turn: the cancel is turned away. *)
Lemma sequential_end_cancel_rejected :
  map fst (fst (serveAll [OpEnd "B" 0 60001; OpCancel "C" (Some 0) 120001] Scenario.busy))
  = [SessionEndedOk (mkSession 0 "css" "B" "C" "room-0" StCompleted 1 (Some 60001%Z) 1);
     AlreadyEnded].
Proof. by vm_compute. Qed.

(** ** Disconnects *)

Lemma disconnect_run w sock reason now :
  Async.run (SocketHandler.disconnect sock reason now) w
  = (map (fun session =>
            SocketHandler.toOthers sock (s_roomId session)
              (ParticipantDisconnected (sk_userId sock) (sk_username sock) reason))
         (List.filter (qActiveSessionOf (sk_userId sock)) (sessions w)),
     set_waitingPool (deleteAll (qOfSocket sock))
       (set_users (alter (setLastSeen now) (sk_userId sock))
          (set_activeConnections (delete (sk_userId sock))
             (set_rooms (fmap (fun ms => ms ∖ {[sk_id sock]})) w)))).
Proof. reflexivity. Qed.

Lemma members_leaveAll (rs : gmap string (gset string)) (sid room : string) :
  members ((fun ms => ms ∖ {[sid]}) <$> rs) room = members rs room ∖ {[sid]}.
Proof.
  unfold members. rewrite lookup_fmap.
  destruct (rs !! room); cbn; [done|].
  apply set_eq. intros x. rewrite elem_of_difference.
  split; [intros []%not_elem_of_empty | intros [[]%not_elem_of_empty _]].
Qed.

(** C6.  The disconnect of a participant's socket leaves every stored
    session as it is, the [active] session S included; it emits only
    [participantDisconnected] events, one of them to S's room, none of them
    to the closing socket; and afterwards a request or event that finds S
    no longer [active] is an end or a cancel of S. *)
Theorem disconnect_keeps_sessions (w : World) (sock : Socket) (reason : string) (now : Z)
    (id : nat) (s : Session) :
  findSession w id = Some s →
  s_status s = StActive →
  isParticipant s (sk_userId sock) = true →
  let notice := ParticipantDisconnected (sk_userId sock) (sk_username sock) reason in
  let emits := fst (Async.run (SocketHandler.disconnect sock reason now) w) in
  let w' := snd (Async.run (SocketHandler.disconnect sock reason now) w) in
  sessions w' = sessions w
  ∧ findSession w' id = Some s
  ∧ In (mkEmit (ToRoomExcept (s_roomId s) (sk_id sock)) notice) emits
  ∧ Forall (fun e => e_event e = notice
                     ∧ sk_id sock ∉ recipients (rooms w') (e_target e)) emits
  ∧ ∀ op s', findSession (snd (serve op w')) id = Some s' →
             s_status s' ≠ StActive → closes id op = true.
Proof.
  intros Hs Hact Hp notice emits w'. subst emits w'. rewrite disconnect_run.
  cbn [fst snd]. split; [done|]. split; [exact Hs|]. split; [|split].
  - apply in_map_iff. exists s. split; [done|]. apply filter_In. split.
    + unfold findSession in Hs. by destruct (List.find_some _ _ Hs) as [Hin _].
    + unfold qActiveSessionOf. by rewrite Hp, Hact.
  - apply Forall_forall. intros e He.
    apply list_elem_of_In, in_map_iff in He as (x & <- & _).
    split; [done|]. cbn. rewrite members_leaveAll.
    intros [_ Hn]%elem_of_difference. apply Hn. by apply elem_of_singleton.
  - intros op s' Hs' Hne. destruct (closes id op) eqn:Hc; [done|].
    rewrite serve_keeps_session with (s := s) in Hs'; [|exact Hs|by left].
    congruence.
Qed.

Lemma disconnect_keeps_sessions_witness :
  sessions (snd (Async.run (SocketHandler.disconnect Scenario.sockB "transport close" 9)
                           Scenario.busy))
  = sessions Scenario.busy
  ∧ fst (Async.run (SocketHandler.disconnect Scenario.sockB "transport close" 9)
                   Scenario.busy)
    = [mkEmit (ToRoomExcept "room-0" "sock-B")
              (ParticipantDisconnected "B" "bob" "transport close")].
Proof.
  destruct (disconnect_keeps_sessions Scenario.busy Scenario.sockB "transport close" 9 0
              (mkSession 0 "css" "B" "C" "room-0" StActive 1 None 0))
    as (Hsess & _); [reflexivity | reflexivity | reflexivity |].
  split; [exact Hsess | reflexivity].
Defined.

(** C7, as the handler has it.  The disconnect listener deletes the
    registry entry of the socket's user whatever socket id the entry holds:
    the user is offline afterwards, and the entries of other users are
    untouched. *)
Theorem disconnect_unregisters (w : World) (sock : Socket) (reason : string) (now : Z) :
  let w' := snd (Async.run (SocketHandler.disconnect sock reason now) w) in
  activeConnections w' = delete (sk_userId sock) (activeConnections w)
  ∧ activeConnections w' !! sk_userId sock = None
  ∧ isUserOnline w' (sk_userId sock) = false
  ∧ ∀ userId, userId ≠ sk_userId sock →
              activeConnections w' !! userId = activeConnections w !! userId.
Proof.
  cbn zeta. rewrite disconnect_run. cbn [snd]. cbn.
  split; [done|]. split; [apply lookup_delete_eq|]. split.
  - unfold isUserOnline. cbn. rewrite lookup_delete_eq.
    apply bool_decide_eq_false. by intros [? ?].
  - intros userId Hne. by apply lookup_delete_ne.
Qed.

(** A's first socket closes after A's second socket has connected: the
    registry then names the second socket, and the disconnect of the first
    removes that registration. *)
Lemma stale_disconnect_unregisters :
  let w2 := snd (serveAll [OpConnection Scenario.sockA1 1; OpConnection Scenario.sockA2 2]
                          Scenario.empty) in
  let w3 := snd (serve (OpDisconnect Scenario.sockA1 "transport close" 3) w2) in
  c_socketId <$> activeConnections w2 !! "A" = Some "sock-A2"
  ∧ sk_id Scenario.sockA1 ≠ "sock-A2"
  ∧ activeConnections w3 !! "A" = None
  ∧ isUserOnline w3 "A" = false
  ∧ "sock-A2" ∈ members (rooms w3) "user_A".
Proof.
  cbn zeta. split; [by vm_compute|]. split; [discriminate|].
  split; [by vm_compute|]. split; [by vm_compute|].
  apply (bool_decide_unpack _). by vm_compute.
Qed.

(** ** Waiting entries on disconnect *)

(** C9.  The disconnect of a user's socket leaves in the pool exactly the
    entries that are not both of that user and recorded with the socket's
    id: of the user's entries those with that socket id go and the others
    stay, an entry recorded with another socket id stays whoever owns it,
    and nothing is added. *)
Theorem disconnect_pool (w : World) (sock : Socket) (reason : string) (now : Z) :
  let w' := snd (Async.run (SocketHandler.disconnect sock reason now) w) in
  waitingPool w' = List.filter (fun e => negb (qOfSocket sock e)) (waitingPool w)
  ∧ (∀ e, In e (waitingPool w) → we_user e = sk_userId sock →
          (In e (waitingPool w') ↔ we_socketId e ≠ sk_id sock))
  ∧ (∀ e, In e (waitingPool w) → we_socketId e ≠ sk_id sock → In e (waitingPool w'))
  ∧ (∀ e, In e (waitingPool w') → In e (waitingPool w)).
Proof.
  cbn zeta. rewrite disconnect_run. cbn [snd]. cbn. unfold deleteAll.
  split; [done|]. split; [|split].
  - intros e He Hu. rewrite filter_In. unfold qOfSocket. rewrite Hu, String.eqb_refl. cbn.
    destruct (String.eqb_spec (we_socketId e) (sk_id sock)); cbn.
    + split; [intros [_ ?]; done | done].
    + split; [done | by split].
  - intros e He Hs. apply filter_In. split; [done|]. unfold qOfSocket.
    rewrite (eqb_neq_false _ _ Hs). by rewrite andb_false_r.
  - intros e He. by apply filter_In in He as [? _].
Qed.

(** A joined over HTTP without a socket id and never sent
    [joinWaitingPool]: the entry carries the placeholder and survives the
    disconnect of A's socket. *)
Lemma disconnect_pool_witness :
  let w2 := snd (serveAll [OpJoin "A" (Some "css") None 5 "r1";
                           OpConnection Scenario.sockA1 6] Scenario.empty) in
  let w3 := snd (Async.run (SocketHandler.disconnect Scenario.sockA1 "transport close" 7)
                           w2) in
  waitingPool w2 = [mkWaitingEntry 0 "A" "css" 5 "temp-5" true]
  ∧ In (mkWaitingEntry 0 "A" "css" 5 "temp-5" true) (waitingPool w3).
Proof.
  cbn zeta. split; [by vm_compute|].
  destruct (disconnect_pool
              (snd (serveAll [OpJoin "A" (Some "css") None 5 "r1";
                              OpConnection Scenario.sockA1 6] Scenario.empty))
              Scenario.sockA1 "transport close" 7) as (_ & _ & Hkeep & _).
  apply Hkeep.
  - vm_compute. by left.
  - discriminate.
Defined.

(** ** Relay *)

(** C8.  Whatever the state, the sender and the room name: each of the
    five relay listeners changes nothing, emits its one event to the sockets
    of the named room other than the sender and never an [error] event; no
    membership or participant check is made.  [joinSession] does check: a
    user who is no participant of the session gets "Access denied to
    session" and joins no room. *)
Theorem relay_forwards (kind : SocketHandler.RelayKind) (sock : Socket)
    (roomId payload : string) (now : Z) (w : World) :
  (∃ ev,
     Async.run (SocketHandler.relay kind sock roomId payload now) w
     = ([mkEmit (ToRoomExcept roomId (sk_id sock)) ev], w)
     ∧ ev = match kind with
            | SocketHandler.KOffer => Offer payload (sk_userId sock)
            | SocketHandler.KAnswer => Answer payload (sk_userId sock)
            | SocketHandler.KIceCandidate => IceCandidate payload (sk_userId sock)
            | SocketHandler.KSessionMessage =>
                SessionMessage payload (sk_userId sock) (sk_username sock) now
            | SocketHandler.KTyping => Typing (sk_userId sock) (sk_username sock) payload
            end
     ∧ (∀ m, ev ≠ ErrorEvent m)
     ∧ recipients (rooms w) (ToRoomExcept roomId (sk_id sock))
       = members (rooms w) roomId ∖ {[sk_id sock]})
  ∧ (∀ sessionId s,
       findSession w sessionId = Some s →
       isParticipant s (sk_userId sock) = false →
       Async.run (SocketHandler.joinSession sock sessionId roomId) w
       = ([mkEmit (ToSocket (sk_id sock)) (ErrorEvent "Access denied to session")], w)).
Proof.
  split.
  - destruct kind; eexists; (split; [reflexivity|]); (split; [reflexivity|]);
      (split; [discriminate | reflexivity]).
  - intros sessionId s Hs Hp. unfold SocketHandler.joinSession. cbn.
    fold (findSession w sessionId). rewrite Hs. cbn. by rewrite Hp.
Qed.

(** A is no participant of the session of B and C and has joined no room;
    its offer to their room still reaches both of them. *)
Lemma relay_from_outsider :
  let w := snd (serveAll [OpConnection Scenario.sockB 2; OpConnection Scenario.sockC 3;
                          OpJoinSession Scenario.sockB 0 "room-0";
                          OpJoinSession Scenario.sockC 0 "room-0";
                          OpConnection Scenario.sockA1 4] Scenario.busy) in
  fst (serve (OpJoinSession Scenario.sockA1 0 "room-0") w)
  = (NoResponse, [mkEmit (ToSocket "sock-A1") (ErrorEvent "Access denied to session")])
  ∧ ("sock-A1" ∉ members (rooms w) "room-0")
  ∧ fst (serve (OpRelay SocketHandler.KOffer Scenario.sockA1 "room-0" "sdp" 5) w)
    = (NoResponse, [mkEmit (ToRoomExcept "room-0" "sock-A1") (Offer "sdp" "A")])
  ∧ recipients (rooms w) (ToRoomExcept "room-0" "sock-A1") = {[ "sock-B"; "sock-C" ]}.
Proof.
  cbn zeta. split; [by vm_compute|]. split.
  { apply (bool_decide_unpack _). by vm_compute. }
  split; [by vm_compute|].
  apply (bool_decide_unpack _). by vm_compute.
Qed.

(** ** Counters of completed sessions *)

Lemma listener_reply (l : SocketHandler.Listener) w :
  fst (fst (let '(emits, w') := Async.run l w in ((NoResponse, emits), w'))) = NoResponse.
Proof. by destruct (Async.run l w). Qed.

(** Only a successful end request answers with [SessionEndedOk], and it
    leaves the session completed. *)
Lemma serve_end_reply op w id :
  isEndOf id (fst (serve op w)) = true →
  ∃ userId now s,
    op = OpEnd userId id now
    ∧ findSession w id = Some s
    ∧ ended (s_status s) = false
    ∧ isParticipant s userId = true
    ∧ serve op w
      = ((SessionEndedOk (preSave (finish s StCompleted now)),
          [mkEmit (ToRoom (s_roomId s)) (SessionEnded id userId)]),
         set_topics (alter incSessionsCount (s_topic s))
           (set_users (fun us => alter incSessionsCompleted (s_user2 s)
                                   (alter incSessionsCompleted (s_user1 s) us))
              (saved s StCompleted now w))).
Proof.
  unfold isEndOf.
  destruct op as
    [u [t|] so now uuid | u t | u [id'|] now | u id' now
    | sock now | sock t | sock t | sock id' r | sock r | k sock r p now
    | sock st now | sock reason now]; cbn [serve];
    try (rewrite listener_reply; discriminate); try discriminate;
    try (rewrite leave_run; destruct (truthySent t) as [[?|?]|]; discriminate).
  - rewrite join_run.
    repeat match goal with
           | |- context [if ?b then _ else _] => destruct b
           | |- context [match List.find ?q ?l with _ => _ end] => destruct (List.find q l)
           end; discriminate.
  - rewrite cancel_run. destruct (findSession w id') as [s|]; [|discriminate].
    destruct (negb (isParticipant s u)); [discriminate|].
    destruct (ended (s_status s)); discriminate.
  - rewrite endSession_run. destruct (findSession w id') as [s|] eqn:Hs; [|discriminate].
    destruct (isParticipant s u) eqn:Hp; cbn [negb]; [|discriminate].
    destruct (ended (s_status s)) eqn:He; [discriminate|]. cbn [fst].
    rewrite preSave_id. cbn [finish s_id]. rewrite (findSession_id _ _ _ Hs).
    intros Hid%Nat.eqb_eq. subst id'. exists u, now, s.
    do 4 (split; [done|]). reflexivity.
Qed.

Lemma ended_no_end op w id s :
  findSession w id = Some s → ended (s_status s) = true →
  isEndOf id (fst (serve op w)) = false.
Proof.
  intros Hs He. destruct (isEndOf id (fst (serve op w))) eqn:H; [|done].
  apply serve_end_reply in H as (u & now & s0 & _ & Hs0 & He0 & _). congruence.
Qed.

Lemma serveAll_cons op ops w :
  serveAll (op :: ops) w
  = (fst (serve op w) :: fst (serveAll ops (snd (serve op w))),
     snd (serveAll ops (snd (serve op w)))).
Proof.
  cbn. destruct (serve op w) as [r w']. cbn. by destruct (serveAll ops w').
Qed.

Lemma serveAll_no_end_after ops w id s :
  findSession w id = Some s → ended (s_status s) = true →
  List.filter (isEndOf id) (fst (serveAll ops w)) = [].
Proof.
  revert w. induction ops as [|op ops IH]; intros w Hs He; [done|].
  rewrite serveAll_cons. cbn [fst List.filter].
  rewrite (ended_no_end op w id s Hs He).
  apply IH; [|done]. apply serve_keeps_session; auto.
Qed.

Lemma serveAll_ends_once ops w id :
  (List.length (List.filter (isEndOf id) (fst (serveAll ops w))) ≤ 1)%nat.
Proof.
  revert w. induction ops as [|op ops IH]; intros w; [cbn; lia|].
  rewrite serveAll_cons. cbn [fst List.filter].
  destruct (isEndOf id (fst (serve op w))) eqn:Hend; [|apply IH].
  apply serve_end_reply in Hend as (u & now & s & -> & Hs & He & Hp & Hrun).
  rewrite Hrun. cbn [snd length].
  rewrite (serveAll_no_end_after ops _ id (preSave (finish s StCompleted now)));
    [cbn; lia | |].
  - change (findSession (saved s StCompleted now w) id
            = Some (preSave (finish s StCompleted now))).
    by apply findSession_saved_same.
  - by rewrite preSave_status.
Qed.

Lemma sessionsCompleted_incBoth (us : gmap string User) (u1 u2 u : string) (n : nat) :
  u1 ≠ u2 →
  u_sessionsCompleted <$> us !! u = Some n →
  u_sessionsCompleted
    <$> alter incSessionsCompleted u2 (alter incSessionsCompleted u1 us) !! u
  = Some (if bool_decide (u = u1 ∨ u = u2) then S n else n).
Proof.
  intros Hne Hu. rewrite !lookup_alter.
  destruct (us !! u) as [x|] eqn:Hx; [|done]. cbn in Hu. injection Hu as <-.
  destruct (bool_decide_reflect (u = u1 ∨ u = u2)) as [Hor|Hnor];
    repeat case_decide; subst; rewrite ?lookup_alter_eq, ?lookup_alter_ne, ?Hx by done;
    cbn; try done.
  - destruct Hor; congruence.
  - destruct Hnor; auto.
  - destruct Hnor; auto.
Qed.

(** C10, for requests handled one after another.  A successful end of a
    session with two different participants adds one to
    [sessionsCompleted] of each participant and to [sessionsCount] of the
    session's topic and leaves every other counter as it was; once it has
    succeeded, an end of the same session is turned away with the state
    unchanged, so no later request ends it again; and in any sequence of
    requests served in turn at most one end of a given session
    succeeds. *)
Theorem end_counts_once (w w' : World) (userId : string) (id : nat) (now : Z)
    (s' : Session) (emits : list Emit) :
  Async.run (Sessions.endSession userId id now) w = ((SessionEndedOk s', emits), w') →
  s_user1 s' ≠ s_user2 s' →
  (∀ u n, sessionsCompleted w u = Some n →
          sessionsCompleted w' u
          = Some (if bool_decide (u = s_user1 s' ∨ u = s_user2 s') then S n else n))
  ∧ (∀ t n, sessionsCount w t = Some n →
            sessionsCount w' t = Some (if bool_decide (t = s_topic s') then S n else n))
  ∧ (∀ caller now',
       ∃ r, Async.run (Sessions.endSession caller id now') w' = ((r, []), w')
            ∧ (r = AlreadyEnded ∨ r = AccessDenied))
  ∧ (∀ ops, List.filter (isEndOf id) (fst (serveAll ops w')) = [])
  ∧ (∀ ops w0, (List.length (List.filter (isEndOf id) (fst (serveAll ops w0))) ≤ 1)%nat).
Proof.
  intros Hrun Hdistinct.
  assert (isEndOf id (fst (serve (OpEnd userId id now) w)) = true) as Hend.
  { cbn [serve]. rewrite Hrun. unfold isEndOf. cbn [fst].
    rewrite endSession_run in Hrun.
    destruct (findSession w id) as [s|] eqn:Hs; [|done].
    destruct (negb (isParticipant s userId)); [done|].
    destruct (ended (s_status s)); [done|]. injection Hrun as <- _ _.
    rewrite preSave_id. cbn. apply Nat.eqb_eq. by apply (findSession_id w). }
  apply serve_end_reply in Hend as (u & now0 & s & [= <- <-] & Hs & He & Hp & Hserve).
  cbn [serve] in Hserve. rewrite Hrun in Hserve. injection Hserve as -> -> ->.
  destruct (preSave_users (finish s StCompleted now)) as (Hu1 & Hu2 & Ht).
  cbn [finish s_user1 s_user2 s_topic] in Hu1, Hu2, Ht. rewrite Hu1, Hu2, Ht in *.
  assert (findSession
            (set_topics (alter incSessionsCount (s_topic s))
               (set_users (fun us => alter incSessionsCompleted (s_user2 s)
                                       (alter incSessionsCompleted (s_user1 s) us))
                  (saved s StCompleted now w))) id
          = Some (preSave (finish s StCompleted now))) as Hs'.
  { change (findSession (saved s StCompleted now w) id
            = Some (preSave (finish s StCompleted now))).
    by apply findSession_saved_same. }
  split; [|split; [|split; [|split]]].
  - intros x n Hx. unfold sessionsCompleted in *. cbn.
    by apply sessionsCompleted_incBoth.
  - intros t n Hn. unfold sessionsCount in *. cbn. rewrite lookup_alter.
    destruct (topics w !! t) as [x|] eqn:Hx; [|done]. cbn in Hn. injection Hn as <-.
    destruct (bool_decide_reflect (t = s_topic s)) as [->|Hne].
    + rewrite decide_True by done. by rewrite Hx.
    + by rewrite decide_False by congruence.
  - intros caller now'. rewrite endSession_run, Hs', preSave_status. cbn [ended].
    destruct (negb (isParticipant _ caller)); eauto.
  - intros ops. eapply serveAll_no_end_after; [exact Hs'|]. by rewrite preSave_status.
  - intros ops w0. apply serveAll_ends_once.
Qed.

Lemma end_counts_once_witness :
  let w' := snd (Async.run (Sessions.endSession "B" 0 100) Scenario.busy) in
  sessionsCompleted w' "B" = Some 1 ∧ sessionsCompleted w' "C" = Some 1
  ∧ sessionsCompleted w' "A" = Some 0 ∧ sessionsCount w' "css" = Some 1.
Proof.
  destruct (end_counts_once Scenario.busy
              (snd (Async.run (Sessions.endSession "B" 0 100) Scenario.busy))
              "B" 0 100
              (preSave (finish (mkSession 0 "css" "B" "C" "room-0" StActive 1 None 0)
                               StCompleted 100))
              [mkEmit (ToRoom "room-0") (SessionEnded 0 "B")])
    as (Husers & Htopics & _); [reflexivity | discriminate |].
  cbn zeta. split; [|split; [|split]].
  - apply (Husers "B" 0). reflexivity.
  - apply (Husers "C" 0). reflexivity.
  - apply (Husers "A" 0). reflexivity.
  - apply (Htopics "css" 0). reflexivity.
Defined.

(** The end handler tests the status on the copy [findById] loaded, and
    the [$inc] updates follow the save without a condition.  B and C both
    end their active session, each having loaded it before the other
    saves: both are answered with success and every counter is raised
    twice for the one session. *)
Lemma concurrent_ends_count_twice :
  let handlers := [Sessions.endSession "B" 0 60001; Sessions.endSession "C" 0 60002] in
  let run := Async.interleave [0; 1; 0; 1; 0; 1; 0; 1] handlers Scenario.busy in
  sessions Scenario.busy = [mkSession 0 "css" "B" "C" "room-0" StActive 1 None 0]
  ∧ sessionsCompleted Scenario.busy "B" = Some 0
  ∧ sessionsCompleted Scenario.busy "C" = Some 0
  ∧ sessionsCount Scenario.busy "css" = Some 0
  ∧ map (fun m => isEndOf 0 <$> Async.result m) (fst run) = [Some true; Some true]
  ∧ sessionsCompleted (snd run) "B" = Some 2
  ∧ sessionsCompleted (snd run) "C" = Some 2
  ∧ sessionsCount (snd run) "css" = Some 2
  ∧ List.length (sessions (snd run)) = 1.
Proof. cbn zeta. repeat split; by vm_compute. Qed.

(** The same two requests served in turn: one end succeeds, the counters
    are raised once. *)
Lemma sequential_ends_count_once :
  let run := serveAll [OpEnd "B" 0 60001; OpEnd "C" 0 60002] Scenario.busy in
  map (isEndOf 0) (fst run) = [true; false]
  ∧ sessionsCompleted (snd run) "B" = Some 1
  ∧ sessionsCompleted (snd run) "C" = Some 1
  ∧ sessionsCount (snd run) "css" = Some 1.
Proof. cbn zeta. repeat split; by vm_compute. Qed.

(** ** No entry is matched twice by requests served in turn *)

Section PoolIds.
Implicit Types (q : WaitingEntry → bool) (l : list WaitingEntry).

Lemma In_ids_deleteFirst q l id :
  In id (map we_id (deleteFirst q l)) → In id (map we_id l).
Proof.
  induction l as [|e l IH]; cbn; [done|].
  destruct (q e); cbn; [auto | intros [|]; auto].
Qed.

Lemma In_ids_deleteAll q l id :
  In id (map we_id (deleteAll q l)) → In id (map we_id l).
Proof.
  unfold deleteAll. induction l as [|e l IH]; cbn; [done|].
  destruct (q e); cbn; [auto | intros [|]; auto].
Qed.

Lemma NoDup_ids_deleteFirst q l :
  NoDup (map we_id l) → NoDup (map we_id (deleteFirst q l)).
Proof.
  induction l as [|e l IH]; cbn; [done|].
  intros [Hn Hl]%NoDup_cons. destruct (q e); cbn; [done|].
  apply NoDup_cons. split; [|auto].
  intros Hin%list_elem_of_In%In_ids_deleteFirst. by apply Hn, list_elem_of_In.
Qed.

Lemma NoDup_ids_deleteAll q l :
  NoDup (map we_id l) → NoDup (map we_id (deleteAll q l)).
Proof.
  unfold deleteAll. induction l as [|e l IH]; cbn; [done|].
  intros [Hn Hl]%NoDup_cons. destruct (q e); cbn; [auto|].
  apply NoDup_cons. split; [|auto].
  intros Hin%list_elem_of_In%(In_ids_deleteAll q). by apply Hn, list_elem_of_In.
Qed.

Lemma ids_rebind q socketId l :
  map we_id (updateFirst q (setSocketId socketId) l) = map we_id l.
Proof.
  induction l as [|e l IH]; cbn; [done|].
  destruct (q e); cbn; [done | by rewrite IH].
Qed.

Lemma ids_deleteFirst_gone l id :
  NoDup (map we_id l) → ¬ In id (map we_id (deleteFirst (qEntryId id) l)).
Proof.
  induction l as [|e l IH]; cbn; [auto|].
  intros [Hn Hl]%NoDup_cons. unfold qEntryId at 1.
  destruct (Nat.eqb_spec (we_id e) id) as [<-|Hne]; cbn.
  - intros Hin. by apply Hn, list_elem_of_In.
  - intros [|Hin]; [done|]. by apply (IH Hl).
Qed.

Lemma PoolChange_In l l' id :
  PoolChange l l' → In id (map we_id l') → In id (map we_id l).
Proof.
  destruct 1; [done | apply In_ids_deleteFirst | apply In_ids_deleteAll |].
  by rewrite ids_rebind.
Qed.

Lemma PoolChange_NoDup l l' :
  PoolChange l l' → NoDup (map we_id l) → NoDup (map we_id l').
Proof.
  destruct 1; [done | apply NoDup_ids_deleteFirst | apply NoDup_ids_deleteAll |].
  by rewrite ids_rebind.
Qed.

End PoolIds.

Lemma Forall_ids_below l n :
  Forall (fun e => we_id e < n) l ↔ ∀ id, In id (map we_id l) → id < n.
Proof.
  rewrite Forall_forall. split.
  - intros H id (e & <- & He)%in_map_iff. by apply H, list_elem_of_In.
  - intros H e He. apply H, in_map, list_elem_of_In, He.
Qed.

(** What one request does to the pool and to the ObjectId supply, by its
    reply. *)
Lemma serve_pool op w :
  match fst (fst (serve op w)) with
  | Matched s e =>
      In e (waitingPool w)
      ∧ waitingPool (snd (serve op w)) = deleteFirst (qEntryId (we_id e)) (waitingPool w)
      ∧ nextId (snd (serve op w)) = S (nextId w)
  | AddedToPool _ =>
      (∃ e, waitingPool (snd (serve op w)) = waitingPool w ++ [e] ∧ we_id e = nextId w)
      ∧ nextId (snd (serve op w)) = S (nextId w)
  | _ =>
      PoolChange (waitingPool w) (waitingPool (snd (serve op w)))
      ∧ nextId (snd (serve op w)) = nextId w
  end.
Proof.
  destruct op as
    [u [t|] so now uuid | u t | u [id'|] now | u id' now
    | sock now | sock t | sock t | sock id' r | sock r | k sock r p now
    | sock st now | sock reason now]; cbn [serve].
  - rewrite join_run.
    destruct (negb (topicActive w t)); [split; [constructor | done]|].
    destruct (hasEntry w u t); [split; [constructor | done]|].
    destruct (hasOpenSession w u); [split; [constructor | done]|].
    destruct (List.find (qPartnerFor u t) (waitingPool w)) as [e|] eqn:He.
    + destruct (existsb _ (sessions w)); [split; [constructor | done]|].
      cbn. split; [|done]. by destruct (List.find_some _ _ He).
    + destruct (existsb _ (waitingPool w)); [split; [constructor | done]|].
      cbn. split; [eauto | done].
  - split; [constructor | done].
  - rewrite leave_run.
    destruct (truthySent t) as [[?|?]|]; split; (apply PcDeleteMany || constructor || done).
  - rewrite cancel_run. destruct (findSession w id'); [|split; [constructor | done]].
    destruct (negb (isParticipant _ u)); [split; [constructor | done]|].
    destruct (ended _); split; (constructor || done).
  - split; [apply PcDeleteMany | done].
  - rewrite endSession_run. destruct (findSession w id'); [|split; [constructor | done]].
    destruct (negb (isParticipant _ u)); [split; [constructor | done]|].
    destruct (ended _); split; (constructor || done).
  - split; [constructor | done].
  - destruct t; split; (apply PcRebind || constructor || done).
  - destruct t; split; (apply PcDeleteOne || constructor || done).
  - cbn. destruct (List.find _ (sessions w)) as [s|]; cbn; [|split; [constructor | done]].
    destruct (isParticipant s (sk_userId sock)); cbn; split; (constructor || done).
  - split; [constructor | done].
  - destruct k; split; (constructor || done).
  - split; [constructor | done].
  - split; [apply PcDeleteMany | done].
Qed.

Lemma serve_fresh op w : poolIdsFresh w → poolIdsFresh (snd (serve op w)).
Proof.
  intros [Hbelow Hnd]. pose proof (serve_pool op w) as H.
  unfold poolIdsFresh, poolIdsBelow in *. rewrite Forall_ids_below in Hbelow.
  rewrite Forall_ids_below.
  destruct (fst (fst (serve op w)));
    try (destruct H as [Hpc ->]; split;
         [intros id Hid; apply Hbelow; by eapply PoolChange_In
         | by eapply PoolChange_NoDup]).
  - destruct H as (_ & -> & ->). split.
    + intros id Hid%In_ids_deleteFirst. apply Hbelow in Hid. lia.
    + by apply NoDup_ids_deleteFirst.
  - destruct H as ((e & -> & He) & ->). rewrite map_app. cbn. rewrite He. split.
    + intros id [Hid|[<-|[]]]%in_app_iff; [apply Hbelow in Hid|]; lia.
    + apply NoDup_app. split; [done|]. split; [|apply NoDup_singleton].
      intros id Hid%list_elem_of_In%Hbelow Hid'%list_elem_of_In. cbn in Hid'.
      destruct Hid' as [<-|[]]. lia.
Qed.

Lemma serve_matchable op w id :
  poolIdsFresh w → matchable (snd (serve op w)) id → matchable w id.
Proof.
  intros [Hbelow Hnd]. pose proof (serve_pool op w) as H. unfold matchable.
  destruct (fst (fst (serve op w)));
    try (destruct H as [Hpc ->]; intros [Hid|]; [left; by eapply PoolChange_In | by right]).
  - destruct H as (_ & -> & ->). intros [Hid%In_ids_deleteFirst|]; [by left | right; lia].
  - destruct H as ((e & -> & He) & ->). rewrite map_app. cbn. rewrite He.
    intros [[Hid|[<-|[]]]%in_app_iff|]; [by left | right; lia | right; lia].
Qed.

Lemma serve_matched op w s e :
  poolIdsFresh w → fst (fst (serve op w)) = Matched s e →
  matchable w (we_id e) ∧ ¬ matchable (snd (serve op w)) (we_id e).
Proof.
  intros [Hbelow Hnd] Hr. pose proof (serve_pool op w) as H. rewrite Hr in H.
  unfold matchable. destruct H as (He & -> & ->). split.
  - left. by apply in_map.
  - intros [Hin|Hge].
    + by apply (ids_deleteFirst_gone _ _ Hnd) in Hin.
    + unfold poolIdsBelow in Hbelow. rewrite Forall_forall in Hbelow.
      apply list_elem_of_In, Hbelow in He. lia.
Qed.

Lemma matchedEntries_cons r rs :
  matchedEntries (r :: rs)
  = match fst r with Matched _ e => [e] | _ => [] end ++ matchedEntries rs.
Proof. reflexivity. Qed.

Lemma serveAll_matched_matchable ops w id :
  poolIdsFresh w →
  In id (map we_id (matchedEntries (fst (serveAll ops w)))) → matchable w id.
Proof.
  revert w. induction ops as [|op ops IH]; intros w Hw; [done|].
  rewrite serveAll_cons. cbn [fst]. rewrite matchedEntries_cons, map_app.
  intros [Hin|Hin]%in_app_iff.
  - destruct (fst (fst (serve op w))) as [| | | |s e| | | | | | | | | |] eqn:Hr;
      try done.
    destruct Hin as [<-|[]]. by apply (serve_matched op w s e).
  - apply (serve_matchable op); [done|]. apply IH; [by apply serve_fresh | done].
Qed.

(** C2, as the handlers have it.  When requests and socket events are
    served one after another, no waiting entry is consumed by two matches:
    the [_id]s of the entries returned by "Match found!" replies are
    pairwise different.  (The handler takes no lock; lookup, session insert
    and removal are separate awaited steps.) *)
Theorem sequential_no_double_match (ops : list Op) (w : World) :
  poolIdsFresh w →
  NoDup (map we_id (matchedEntries (fst (serveAll ops w)))).
Proof.
  revert w. induction ops as [|op ops IH]; intros w Hw; [constructor|].
  rewrite serveAll_cons. cbn [fst]. rewrite matchedEntries_cons, map_app.
  specialize (IH _ (serve_fresh op w Hw)).
  destruct (fst (fst (serve op w))) as [| | | |s e| | | | | | | | | |] eqn:Hr;
    try exact IH.
  cbn. apply NoDup_cons. split; [|exact IH].
  intros Hin%list_elem_of_In%serveAll_matched_matchable; [|by apply serve_fresh].
  by apply (serve_matched op w s e Hw Hr).
Qed.

Lemma sequential_no_double_match_witness :
  NoDup (map we_id (matchedEntries (fst (serveAll
    [OpJoin "B" (Some "css") None 7 "r1"; OpJoin "C" (Some "css") None 8 "r2";
     OpJoin "A" (Some "css") None 9 "r3"] Scenario.oneWaiting)))).
Proof.
  apply (sequential_no_double_match _ Scenario.oneWaiting).
  split.
  - repeat constructor.
  - cbn. apply NoDup_singleton.
Defined.

(** B and C join while A waits.  Both handlers look the partner up before
    either has removed it: both are answered "Match found!" with A's entry,
    and two sessions with A are stored. *)
Lemma concurrent_joins_double_match :
  let entryA := mkWaitingEntry 0 "A" "css" 5 "sock-A" true in
  let sessionB := mkSession 1 "css" "A" "B" "r1" StActive 7 None 0 in
  let sessionC := mkSession 2 "css" "A" "C" "r2" StActive 8 None 0 in
  let run := Async.interleave [0; 0; 0; 0; 1; 1; 1; 1; 0; 0; 0; 1; 1; 1]
               [Matching.join "B" (Some "css") None 7 "r1";
                Matching.join "C" (Some "css") None 8 "r2"] Scenario.oneWaiting in
  waitingPool Scenario.oneWaiting = [entryA]
  ∧ map (fun m => fst <$> Async.result m) (fst run)
    = [Some (Matched sessionB entryA); Some (Matched sessionC entryA)]
  ∧ map we_id (matchedEntries
                 (omap Async.result (fst run))) = [0; 0]
  ∧ sessions (snd run) = [sessionB; sessionC]
  ∧ waitingPool (snd run) = [].
Proof. cbn zeta. repeat split; by vm_compute. Qed.

(** The same two requests served in turn: one match, one enqueue. *)
Lemma sequential_joins_single_match :
  map fst (fst (serveAll [OpJoin "B" (Some "css") None 7 "r1";
                          OpJoin "C" (Some "css") None 8 "r2"] Scenario.oneWaiting))
  = [Matched (mkSession 1 "css" "A" "B" "r1" StActive 7 None 0)
             (mkWaitingEntry 0 "A" "css" 5 "sock-A" true);
     AddedToPool 2].
Proof. by vm_compute. Qed.

(** ** Which waiting entry a join takes *)

Lemma find_split {A} (q : A → bool) l x :
  List.find q l = Some x →
  ∃ l1 l2, l = l1 ++ x :: l2 ∧ Forall (fun y => q y = false) l1 ∧ q x = true.
Proof.
  induction l as [|y l IH]; cbn; [done|].
  destruct (q y) eqn:Hy.
  - intros [= ->]. exists [], l. by repeat split.
  - intros (l1 & l2 & -> & H1 & Hx)%IH. exists (y :: l1), l2.
    repeat split; [|done]. by constructor.
Qed.

Lemma chronological_app_r l1 l2 : chronological (l1 ++ l2) → chronological l2.
Proof. induction l1 as [|e l1 IH]; cbn; [done|]. intros [_ ?]. auto. Qed.

(** A match takes the first entry, in storage order, that waits for the
    topic under another user; it is the one that has waited longest when
    the pool is stored in joining order. *)
Lemma join_matches_first_stored (w w' : World) (userId topicId : string)
    (socketId : option string) (now : Z) (uuid : string) (s : Session) (e : WaitingEntry)
    (emits : list Emit) :
  Async.run (Matching.join userId (Some topicId) socketId now uuid) w
  = ((Matched s e, emits), w') →
  (∃ before after,
     waitingPool w = before ++ e :: after
     ∧ Forall (fun e' => qPartnerFor userId topicId e' = false) before
     ∧ qPartnerFor userId topicId e = true)
  ∧ (chronological (waitingPool w) →
     ∀ e', In e' (waitingPool w) → qPartnerFor userId topicId e' = true →
           (we_joinedAt e <= we_joinedAt e')%Z).
Proof.
  rewrite join_run.
  destruct (negb (topicActive w topicId)); [done|].
  destruct (hasEntry w userId topicId); [done|].
  destruct (hasOpenSession w userId); [done|].
  destruct (List.find (qPartnerFor userId topicId) (waitingPool w)) as [e0|] eqn:He;
    [|by destruct (existsb _ (waitingPool w))].
  destruct (existsb _ (sessions w)); [done|]. intros [= _ <- _ _].
  apply find_split in He as (l1 & l2 & Hl & H1 & Hq).
  split; [by exists l1, l2|].
  intros Hchron e' Hin Hq'. rewrite Hl in Hin, Hchron.
  apply in_app_iff in Hin as [Hin|[<-|Hin]].
  - rewrite Forall_forall in H1. apply list_elem_of_In, H1 in Hin. congruence.
  - lia.
  - apply chronological_app_r in Hchron as [Hall _].
    rewrite Forall_forall in Hall. by apply Hall, list_elem_of_In.
Qed.

(** C3 at a pool stored out of joining order.  C joins css while A's
    entry (joinedAt 20) is stored ahead of B's (joinedAt 10): the match
    takes A's entry, not the oldest one, and B keeps waiting. *)
Theorem join_not_oldest :
  let entryA := mkWaitingEntry 0 "A" "css" 20 "sock-A" true in
  let entryB := mkWaitingEntry 1 "B" "css" 10 "sock-B" true in
  let session := mkSession 2 "css" "A" "C" "r1" StActive 30 None 0 in
  waitingPool Scenario.twoWaiting = [entryA; entryB]
  ∧ qPartnerFor "C" "css" entryA = true ∧ qPartnerFor "C" "css" entryB = true
  ∧ (we_joinedAt entryB < we_joinedAt entryA)%Z
  ∧ fst (Async.run (Matching.join "C" (Some "css") None 30 "r1") Scenario.twoWaiting)
    = (Matched session entryA, [mkEmit (ToRoom "sock-A") (MatchFound session "C")])
  ∧ waitingPool (snd (Async.run (Matching.join "C" (Some "css") None 30 "r1")
                                Scenario.twoWaiting))
    = [entryB].
Proof. cbn zeta. repeat split; by vm_compute. Qed.

(** The two participants of a session a join creates are different users. *)
Lemma join_session_distinct (w w' : World) (userId topicId : string)
    (socketId : option string) (now : Z) (uuid : string) (s : Session) (e : WaitingEntry)
    (emits : list Emit) :
  Async.run (Matching.join userId (Some topicId) socketId now uuid) w
  = ((Matched s e, emits), w') →
  s_user1 s ≠ s_user2 s.
Proof.
  intros Hrun.
  destruct (join_matches_first_stored _ _ _ _ _ _ _ _ _ _ Hrun) as [(_ & _ & _ & _ & Hq) _].
  rewrite join_run in Hrun.
  destruct (negb (topicActive w topicId)); [done|].
  destruct (hasEntry w userId topicId); [done|].
  destruct (hasOpenSession w userId); [done|].
  destruct (List.find (qPartnerFor userId topicId) (waitingPool w)) as [e0|];
    [|by destruct (existsb _ (waitingPool w))].
  destruct (existsb _ (sessions w)); [done|]. injection Hrun as <- <- _ _. cbn.
  unfold qPartnerFor in Hq.
  destruct (String.eqb_spec (we_user e0) userId) as [|Hne]; [|done].
  by rewrite andb_false_r in Hq.
Qed.

Lemma relay_forwards_witness :
  Async.run (SocketHandler.joinSession Scenario.sockA1 0 "room-0") Scenario.busy
  = ([mkEmit (ToSocket "sock-A1") (ErrorEvent "Access denied to session")], Scenario.busy).
Proof.
  destruct (relay_forwards SocketHandler.KOffer Scenario.sockA1 "room-0" "sdp" 5
              Scenario.busy) as [_ Hcheck].
  apply (Hcheck 0 (mkSession 0 "css" "B" "C" "room-0" StActive 1 None 0)); reflexivity.
Defined.

Lemma disconnect_unregisters_witness :
  let w2 := snd (serveAll [OpConnection Scenario.sockA1 1; OpConnection Scenario.sockB 2]
                          Scenario.empty) in
  activeConnections
    (snd (Async.run (SocketHandler.disconnect Scenario.sockA1 "transport close" 3) w2))
  !! "B"
  = activeConnections w2 !! "B".
Proof.
  cbn zeta.
  apply (disconnect_unregisters
           (snd (serveAll [OpConnection Scenario.sockA1 1; OpConnection Scenario.sockB 2]
                          Scenario.empty))
           Scenario.sockA1 "transport close" 3).
  discriminate.
Defined.

(** ** Leaving the pool *)

Lemma World_eta w :
  mkWorld (waitingPool w) (sessions w) (topics w) (users w) (nextId w)
          (activeConnections w) (rooms w) = w.
Proof. by destruct w. Qed.

Lemma deleteAll_length {A} (q : A → bool) (l : list A) :
  List.length (deleteAll q l) + countMatches q l = List.length l.
Proof.
  unfold deleteAll, countMatches. induction l as [|x l IH]; cbn; [done|].
  destruct (q x); cbn; lia.
Qed.

Lemma countMatches_0 {A} (q : A → bool) (l : list A) :
  countMatches q l = 0 ↔ Forall (fun x => q x = false) l.
Proof.
  unfold countMatches. induction l as [|x l IH]; cbn.
  - split; [constructor | done].
  - destruct (q x) eqn:Hq; cbn.
    + split; [done | intros H; inversion H; congruence].
    + rewrite IH. split; [by constructor | by inversion 1].
Qed.

Lemma truthySent_id (t : string) :
  t ≠ "" → truthySent (Some (ObjectIdText t)) = Some (ObjectIdText t).
Proof.
  intros Hne. unfold truthySent. cbn [sentText].
  by destruct (String.eqb_spec t "").
Qed.

(** X1.  [POST /leave] never looks at the validator's verdict.  A
    non-empty [topicId] that cannot be cast to an ObjectId is answered 500
    "Server error leaving waiting pool" with the state as before.
    Otherwise the caller's active entries (those for the topic, when a
    non-empty topic id is given) are removed and nothing else, their number
    is reported, and when no entry matches the count is zero and the state
    is the one before.  In every case the entries of other users and the
    inactive entries stay, and nothing but the pool changes. *)
Theorem leave_removes_own (w : World) (userId : string) (topicId : option SentId) :
  let w' := snd (Async.run (Matching.leave userId topicId) w) in
  match truthySent topicId with
  | Some (OtherText _) =>
      Async.run (Matching.leave userId topicId) w
      = ((ServerError "Server error leaving waiting pool", []), w)
  | sent =>
      let q := qLeave userId (sentText <$> sent) in
      let removed := countMatches q (waitingPool w) in
      fst (Async.run (Matching.leave userId topicId) w) = (LeftPool removed, [])
      ∧ waitingPool w' = List.filter (fun e => negb (q e)) (waitingPool w)
      ∧ List.length (waitingPool w') + removed = List.length (waitingPool w)
      ∧ (removed = 0 → w' = w)
  end
  ∧ (∀ e, In e (waitingPool w) →
          we_user e ≠ userId ∨ we_isActive e = false → In e (waitingPool w'))
  ∧ set_waitingPool (fun _ => waitingPool w) w' = w.
Proof.
  cbn zeta. rewrite leave_run.
  assert (∀ o,
            (∀ e, In e (waitingPool w) →
                  we_user e ≠ userId ∨ we_isActive e = false →
                  In e (deleteAll (qLeave userId o) (waitingPool w)))) as Hothers.
  { intros o e He Hother. apply filter_In. split; [done|]. unfold qLeave.
    destruct Hother as [Hu|Ha].
    - by rewrite (eqb_neq_false _ _ Hu).
    - rewrite Ha. by rewrite andb_false_r. }
  assert (∀ o,
            countMatches (qLeave userId o) (waitingPool w) = 0 →
            set_waitingPool (deleteAll (qLeave userId o)) w = w) as Hzero.
  { intros o H0%countMatches_0. unfold set_waitingPool.
    rewrite (deleteAll_None _ _ H0). apply World_eta. }
  destruct (truthySent topicId) as [[t|t]|]; cbn [fst snd fmap option_fmap option_map sentText].
  - split; [|split; [apply Hothers | unfold set_waitingPool; cbn; apply World_eta]].
    split; [done|]. split; [done|]. split; [apply deleteAll_length | apply Hzero].
  - split; [done|]. split; [done | apply World_eta].
  - split; [|split; [apply Hothers | unfold set_waitingPool; cbn; apply World_eta]].
    split; [done|]. split; [done|]. split; [apply deleteAll_length | apply Hzero].
Qed.

Lemma leave_removes_own_witness :
  let w := Scenario.twoWaiting in
  fst (Async.run (Matching.leave "B" (Some (ObjectIdText "css"))) w) = (LeftPool 1, [])
  ∧ In (mkWaitingEntry 0 "A" "css" 20 "sock-A" true)
       (waitingPool (snd (Async.run (Matching.leave "B" (Some (ObjectIdText "css"))) w)))
  ∧ Async.run (Matching.leave "B" (Some (OtherText "css; drop"))) w
    = ((ServerError "Server error leaving waiting pool", []), w).
Proof.
  cbn zeta.
  destruct (leave_removes_own Scenario.twoWaiting "B" (Some (ObjectIdText "css")))
    as ((Hreply & _) & Hkeep & _).
  split; [exact Hreply|]. split.
  - apply Hkeep; [by left | left; discriminate].
  - by destruct (leave_removes_own Scenario.twoWaiting "B" (Some (OtherText "css; drop")))
      as (Herr & _).
Defined.

(** ** Joining, again and back *)

Lemma filter_app_last {A} (q : A → bool) (l : list A) (x : A) :
  Forall (fun y => q y = true) l → q x = false → List.filter q (l ++ [x]) = l.
Proof.
  intros Hl Hx. rewrite List.filter_app. cbn. rewrite Hx, app_nil_r.
  induction Hl as [|y l Hy _ IH]; cbn; [done|]. by rewrite Hy, IH.
Qed.

(** X2.  Round trip: when a join was answered "Added to waiting pool" and
    the same user then leaves that (non-empty) topic id, exactly one entry
    is removed and the pool is the one before the join; sessions are
    untouched. *)
Theorem join_then_leave (w w1 : World) (userId topicId : string)
    (socketId : option string) (now : Z) (uuid : string) (id : nat) (emits : list Emit) :
  topicId ≠ "" →
  Async.run (Matching.join userId (Some topicId) socketId now uuid) w
  = ((AddedToPool id, emits), w1) →
  fst (Async.run (Matching.leave userId (Some (ObjectIdText topicId))) w1) = (LeftPool 1, [])
  ∧ waitingPool (snd (Async.run (Matching.leave userId (Some (ObjectIdText topicId))) w1))
    = waitingPool w
  ∧ sessions (snd (Async.run (Matching.leave userId (Some (ObjectIdText topicId))) w1))
    = sessions w.
Proof.
  intros Hne Hjoin.
  apply join_enqueued_inv in Hjoin as (_ & _ & _ & _ & Huniq & -> & -> & sid & ->).
  apply existsb_false_Forall in Huniq.
  assert (truthy (Some topicId) = Some topicId) as Htruthy by (by destruct topicId).
  assert (Forall (fun e => negb (qLeave userId (Some topicId) e) = true) (waitingPool w))
    as Hkeep.
  { eapply Forall_impl; [exact Huniq|]. intros e He. cbn beta in He. unfold qLeave.
    rewrite Htruthy.
    destruct (we_user e =? userId)%string, (we_topic e =? topicId)%string;
      cbn in *; try done. by rewrite andb_false_r. }
  assert (qLeave userId (Some topicId)
            (mkWaitingEntry (nextId w) userId topicId now sid true) = true) as Hnew.
  { unfold qLeave. rewrite Htruthy. cbn. by rewrite !String.eqb_refl. }
  rewrite leave_run, (truthySent_id _ Hne).
  cbn. unfold deleteAll, countMatches. split; [|split; [|done]].
  - rewrite List.filter_app. cbn. rewrite Hnew. cbn. rewrite length_app. cbn.
    assert (List.filter (qLeave userId (Some topicId)) (waitingPool w) = []) as ->; [|done].
    clear -Hkeep. induction Hkeep as [|e l He _ IH]; cbn; [done|].
    apply negb_true_iff in He. by rewrite He.
  - apply filter_app_last; [exact Hkeep | by rewrite Hnew].
Qed.

Lemma join_then_leave_witness :
  waitingPool
    (snd (Async.run (Matching.leave "B" (Some (ObjectIdText "css")))
            (snd (Async.run (Matching.join "B" (Some "css") None 7 "r1") Scenario.empty))))
  = waitingPool Scenario.empty.
Proof.
  apply (join_then_leave Scenario.empty _ "B" "css" None 7 "r1" 0 []).
  - discriminate.
  - reflexivity.
Defined.

(** X3.  A join that was answered "Added to waiting pool" cannot be
    repeated: the same user joining the same topic again, with whatever
    socket id, is answered "Already in waiting pool for this topic" and
    nothing changes. *)
Theorem join_twice (w w1 : World) (userId topicId : string) (socketId socketId' : option string)
    (now now' : Z) (uuid uuid' : string) (id : nat) (emits : list Emit) :
  Async.run (Matching.join userId (Some topicId) socketId now uuid) w
  = ((AddedToPool id, emits), w1) →
  Async.run (Matching.join userId (Some topicId) socketId' now' uuid') w1
  = ((AlreadyWaiting, []), w1).
Proof.
  intros Hjoin.
  apply join_enqueued_inv in Hjoin as (Ht & He & _ & _ & _ & -> & -> & sid & ->).
  rewrite join_run. unfold topicActive, hasEntry in *. cbn.
  rewrite Ht. cbn. rewrite existsb_app. cbn. unfold qEntryOf at 2. cbn.
  rewrite !String.eqb_refl. cbn. by rewrite orb_true_r.
Qed.

Lemma join_twice_witness :
  Async.run (Matching.join "B" (Some "css") (Some "sock-B") 9 "r2")
            (snd (Async.run (Matching.join "B" (Some "css") None 7 "r1") Scenario.empty))
  = ((AlreadyWaiting, []),
     snd (Async.run (Matching.join "B" (Some "css") None 7 "r1") Scenario.empty)).
Proof.
  apply (join_twice Scenario.empty _ "B" "css" None (Some "sock-B") 7 9 "r1" "r2" 0 []).
  reflexivity.
Defined.

Lemma deleteFirst_split (l1 l2 : list WaitingEntry) (e : WaitingEntry) :
  NoDup (map we_id (l1 ++ e :: l2)) →
  deleteFirst (qEntryId (we_id e)) (l1 ++ e :: l2) = l1 ++ l2.
Proof.
  intros Hnd. rewrite deleteFirst_app_None.
  - cbn. unfold qEntryId. by rewrite Nat.eqb_refl.
  - rewrite map_app in Hnd. cbn in Hnd. apply NoDup_app in Hnd as (_ & Hdisj & _).
    apply Forall_forall. intros e' He'. unfold qEntryId. apply Nat.eqb_neq. intros Heq.
    apply (Hdisj (we_id e')).
    + apply list_elem_of_In, in_map, list_elem_of_In, He'.
    + rewrite Heq. left.
Qed.

(** X4.  A match removes the partner's entry and nothing else (entry ids
    being distinct): the pool keeps its order around the gap, and the
    requester's own entries for other topics stay, so the requester leaves
    the join in an active session and still waiting wherever it waited
    before. *)
Theorem match_removes_partner_only (w w' : World) (userId topicId : string)
    (socketId : option string) (now : Z) (uuid : string) (s : Session) (e : WaitingEntry)
    (emits : list Emit) :
  NoDup (map we_id (waitingPool w)) →
  Async.run (Matching.join userId (Some topicId) socketId now uuid) w
  = ((Matched s e, emits), w') →
  (∃ before after,
     waitingPool w = before ++ e :: after ∧ waitingPool w' = before ++ after)
  ∧ we_user e ≠ userId
  ∧ (∀ e', In e' (waitingPool w) → we_user e' = userId → In e' (waitingPool w'))
  ∧ (∀ t, hasEntry w userId t = true → hasEntry w' userId t = true)
  ∧ hasOpenSession w' userId = true.
Proof.
  intros Hnd Hrun.
  destruct (join_matches_first_stored _ _ _ _ _ _ _ _ _ _ Hrun)
    as [(l1 & l2 & Hl & _ & Hq) _].
  assert (we_user e ≠ userId) as Hne.
  { unfold qPartnerFor in Hq. intros Heq. rewrite Heq, String.eqb_refl in Hq.
    by rewrite andb_false_r in Hq. }
  rewrite join_run in Hrun.
  destruct (negb (topicActive w topicId)); [done|].
  destruct (hasEntry w userId topicId); [done|].
  destruct (hasOpenSession w userId); [done|].
  destruct (List.find (qPartnerFor userId topicId) (waitingPool w)) as [e0|];
    [|by destruct (existsb _ (waitingPool w))].
  destruct (existsb _ (sessions w)); [done|]. injection Hrun as <- <- _ <-. cbn.
  rewrite Hl in *. rewrite (deleteFirst_split _ _ _ Hnd).
  assert (∀ e', In e' (l1 ++ e0 :: l2) → we_user e' = userId → In e' (l1 ++ l2)) as Hkeep.
  { intros e' [Hin|[<-|Hin]]%in_app_iff Hu; [| done |]; apply in_app_iff; auto. }
  split; [by exists l1, l2|]. split; [done|]. split; [exact Hkeep|]. split.
  - intros t Ht. unfold hasEntry in *. cbn.
    apply existsb_exists in Ht as (e' & Hin & Hq'). apply existsb_exists.
    exists e'. split; [|done]. rewrite Hl in Hin. apply Hkeep; [done|].
    unfold qEntryOf in Hq'.
    apply andb_true_iff in Hq' as [[Hu _]%andb_true_iff _]. by apply String.eqb_eq.
  - unfold hasOpenSession. cbn. rewrite existsb_app. cbn.
    unfold qOpenSessionOf, isParticipant. cbn. rewrite String.eqb_refl.
    by rewrite !orb_true_r.
Qed.

Lemma match_removes_partner_only_witness :
  let w' := snd (Async.run (Matching.join "B" (Some "css") None 9 "r1") Cases.crossWaiting) in
  hasEntry w' "B" "js" = true ∧ hasOpenSession w' "B" = true.
Proof.
  cbn zeta.
  destruct (match_removes_partner_only Cases.crossWaiting
              (snd (Async.run (Matching.join "B" (Some "css") None 9 "r1")
                              Cases.crossWaiting))
              "B" "css" None 9 "r1"
              (mkSession 2 "css" "A" "B" "r1" StActive 9 None 0)
              (mkWaitingEntry 0 "A" "css" 5 "sock-A" true)
              [mkEmit (ToRoom "sock-A")
                      (MatchFound (mkSession 2 "css" "A" "B" "r1" StActive 9 None 0) "B")])
    as (_ & _ & _ & Hstill & Hsess).
  - apply (bool_decide_unpack _). by vm_compute.
  - reflexivity.
  - split; [|exact Hsess]. apply Hstill. reflexivity.
Defined.

(** ** Invariants of the pool under requests served in turn *)

Section Projections.
Context {B : Type} (f : WaitingEntry → B).
Hypothesis f_rebind : ∀ socketId e, f (setSocketId socketId e) = f e.

Lemma In_map_deleteFirst q l x :
  In x (map f (deleteFirst q l)) → In x (map f l).
Proof.
  induction l as [|e l IH]; cbn; [done|].
  destruct (q e); cbn; [auto | intros [|]; auto].
Qed.

Lemma In_map_deleteAll q l x :
  In x (map f (deleteAll q l)) → In x (map f l).
Proof.
  unfold deleteAll. induction l as [|e l IH]; cbn; [done|].
  destruct (q e); cbn; [auto | intros [|]; auto].
Qed.

Lemma NoDup_map_deleteFirst q l :
  NoDup (map f l) → NoDup (map f (deleteFirst q l)).
Proof.
  induction l as [|e l IH]; cbn; [done|].
  intros [Hn Hl]%NoDup_cons. destruct (q e); cbn; [done|].
  apply NoDup_cons. split; [|auto].
  intros Hin%list_elem_of_In%In_map_deleteFirst. by apply Hn, list_elem_of_In.
Qed.

Lemma NoDup_map_deleteAll q l :
  NoDup (map f l) → NoDup (map f (deleteAll q l)).
Proof.
  unfold deleteAll. induction l as [|e l IH]; cbn; [done|].
  intros [Hn Hl]%NoDup_cons. destruct (q e); cbn; [auto|].
  apply NoDup_cons. split; [|auto].
  intros Hin%list_elem_of_In%(In_map_deleteAll q). by apply Hn, list_elem_of_In.
Qed.

Lemma map_rebind q socketId l :
  map f (updateFirst q (setSocketId socketId) l) = map f l.
Proof.
  induction l as [|e l IH]; cbn; [done|].
  destruct (q e); cbn; [by rewrite f_rebind | by rewrite IH].
Qed.

Lemma PoolChange_NoDup_map l l' :
  PoolChange l l' → NoDup (map f l) → NoDup (map f l').
Proof.
  destruct 1; [done | apply NoDup_map_deleteFirst | apply NoDup_map_deleteAll |].
  by rewrite map_rebind.
Qed.

Lemma PoolChange_In_map l l' x :
  PoolChange l l' → In x (map f l') → In x (map f l).
Proof.
  destruct 1; [done | apply In_map_deleteFirst | apply In_map_deleteAll |].
  by rewrite map_rebind.
Qed.

End Projections.

Lemma In_deleteFirst {A} (q : A → bool) l x : In x (deleteFirst q l) → In x l.
Proof.
  induction l as [|y l IH]; cbn; [done|].
  destruct (q y); [by right | intros [|]; auto].
Qed.

Lemma Forall_deleteFirst {A} (P : A → Prop) (q : A → bool) l :
  Forall P l → Forall P (deleteFirst q l).
Proof.
  rewrite !Forall_forall. intros H x Hx%list_elem_of_In%In_deleteFirst.
  by apply H, list_elem_of_In.
Qed.

Lemma Forall_deleteAll {A} (P : A → Prop) (q : A → bool) l :
  Forall P l → Forall P (deleteAll q l).
Proof.
  rewrite !Forall_forall. intros H x Hx%list_elem_of_In. unfold deleteAll in Hx.
  apply filter_In in Hx as [Hx _]. by apply H, list_elem_of_In.
Qed.

Lemma Forall_updateFirst {A} (P : A → Prop) (q : A → bool) (g : A → A) l :
  (∀ x, P x → P (g x)) → Forall P l → Forall P (updateFirst q g l).
Proof.
  intros Hg. induction 1 as [|y l Hy Hl IH]; cbn; [constructor|].
  destruct (q y); constructor; auto.
Qed.

Lemma PoolChange_active l l' :
  PoolChange l l' →
  Forall (fun e => we_isActive e = true) l → Forall (fun e => we_isActive e = true) l'.
Proof.
  destruct 1; [done | apply Forall_deleteFirst | apply Forall_deleteAll |].
  by apply Forall_updateFirst.
Qed.

(** What one request does to the pool: it deletes, rebinds, or appends one
    fresh active entry for a user and topic that had none, when nobody
    else was waiting for the topic. *)
Lemma serve_pool_cases op w :
  PoolChange (waitingPool w) (waitingPool (snd (serve op w)))
  ∨ ∃ u t sid now,
      waitingPool (snd (serve op w))
      = waitingPool w ++ [mkWaitingEntry (nextId w) u t now sid true]
      ∧ existsb (fun e' => String.eqb (we_user e') u && String.eqb (we_topic e') t)
                (waitingPool w) = false
      ∧ List.find (qPartnerFor u t) (waitingPool w) = None.
Proof.
  destruct op as
    [u [t|] so now uuid | u t | u [id'|] now | u id' now
    | sock now | sock t | sock t | sock id' r | sock r | k sock r p now
    | sock st now | sock reason now]; cbn [serve].
  - rewrite join_run.
    destruct (negb (topicActive w t)); [left; constructor|].
    destruct (hasEntry w u t); [left; constructor|].
    destruct (hasOpenSession w u); [left; constructor|].
    destruct (List.find (qPartnerFor u t) (waitingPool w)) as [e|] eqn:He.
    + destruct (existsb _ (sessions w)); [left; constructor|].
      left. cbn. apply PcDeleteOne.
    + destruct (existsb _ (waitingPool w)) eqn:Hex; [left; constructor|].
      right. cbn. eauto 10.
  - left; constructor.
  - left. rewrite leave_run.
    destruct (truthySent t) as [[?|?]|]; (apply PcDeleteMany || constructor).
  - left. rewrite cancel_run. destruct (findSession w id'); [|constructor].
    destruct (negb (isParticipant _ u)); [constructor|].
    destruct (ended _); constructor.
  - left; apply PcDeleteMany.
  - left. rewrite endSession_run. destruct (findSession w id'); [|constructor].
    destruct (negb (isParticipant _ u)); [constructor|].
    destruct (ended _); constructor.
  - left; constructor.
  - left. destruct t; (apply PcRebind || constructor).
  - left. destruct t; (apply PcDeleteOne || constructor).
  - left. cbn. destruct (List.find _ (sessions w)) as [s|]; cbn; [|constructor].
    destruct (isParticipant s (sk_userId sock)); cbn; constructor.
  - left; constructor.
  - left. destruct k; constructor.
  - left; constructor.
  - left; apply PcDeleteMany.
Qed.

Lemma serveAll_invariant (P : World → Prop) :
  (∀ op w, P w → P (snd (serve op w))) →
  ∀ ops w, P w → P (snd (serveAll ops w)).
Proof.
  intros Hstep ops. induction ops as [|op ops IH]; intros w Hw; [done|].
  rewrite serveAll_cons. cbn [snd]. auto.
Qed.

(** X5.  The pool never holds two entries for the same user and topic: if
    it does not before a sequence of requests and socket events served in
    turn, it does not after. *)
Theorem pairs_stay_unique (ops : list Op) (w : World) :
  pairsUnique w → pairsUnique (snd (serveAll ops w)).
Proof.
  revert w. apply serveAll_invariant. intros op w Hw. unfold pairsUnique in *.
  destruct (serve_pool_cases op w) as [Hpc|(u & t & sid & now & -> & Hex & _)].
  - by apply (PoolChange_NoDup_map (fun e => (we_user e, we_topic e))
                                   (fun _ _ => eq_refl) _ _ Hpc).
  - rewrite map_app. cbn. apply NoDup_app. split; [done|]. split; [|apply NoDup_singleton].
    intros [u' t'] Hin%list_elem_of_In Hin'%list_elem_of_In.
    destruct Hin' as [[= -> ->]|[]].
    apply in_map_iff in Hin as (e & [= Hu Ht] & He).
    apply existsb_false_Forall in Hex. rewrite Forall_forall in Hex.
    apply list_elem_of_In, Hex in He. cbn in He.
    by rewrite Hu, Ht, !String.eqb_refl in He.
Qed.

Lemma pairs_stay_unique_witness :
  pairsUnique
    (snd (serveAll [OpJoin "B" (Some "css") None 7 "r1"; OpJoin "B" (Some "js") None 8 "r2";
                    OpJoin "B" (Some "js") None 9 "r3"] Cases.crossWaiting)).
Proof.
  apply (pairs_stay_unique _ Cases.crossWaiting).
  apply (bool_decide_unpack _). by vm_compute.
Defined.

(** X6.  Served in turn, requests never leave two users waiting for one
    topic: if every entry is active and no topic has two entries, the same
    holds after any sequence of requests and socket events. *)
Theorem one_waiter_per_topic (ops : list Op) (w : World) :
  oneWaiterPerTopic w → oneWaiterPerTopic (snd (serveAll ops w)).
Proof.
  revert w. apply serveAll_invariant. intros op w [Hact Hnd].
  unfold oneWaiterPerTopic in *.
  destruct (serve_pool_cases op w) as [Hpc|(u & t & sid & now & -> & Hex & Hnone)].
  - split; [by eapply PoolChange_active|].
    by apply (PoolChange_NoDup_map we_topic (fun _ _ => eq_refl) _ _ Hpc).
  - split.
    + apply Forall_app. split; [done|]. by repeat constructor.
    + rewrite map_app. cbn. apply NoDup_app. split; [done|].
      split; [|apply NoDup_singleton].
      intros t' Hin%list_elem_of_In Hin'%list_elem_of_In.
      destruct Hin' as [->|[]]. apply in_map_iff in Hin as (e & Ht & He).
      apply existsb_false_Forall in Hex. apply find_None_Forall in Hnone.
      rewrite Forall_forall in Hex, Hnone, Hact.
      apply list_elem_of_In in He.
      specialize (Hex e He). specialize (Hnone e He). specialize (Hact e He).
      cbn in Hex. unfold qPartnerFor in Hnone.
      rewrite Ht, Hact, String.eqb_refl in *. cbn in *.
      destruct (we_user e =? u)%string; cbn in *; congruence.
Qed.

Lemma one_waiter_per_topic_witness :
  oneWaiterPerTopic
    (snd (serveAll [OpJoin "C" (Some "js") None 7 "r1"; OpJoin "C" (Some "css") None 8 "r2";
                    OpJoin "B" (Some "css") None 9 "r3"] Cases.crossWaiting)).
Proof.
  apply (one_waiter_per_topic _ Cases.crossWaiting). split.
  - by repeat constructor.
  - apply (bool_decide_unpack _). by vm_compute.
Defined.

(** ** Invariants of the stored sessions *)

(** What one request does to the sessions: nothing, or it appends one
    active session of two different users, or it finishes and saves one
    that had not ended. *)
Lemma serve_sessions_cases op w :
  sessions (snd (serve op w)) = sessions w
  ∨ (∃ topic u1 u2 room now,
       u1 ≠ u2
       ∧ sessions (snd (serve op w))
         = sessions w ++ [mkSession (nextId w) topic u1 u2 room StActive now None 0])
  ∨ (∃ s st now,
       findSession w (s_id s) = Some s ∧ ended (s_status s) = false ∧ ended st = true
       ∧ closes (s_id s) op = true
       ∧ sessions (snd (serve op w)) = sessions (saved s st now w)).
Proof.
  destruct op as
    [u [t|] so now uuid | u t | u [id'|] now | u id' now
    | sock now | sock t | sock t | sock id' r | sock r | k sock r p now
    | sock st now | sock reason now]; cbn [serve]; try (by left);
    try (left; rewrite leave_run; by destruct (truthySent t) as [[?|?]|]);
    try (rewrite joinWaitingPool_run || rewrite leaveWaitingPool_run; left; by destruct t).
  - rewrite join_run.
    destruct (negb (topicActive w t)); [by left|].
    destruct (hasEntry w u t); [by left|].
    destruct (hasOpenSession w u); [by left|].
    destruct (List.find (qPartnerFor u t) (waitingPool w)) as [e|] eqn:He.
    + destruct (existsb _ (sessions w)); [by left|].
      right; left. exists t, (we_user e), u, uuid, now. split; [|done].
      apply find_Some_holds in He. unfold qPartnerFor in He. intros Heq.
      rewrite Heq, String.eqb_refl in He. by rewrite andb_false_r in He.
    + destruct (existsb _ (waitingPool w)); by left.
  - rewrite cancel_run. destruct (findSession w id') as [s|] eqn:Hs; [|by left].
    destruct (negb (isParticipant _ u)); [by left|].
    destruct (ended _) eqn:He; [by left|].
    right; right. exists s, StCancelled, now.
    rewrite (findSession_id _ _ _ Hs). cbn. by rewrite Nat.eqb_refl.
  - rewrite endSession_run. destruct (findSession w id') as [s|] eqn:Hs; [|by left].
    destruct (negb (isParticipant _ u)); [by left|].
    destruct (ended _) eqn:He; [by left|].
    right; right. exists s, StCompleted, now.
    rewrite (findSession_id _ _ _ Hs). cbn. by rewrite Nat.eqb_refl.
  - left. cbn. destruct (List.find _ (sessions w)) as [s|]; cbn; [|done].
    by destruct (isParticipant s (sk_userId sock)).
  - left. by destruct k.
Qed.

(** X7.  Nobody is ever in a session with themselves: if the two
    participants of every stored session differ, they still do after any
    sequence of requests and socket events served in turn. *)
Theorem participants_stay_distinct (ops : list Op) (w : World) :
  distinctParticipants w → distinctParticipants (snd (serveAll ops w)).
Proof.
  revert w. apply serveAll_invariant. intros op w Hw. unfold distinctParticipants in *.
  destruct (serve_sessions_cases op w)
    as [->|[(t & u1 & u2 & r & now & Hne & ->)|(s & st & now & _ & _ & _ & _ & ->)]].
  - done.
  - apply Forall_app. split; [done|]. by repeat constructor.
  - cbn. by apply Forall_updateFirst.
Qed.

Lemma participants_stay_distinct_witness :
  distinctParticipants
    (snd (serveAll [OpJoin "A" (Some "css") None 7 "r1"; OpJoin "A" (Some "css") None 8 "r2";
                    OpEnd "B" 0 9; OpJoin "B" (Some "css") None 10 "r3"] Scenario.busy)).
Proof.
  apply (participants_stay_distinct _ Scenario.busy).
  repeat constructor. discriminate.
Defined.

(** One request keeps a stored session, or finishes it if it had not
    ended. *)
Lemma serve_session_step op w id s :
  findSession w id = Some s →
  findSession (snd (serve op w)) id = Some s
  ∨ (ended (s_status s) = false ∧ closes id op = true
     ∧ ∃ st now, ended st = true
                 ∧ findSession (snd (serve op w)) id = Some (preSave (finish s st now))).
Proof.
  intros Hs. destruct (closes id op) eqn:Hc; [|left; by apply serve_keeps_session; auto].
  destruct (ended (s_status s)) eqn:He; [left; by apply serve_keeps_session; auto|].
  destruct op as
    [u [t|] so now uuid | u t | u [id'|] now | u id' now
    | sock now | sock t | sock t | sock id' r | sock r | k sock r p now
    | sock st now | sock reason now]; try discriminate;
    cbn in Hc; apply Nat.eqb_eq in Hc; subst id'; cbn [serve].
  - rewrite cancel_run, Hs, He.
    destruct (negb (isParticipant s u)); [by left|]. right.
    split; [done|]. split; [done|]. exists StCancelled, now. split; [done|].
    by apply findSession_saved_same.
  - rewrite endSession_run, Hs, He.
    destruct (negb (isParticipant s u)); [by left|]. right.
    split; [done|]. split; [done|]. exists StCompleted, now. split; [done|].
    change (findSession (saved s StCompleted now w) id
            = Some (preSave (finish s StCompleted now))).
    by apply findSession_saved_same.
Qed.

(** X8.  A stored session is never deleted and never changes hands: after
    any sequence of requests and socket events served in turn it is still
    found under its id, with the same topic, participants, room and start
    time; its status is the one it had or a terminal one, and never
    returns from a terminal status. *)
Theorem session_identity_kept (ops : list Op) (w : World) (id : nat) (s : Session) :
  findSession w id = Some s →
  ∃ s',
    findSession (snd (serveAll ops w)) id = Some s'
    ∧ s_id s' = s_id s ∧ s_topic s' = s_topic s
    ∧ s_user1 s' = s_user1 s ∧ s_user2 s' = s_user2 s
    ∧ s_roomId s' = s_roomId s ∧ s_startTime s' = s_startTime s
    ∧ (s_status s' = s_status s ∨ ended (s_status s') = true)
    ∧ (ended (s_status s) = true → s' = s).
Proof.
  revert w s. induction ops as [|op ops IH]; intros w s Hs.
  { exists s. repeat split; auto. }
  rewrite serveAll_cons. cbn [snd].
  destruct (serve_session_step op w id s Hs)
    as [Hs'|(He & _ & st & now & Hst & Hs')].
  - apply (IH _ _ Hs').
  - destruct (IH _ _ Hs') as (s' & Hf & H1 & H2 & H3 & H4 & H5 & H6 & H7 & H8).
    exists s'. split; [exact Hf|].
    destruct (preSave_users (finish s st now)) as (Hu1 & Hu2 & Ht).
    rewrite preSave_id in H1. rewrite Ht in H2. rewrite Hu1 in H3. rewrite Hu2 in H4.
    rewrite preSave_roomId in H5. rewrite preSave_status in H7, H8.
    cbn [finish s_id s_topic s_user1 s_user2 s_roomId s_status] in *.
    assert (s_startTime (preSave (finish s st now)) = s_startTime s) as Hstart.
    { unfold preSave. by cbn. }
    rewrite Hstart in H6.
    repeat split; try done.
    + right. destruct H7 as [->|]; done.
    + congruence.
Qed.

Lemma session_identity_kept_witness :
  ∃ s',
    findSession
      (snd (serveAll [OpCancel "C" (Some 0) 50; OpEnd "B" 0 60;
                      OpJoin "B" (Some "css") None 70 "r1"] Scenario.busy)) 0
    = Some s'
    ∧ s_user1 s' = "B" ∧ s_user2 s' = "C" ∧ s_roomId s' = "room-0".
Proof.
  destruct (session_identity_kept
              [OpCancel "C" (Some 0) 50; OpEnd "B" 0 60;
               OpJoin "B" (Some "css") None 70 "r1"]
              Scenario.busy 0 (mkSession 0 "css" "B" "C" "room-0" StActive 1 None 0))
    as (s' & Hf & _ & _ & H1 & H2 & H3 & _); [reflexivity|].
  exists s'. repeat split; assumption.
Defined.

(** ** Cancelling, and who may touch a session *)

(** X9.  A cancel by a participant of a session that has not ended marks it
    cancelled with the time of the request, tells the session's room, and,
    unlike an end, leaves every user's and topic's counters (and the pool)
    as they were. *)
Theorem cancel_session (w : World) (userId : string) (id : nat) (now : Z) (s : Session) :
  findSession w id = Some s →
  isParticipant s userId = true →
  ended (s_status s) = false →
  let w' := snd (Async.run (Matching.cancel userId (Some id) now) w) in
  fst (Async.run (Matching.cancel userId (Some id) now) w)
  = (SessionCancelledOk, [mkEmit (ToRoom (s_roomId s)) (SessionCancelled id userId)])
  ∧ (∃ s', findSession w' id = Some s'
           ∧ s_status s' = StCancelled ∧ s_endTime s' = Some now)
  ∧ users w' = users w ∧ topics w' = topics w ∧ waitingPool w' = waitingPool w.
Proof.
  intros Hs Hp He. cbn zeta. rewrite cancel_run, Hs, Hp, He. cbn [negb fst snd].
  split; [by rewrite (findSession_id _ _ _ Hs)|]. split; [|done].
  exists (preSave (finish s StCancelled now)).
  split; [by apply findSession_saved_same|].
  by rewrite preSave_status, preSave_endTime.
Qed.

Lemma cancel_session_witness :
  let w' := snd (Async.run (Matching.cancel "C" (Some 0) 50) Scenario.busy) in
  sessionsCompleted w' "C" = Some 0 ∧ sessionsCount w' "css" = Some 0
  ∧ s_status <$> findSession w' 0 = Some StCancelled.
Proof.
  destruct (cancel_session Scenario.busy "C" 0 50
              (mkSession 0 "css" "B" "C" "room-0" StActive 1 None 0))
    as (_ & (s' & Hf & Hst & _) & Hu & Ht & _); [reflexivity..|].
  cbn zeta. unfold sessionsCompleted, sessionsCount. rewrite Hu, Ht, Hf. cbn.
  rewrite Hst. by repeat split.
Defined.

(** X10.  A user who is no participant of a stored session can neither read
    nor change it: [GET /:id], end and cancel answer access denied,
    [joinSession] answers with an error event and joins no room, and the
    state is the one before in each case. *)
Theorem outsider_denied (w : World) (sock : Socket) (id : nat) (now : Z) (roomId : string)
    (s : Session) :
  findSession w id = Some s →
  isParticipant s (sk_userId sock) = false →
  Async.run (SessionQueries.getSession (sk_userId sock) id) w
  = (SessionQueries.GetAccessDenied, w)
  ∧ Async.run (Sessions.endSession (sk_userId sock) id now) w = ((AccessDenied, []), w)
  ∧ Async.run (Matching.cancel (sk_userId sock) (Some id) now) w = ((AccessDenied, []), w)
  ∧ Async.run (SocketHandler.joinSession sock id roomId) w
    = ([mkEmit (ToSocket (sk_id sock)) (ErrorEvent "Access denied to session")], w).
Proof.
  intros Hs Hp. rewrite endSession_run, cancel_run, Hs, Hp. cbn [negb].
  unfold SessionQueries.getSession, SocketHandler.joinSession. cbn.
  fold (findSession w id). rewrite Hs. cbn. rewrite Hp. cbn. by repeat split.
Qed.

Lemma outsider_denied_witness :
  Async.run (SessionQueries.getSession "A" 0) Scenario.busy
  = (SessionQueries.GetAccessDenied, Scenario.busy).
Proof.
  apply (outsider_denied Scenario.busy Scenario.sockA1 0 5 "room-0"
           (mkSession 0 "css" "B" "C" "room-0" StActive 1 None 0)); reflexivity.
Defined.

(** ** Counters *)

Lemma completed_touch (us : gmap string User) (k u : string) (now : Z) :
  u_sessionsCompleted <$> alter (setLastSeen now) k us !! u
  = u_sessionsCompleted <$> us !! u.
Proof.
  rewrite lookup_alter. case_decide; [|done]. subst. by destruct (us !! u).
Qed.

(** X11.  Among the handlers embedded here ([POST /matching/join],
    [/leave], [/cancel], [PATCH /sessions/:id/end] and the listeners of
    [socketHandler.js]: connection, joinWaitingPool, leaveWaitingPool,
    joinSession, leaveSession, the five relays, updateStatus, disconnect)
    only an end that succeeds moves the counters: served alone, each of
    the others, and an end that is turned away, leaves every user's
    [sessionsCompleted] and every stored topic as they are.  (The catalog
    routes [POST /topics] and [PUT /topics/:id] write topics and are not
    among these handlers.) *)
Theorem counters_only_on_end (op : Op) (w : World) :
  (∀ s, fst (fst (serve op w)) ≠ SessionEndedOk s) →
  topics (snd (serve op w)) = topics w
  ∧ ∀ u, sessionsCompleted (snd (serve op w)) u = sessionsCompleted w u.
Proof.
  intros Hnot. unfold sessionsCompleted.
  destruct op as
    [u [t|] so now uuid | u t | u [id'|] now | u id' now
    | sock now | sock t | sock t | sock id' r | sock r | k sock r p now
    | sock st now | sock reason now]; cbn [serve] in *;
    try (by split); try (split; [done|]; intros x; cbn; by apply completed_touch);
    try (rewrite leave_run; by destruct (truthySent t) as [[?|?]|]);
    try (rewrite joinWaitingPool_run || rewrite leaveWaitingPool_run; by destruct t).
  - rewrite join_run.
    destruct (negb (topicActive w t)); [by split|].
    destruct (hasEntry w u t); [by split|].
    destruct (hasOpenSession w u); [by split|].
    destruct (List.find (qPartnerFor u t) (waitingPool w)) as [e|].
    + by destruct (existsb _ (sessions w)).
    + by destruct (existsb _ (waitingPool w)).
  - rewrite cancel_run. destruct (findSession w id'); [|by split].
    destruct (negb (isParticipant _ u)); [by split|].
    by destruct (ended _).
  - rewrite endSession_run in *. destruct (findSession w id'); [|by split].
    destruct (negb (isParticipant _ u)); [by split|].
    destruct (ended _); [by split|]. by destruct (Hnot _ eq_refl).
  - cbn. destruct (List.find _ (sessions w)) as [s|]; cbn; [|by split].
    by destruct (isParticipant s (sk_userId sock)).
  - by destruct k.
Qed.

Lemma counters_only_on_end_witness :
  sessionsCompleted
    (snd (serve (OpCancel "C" (Some 0) 50) Scenario.busy)) "B"
  = sessionsCompleted Scenario.busy "B".
Proof.
  apply (counters_only_on_end (OpCancel "C" (Some 0) 50) Scenario.busy).
  intros s. discriminate.
Defined.

(** ** The read-only routes against the routes that write *)

Lemma status_run w userId :
  Async.run (MatchingQueries.status userId) w
  = (MatchingQueries.mkStatus
       (Nat.ltb 0 (List.length (List.filter (MatchingQueries.qWaitingOf userId)
                                            (waitingPool w))))
       (List.filter (MatchingQueries.qWaitingOf userId) (waitingPool w))
       (if List.find (qOpenSessionOf userId) (sessions w) is Some _ then true else false)
       (List.find (qOpenSessionOf userId) (sessions w)),
     w).
Proof. reflexivity. Qed.

Lemma hasEntry_waitingFor w userId topicId :
  hasEntry w userId topicId = true
  ↔ ∃ e, In e (List.filter (MatchingQueries.qWaitingOf userId) (waitingPool w))
         ∧ we_topic e = topicId.
Proof.
  unfold hasEntry. rewrite existsb_exists. split.
  - intros (e & He & Hq). exists e. unfold qEntryOf in Hq.
    apply andb_true_iff in Hq as [[Hu Ht]%andb_true_iff Ha].
    split; [|by apply String.eqb_eq]. apply filter_In. split; [done|].
    unfold MatchingQueries.qWaitingOf. by rewrite Hu, Ha.
  - intros (e & [He Hq]%filter_In & <-). exists e. split; [done|].
    unfold MatchingQueries.qWaitingOf in Hq. apply andb_true_iff in Hq as [Hu Ha].
    unfold qEntryOf. by rewrite Hu, Ha, String.eqb_refl.
Qed.

Lemma hasOpenSession_find w userId :
  hasOpenSession w userId
  = if List.find (qOpenSessionOf userId) (sessions w) is Some _ then true else false.
Proof.
  unfold hasOpenSession. destruct (existsb _ (sessions w)) eqn:H.
  - by apply existsb_find_Some in H as [s ->].
  - by rewrite (existsb_find_None _ _ H).
Qed.

(** X12.  [GET /status] changes nothing and tells what a join will do: for
    an existing, active topic, a join of the user is turned away with a
    conflict error exactly when the status shows an active session or
    lists an entry for that topic. *)
Theorem status_predicts_join (w : World) (userId topicId : string)
    (socketId : option string) (now : Z) (uuid : string) :
  topicActive w topicId = true →
  let st := fst (Async.run (MatchingQueries.status userId) w) in
  snd (Async.run (MatchingQueries.status userId) w) = w
  ∧ (isConflict (fst (fst (Async.run
                             (Matching.join userId (Some topicId) socketId now uuid) w)))
     = true
     ↔ MatchingQueries.hasActiveSession st = true
       ∨ ∃ e, In e (MatchingQueries.waitingFor st) ∧ we_topic e = topicId)
  ∧ (MatchingQueries.isWaiting st = true ↔ MatchingQueries.waitingFor st ≠ []).
Proof.
  intros Ht. cbn zeta. rewrite status_run. cbn [fst snd]. split; [done|].
  cbn [MatchingQueries.hasActiveSession MatchingQueries.waitingFor MatchingQueries.isWaiting].
  rewrite <- hasOpenSession_find, <- hasEntry_waitingFor. split.
  - rewrite join_run, Ht. cbn [negb].
    destruct (hasEntry w userId topicId); [cbn; tauto|].
    destruct (hasOpenSession w userId); [cbn; tauto|].
    destruct (List.find (qPartnerFor userId topicId) (waitingPool w)).
    + destruct (existsb _ (sessions w)); cbn; intuition congruence.
    + destruct (existsb _ (waitingPool w)); cbn; intuition congruence.
  - destruct (List.filter _ (waitingPool w)); cbn; intuition congruence.
Qed.

Lemma status_predicts_join_witness :
  isConflict (fst (fst (Async.run (Matching.join "B" (Some "css") None 7 "r2")
                                  Scenario.busy))) = true.
Proof.
  apply (status_predicts_join Scenario.busy "B" "css" None 7 "r2"); [reflexivity|].
  left. reflexivity.
Defined.

(** X13.  After [POST /leave] without a topic, or [POST /cancel] without a
    session id, the user waits nowhere: both leave the same state, the
    status route lists no entry, and no join of the user is answered
    "Already in waiting pool for this topic". *)
Theorem leave_all_then_status (w : World) (userId : string) (now : Z) :
  let w' := snd (Async.run (Matching.leave userId None) w) in
  snd (Async.run (Matching.cancel userId None now) w) = w'
  ∧ MatchingQueries.waitingFor (fst (Async.run (MatchingQueries.status userId) w')) = []
  ∧ MatchingQueries.isWaiting (fst (Async.run (MatchingQueries.status userId) w')) = false
  ∧ ∀ topicId socketId now' uuid,
      fst (fst (Async.run (Matching.join userId (Some topicId) socketId now' uuid) w'))
      ≠ AlreadyWaiting.
Proof.
  cbn zeta.
  assert (List.filter (MatchingQueries.qWaitingOf userId)
            (deleteAll (qLeave userId None) (waitingPool w)) = []) as Hnone.
  { unfold deleteAll. induction (waitingPool w) as [|e l IH]; cbn; [done|].
    destruct (qLeave userId None e) eqn:Hq; cbn; [done|].
    unfold qLeave in Hq. cbn in Hq. rewrite andb_true_r in Hq.
    unfold MatchingQueries.qWaitingOf. by rewrite Hq. }
  assert (waitingPool (snd (Async.run (Matching.leave userId None) w))
          = deleteAll (qLeave userId None) (waitingPool w)) as Hpool by reflexivity.
  split; [done|]. rewrite status_run.
  cbn [fst MatchingQueries.waitingFor MatchingQueries.isWaiting].
  rewrite Hpool, Hnone. split; [done|]. split; [done|].
  intros topicId socketId now' uuid. rewrite join_run.
  destruct (negb (topicActive _ topicId)); [done|].
  destruct (hasEntry _ userId topicId) eqn:He.
  { apply hasEntry_waitingFor in He as (e & He & _). by rewrite Hpool, Hnone in He. }
  destruct (hasOpenSession _ userId); [done|].
  destruct (List.find _ _).
  - by destruct (existsb _ _).
  - by destruct (existsb _ _).
Qed.

(** ** Topic statistics *)

Lemma estimatedWaitTime_bounds (n : nat) :
  (1 ≤ MatchingQueries.estimatedWaitTime n)%nat
  ∧ (n = 0 → MatchingQueries.estimatedWaitTime n = 1)
  ∧ (0 < n → (n ≤ MatchingQueries.estimatedWaitTime n ≤ n + 1)%nat
             ∧ Nat.even (MatchingQueries.estimatedWaitTime n) = true).
Proof.
  unfold MatchingQueries.estimatedWaitTime. destruct n as [|n]; cbn [Nat.ltb Nat.leb].
  { split; [lia|]. split; [done | lia]. }
  pose proof (Nat.div_mod_eq (S n + 1) 2) as Hdm.
  pose proof (Nat.mod_upper_bound (S n + 1) 2) as Hm.
  assert (1 ≤ (S n + 1) `div` 2)%nat as H1 by (apply Nat.div_le_lower_bound; lia).
  rewrite Nat.max_r by lia.
  split; [lia|]. split; [done|]. intros _. split; [lia|].
  rewrite Nat.mul_comm. rewrite Nat.even_mul. done.
Qed.

(** X14.  [GET /stats/:topicId] changes nothing and, for a stored topic,
    reports the number of active entries for it and a wait estimate that
    is 1 when nobody waits and otherwise the waiting count rounded up to
    an even number of minutes. *)
Theorem stats_estimate (w : World) (createdAt : Session → Z) (topicId : string) (now : Z)
    (topic : Topic) :
  topics w !! topicId = Some topic →
  ∃ waiting recent estimate,
    Async.run (MatchingQueries.stats createdAt topicId now) w
    = (MatchingQueries.StatsOk (t_name topic) waiting recent estimate, w)
    ∧ waiting = countMatches (MatchingQueries.qWaitingFor topicId) (waitingPool w)
    ∧ (1 ≤ estimate)%nat
    ∧ (waiting = 0 → estimate = 1)
    ∧ (0 < waiting → (waiting ≤ estimate ≤ waiting + 1)%nat ∧ Nat.even estimate = true).
Proof.
  intros Ht. do 3 eexists. split.
  { unfold MatchingQueries.stats. cbn. rewrite Ht. cbn. reflexivity. }
  split; [done|]. apply estimatedWaitTime_bounds.
Qed.

Lemma stats_estimate_witness :
  Async.run (MatchingQueries.stats s_startTime "css" 100) Scenario.twoWaiting
  = (MatchingQueries.StatsOk "css" 2 0 2, Scenario.twoWaiting).
Proof.
  destruct (stats_estimate Scenario.twoWaiting s_startTime "css" 100 Scenario.css)
    as (c & r & e & Hrun & _); [reflexivity|].
  rewrite Hrun. by vm_compute.
Defined.

(** X15.  The statistics route does not look at [isActive]: for a topic that
    is stored but switched off, a join is answered "Topic not found" while
    the statistics are served, entries still waiting for it included. *)
Theorem stats_of_inactive_topic (w : World) (createdAt : Session → Z)
    (userId topicId : string) (socketId : option string) (now : Z) (uuid : string)
    (topic : Topic) :
  topics w !! topicId = Some topic →
  t_isActive topic = false →
  Async.run (Matching.join userId (Some topicId) socketId now uuid) w
  = ((TopicNotFound, []), w)
  ∧ ∃ recent,
      Async.run (MatchingQueries.stats createdAt topicId now) w
      = (MatchingQueries.StatsOk (t_name topic)
           (countMatches (MatchingQueries.qWaitingFor topicId) (waitingPool w)) recent
           (MatchingQueries.estimatedWaitTime
              (countMatches (MatchingQueries.qWaitingFor topicId) (waitingPool w))),
         w).
Proof.
  intros Ht Hoff. split.
  - rewrite join_run. unfold topicActive. by rewrite Ht, Hoff.
  - eexists. unfold MatchingQueries.stats. cbn. rewrite Ht. cbn. reflexivity.
Qed.

Lemma stats_of_inactive_topic_witness :
  Async.run (Matching.join "A" (Some "css") None 7 "r1") Scenario.retired
  = ((TopicNotFound, []), Scenario.retired).
Proof.
  apply (stats_of_inactive_topic Scenario.retired s_startTime "A" "css" None 7 "r1"
           (mkTopic "css" false 0)); reflexivity.
Defined.

(** ** Duration of a finished session *)

Lemma jsRoundDiv_nearest (n d : Z) :
  (0 < d)%Z →
  (2 * n - d < 2 * d * jsRoundDiv n d <= 2 * n + d)%Z.
Proof.
  intros Hd. unfold jsRoundDiv.
  pose proof (Z.div_mod (2 * n + d) (2 * d) ltac:(lia)) as Hdm.
  pose proof (Z.mod_pos_bound (2 * n + d) (2 * d) ltac:(lia)) as Hm.
  lia.
Qed.

(** X16.  When a session is ended, the stored duration is the elapsed time
    in minutes rounded to the nearest minute, halves up: it differs from
    (end - start) / 60000 by at most half a minute, and is not negative
    when the end is not before the start. *)
Theorem end_duration (w : World) (userId : string) (id : nat) (now : Z) (s : Session) :
  findSession w id = Some s →
  isParticipant s userId = true →
  ended (s_status s) = false →
  ∃ s',
    findSession (snd (Async.run (Sessions.endSession userId id now) w)) id = Some s'
    ∧ s_endTime s' = Some now
    ∧ (now - s_startTime s - 30000 < 60000 * s_duration s'
       <= now - s_startTime s + 30000)%Z
    ∧ ((s_startTime s <= now)%Z → (0 <= s_duration s')%Z).
Proof.
  intros Hs Hp He. rewrite endSession_run, Hs, Hp, He. cbn [negb snd].
  exists (preSave (finish s StCompleted now)). split.
  { change (findSession (saved s StCompleted now w) id
            = Some (preSave (finish s StCompleted now))).
    by apply findSession_saved_same. }
  split; [by rewrite preSave_endTime|]. cbn.
  pose proof (jsRoundDiv_nearest (now - s_startTime s) 60000 ltac:(lia)). lia.
Qed.

Lemma end_duration_witness :
  s_duration <$> findSession (snd (Async.run (Sessions.endSession "B" 0 90001)
                                             Scenario.busy)) 0
  = Some 2%Z.
Proof.
  destruct (end_duration Scenario.busy "B" 0 90001
              (mkSession 0 "css" "B" "C" "room-0" StActive 1 None 0))
    as (s' & Hf & _ & Hd & _); [reflexivity..|].
  rewrite Hf. cbn in *. f_equal. lia.
Defined.

(** ** Rooms *)

Lemma members_insert_eq (rs : gmap string (gset string)) (room : string) (ms : gset string) :
  members (<[room := ms]> rs) room = ms.
Proof. unfold members. by rewrite lookup_insert_eq. Qed.

Lemma members_insert_ne (rs : gmap string (gset string)) (room room' : string)
    (ms : gset string) :
  room ≠ room' → members (<[room := ms]> rs) room' = members rs room'.
Proof. intros H. unfold members. by rewrite lookup_insert_ne. Qed.

Lemma join_then_except (x : string) (ms : gset string) :
  ({[x]} ∪ ms) ∖ {[x]} = ms ∖ {[x]}.
Proof.
  apply set_eq. intros y. rewrite !elem_of_difference, elem_of_union, elem_of_singleton.
  tauto.
Qed.

Lemma except_twice (x : string) (ms : gset string) :
  (ms ∖ {[x]}) ∖ {[x]} = ms ∖ {[x]}.
Proof.
  apply set_eq. intros y. rewrite !elem_of_difference. tauto.
Qed.

(** Joining a room takes nobody out of any room. *)
Lemma members_join_mono (rs : gmap string (gset string)) (room room' x y : string) :
  x ∈ members rs room' → x ∈ members (<[room := {[y]} ∪ members rs room]> rs) room'.
Proof.
  intros Hx. destruct (decide (room = room')) as [->|Hne].
  - rewrite members_insert_eq. apply elem_of_union. by right.
  - by rewrite members_insert_ne.
Qed.

Lemma joinSession_run w sock id roomId s :
  findSession w id = Some s → isParticipant s (sk_userId sock) = true →
  Async.run (SocketHandler.joinSession sock id roomId) w
  = ([SocketHandler.toOthers sock roomId
        (ParticipantJoined (sk_userId sock) (sk_username sock));
      SocketHandler.toSelf sock (SessionJoined id roomId)],
     set_rooms (fun rs => <[roomId := {[sk_id sock]} ∪ members rs roomId]> rs) w).
Proof.
  intros Hs Hp. unfold SocketHandler.joinSession. cbn. fold (findSession w id).
  rewrite Hs. cbn. by rewrite Hp.
Qed.

(** X17.  [joinSession] by a participant of the session puts the socket in
    the room the client names, whatever room the session was created
    with: the socket is added to that room and to no other, the sockets
    already there are told, and the stored state is untouched. *)
Theorem joinSession_named_room (w : World) (sock : Socket) (id : nat) (roomId : string)
    (s : Session) :
  findSession w id = Some s →
  isParticipant s (sk_userId sock) = true →
  let emits := fst (Async.run (SocketHandler.joinSession sock id roomId) w) in
  let w' := snd (Async.run (SocketHandler.joinSession sock id roomId) w) in
  emits = [mkEmit (ToRoomExcept roomId (sk_id sock))
                  (ParticipantJoined (sk_userId sock) (sk_username sock));
           mkEmit (ToSocket (sk_id sock)) (SessionJoined id roomId)]
  ∧ members (rooms w') roomId = {[sk_id sock]} ∪ members (rooms w) roomId
  ∧ (∀ room, room ≠ roomId → members (rooms w') room = members (rooms w) room)
  ∧ recipients (rooms w') (ToRoomExcept roomId (sk_id sock))
    = members (rooms w) roomId ∖ {[sk_id sock]}
  ∧ sessions w' = sessions w ∧ waitingPool w' = waitingPool w
  ∧ activeConnections w' = activeConnections w.
Proof.
  intros Hs Hp. cbn zeta. rewrite (joinSession_run _ _ _ _ _ Hs Hp). cbn [fst snd].
  split; [done|]. cbn. split; [apply members_insert_eq|]. split.
  - intros room Hne. by apply members_insert_ne.
  - split; [|done]. rewrite members_insert_eq. apply join_then_except.
Qed.

Lemma joinSession_named_room_witness :
  members (rooms (snd (Async.run (SocketHandler.joinSession Scenario.sockB 0 "user_A")
                                 Scenario.busy))) "user_A"
  = {[ "sock-B" ]} ∪ members (rooms Scenario.busy) "user_A".
Proof.
  apply (joinSession_named_room Scenario.busy Scenario.sockB 0 "user_A"
           (mkSession 0 "css" "B" "C" "room-0" StActive 1 None 0)); reflexivity.
Defined.

(** X18.  [leaveSession] looks nothing up: whoever sends it, the socket is
    taken out of the named room and of no other, the sockets left in the
    room are told, and the stored state is untouched; after a
    [joinSession] it undoes the join. *)
Theorem leaveSession_leaves (w : World) (sock : Socket) (roomId : string) :
  let emits := fst (Async.run (SocketHandler.leaveSession sock roomId) w) in
  let w' := snd (Async.run (SocketHandler.leaveSession sock roomId) w) in
  emits = [mkEmit (ToRoomExcept roomId (sk_id sock))
                  (ParticipantLeft (sk_userId sock) (sk_username sock))]
  ∧ members (rooms w') roomId = members (rooms w) roomId ∖ {[sk_id sock]}
  ∧ (∀ room, room ≠ roomId → members (rooms w') room = members (rooms w) room)
  ∧ recipients (rooms w') (ToRoomExcept roomId (sk_id sock))
    = members (rooms w) roomId ∖ {[sk_id sock]}
  ∧ sessions w' = sessions w ∧ waitingPool w' = waitingPool w
  ∧ ∀ id s, findSession w id = Some s → isParticipant s (sk_userId sock) = true →
            members
              (rooms (snd (Async.run (SocketHandler.leaveSession sock roomId)
                             (snd (Async.run (SocketHandler.joinSession sock id roomId) w)))))
              roomId
            = members (rooms w) roomId ∖ {[sk_id sock]}.
Proof.
  cbn zeta. split; [done|]. split; [apply members_insert_eq|]. split.
  { intros room Hne. by apply members_insert_ne. }
  split; [cbn; rewrite members_insert_eq; apply except_twice|].
  split; [done|]. split; [done|].
  intros id s Hs Hp. rewrite (joinSession_run _ _ _ _ _ Hs Hp). cbn.
  rewrite !members_insert_eq. apply join_then_except.
Qed.

Lemma leaveSession_leaves_witness :
  members
    (rooms (snd (Async.run (SocketHandler.leaveSession Scenario.sockB "room-0")
                   (snd (Async.run (SocketHandler.joinSession Scenario.sockB 0 "room-0")
                                   Scenario.busy)))))
    "room-0"
  = members (rooms Scenario.busy) "room-0" ∖ {[ "sock-B" ]}.
Proof.
  destruct (leaveSession_leaves Scenario.busy Scenario.sockB "room-0")
    as (_ & _ & _ & _ & _ & _ & Hround).
  apply (Hround 0 (mkSession 0 "css" "B" "C" "room-0" StActive 1 None 0)); reflexivity.
Defined.

(** ** Connecting and the registry *)

Lemma connection_run w sock now :
  Async.run (SocketHandler.connection sock now) w
  = ([],
     set_rooms (fun rs => <["user_" +:+ sk_userId sock
                            := {[sk_id sock]} ∪ members rs ("user_" +:+ sk_userId sock)]> rs)
       (set_users (alter (setLastSeen now) (sk_userId sock))
          (set_activeConnections
             (insert (sk_userId sock) (mkConnection (sk_id sock) (sk_username sock) now None))
             (set_rooms (fun rs => <[sk_id sock := {[sk_id sock]} ∪ members rs (sk_id sock)]> rs)
                w)))).
Proof. reflexivity. Qed.

(** X19.  A new connection is registered under its user, replacing whatever
    was registered (the latest socket wins, its status unset); the socket
    is put in its user's personal room beside the sockets already there,
    so [notifyUser] reaches it and them; pool and sessions are untouched
    and the user's [lastSeen] is the time of the connection. *)
Theorem connection_registers (w : World) (sock : Socket) (now : Z) (ev : Event) :
  let w' := snd (Async.run (SocketHandler.connection sock now) w) in
  activeConnections w' !! sk_userId sock
  = Some (mkConnection (sk_id sock) (sk_username sock) now None)
  ∧ isUserOnline w' (sk_userId sock) = true
  ∧ (∀ userId, userId ≠ sk_userId sock →
               activeConnections w' !! userId = activeConnections w !! userId)
  ∧ sk_id sock ∈ recipients (rooms w') (e_target (ServerHandle.notifyUser (sk_userId sock) ev))
  ∧ (∀ room x, x ∈ members (rooms w) room → x ∈ members (rooms w') room)
  ∧ waitingPool w' = waitingPool w ∧ sessions w' = sessions w
  ∧ u_lastSeen <$> users w' !! sk_userId sock = (fun _ => now) <$> users w !! sk_userId sock.
Proof.
  cbn zeta. rewrite connection_run. cbn [snd]. cbn.
  split; [apply lookup_insert_eq|]. split.
  { unfold isUserOnline. cbn. apply bool_decide_eq_true. rewrite lookup_insert_eq. eauto. }
  split; [intros userId Hne; by apply lookup_insert_ne|]. split.
  { rewrite members_insert_eq. apply elem_of_union. left. by apply elem_of_singleton. }
  split.
  { intros room x Hx. by apply members_join_mono, members_join_mono. }
  split; [done|]. split; [done|].
  rewrite lookup_alter_eq. by destruct (users w !! sk_userId sock).
Qed.

Lemma disconnect_rooms_aux (rs : gmap string (gset string)) (sid room x : string) :
  x ∈ members ((fun ms => ms ∖ {[sid]}) <$> rs) room ↔ x ∈ members rs room ∧ x ≠ sid.
Proof.
  rewrite members_leaveAll, elem_of_difference, elem_of_singleton. tauto.
Qed.

(** X20.  A disconnect takes the closing socket out of every room and moves
    no other socket: the user's other sockets stay in the personal room,
    so [notifyUser] still reaches them although the registry then reports
    the user offline. *)
Theorem disconnect_rooms (w : World) (sock : Socket) (reason : string) (now : Z) :
  let w' := snd (Async.run (SocketHandler.disconnect sock reason now) w) in
  (∀ room, sk_id sock ∉ members (rooms w') room)
  ∧ (∀ room x, x ≠ sk_id sock → (x ∈ members (rooms w') room ↔ x ∈ members (rooms w) room))
  ∧ (∀ x ev, x ≠ sk_id sock →
             x ∈ members (rooms w) ("user_" +:+ sk_userId sock) →
             x ∈ recipients (rooms w') (e_target (ServerHandle.notifyUser (sk_userId sock) ev))
             ∧ isUserOnline w' (sk_userId sock) = false).
Proof.
  cbn zeta. rewrite disconnect_run. cbn [snd]. cbn. split; [|split].
  - intros room [_ Hne]%disconnect_rooms_aux. done.
  - intros room x Hne. rewrite disconnect_rooms_aux. tauto.
  - intros x ev Hne Hx. split.
    + apply disconnect_rooms_aux. done.
    + unfold isUserOnline. cbn. rewrite lookup_delete_eq.
      apply bool_decide_eq_false. by intros [? ?].
Qed.

Lemma disconnect_rooms_witness :
  let w2 := snd (serveAll [OpConnection Scenario.sockA1 1; OpConnection Scenario.sockA2 2]
                          Scenario.empty) in
  let w3 := snd (Async.run (SocketHandler.disconnect Scenario.sockA1 "transport close" 3)
                           w2) in
  "sock-A2" ∈ recipients (rooms w3) (e_target (ServerHandle.notifyUser "A" (ErrorEvent "x")))
  ∧ isUserOnline w3 "A" = false.
Proof.
  cbn zeta.
  destruct (disconnect_rooms
              (snd (serveAll [OpConnection Scenario.sockA1 1; OpConnection Scenario.sockA2 2]
                             Scenario.empty))
              Scenario.sockA1 "transport close" 3) as (_ & _ & Hreach).
  apply (Hreach "sock-A2" (ErrorEvent "x")).
  - discriminate.
  - apply (bool_decide_unpack _). by vm_compute.
Defined.

(** X21.  [getConnectionCount] counts users, not sockets: a connection adds
    one only when its user was not registered, and a disconnect takes one
    off whenever the user was registered, whichever socket closes. *)
Theorem connection_count (w : World) (sock : Socket) (reason : string) (now : Z) :
  ServerHandle.getConnectionCount (snd (Async.run (SocketHandler.connection sock now) w))
  = (if isUserOnline w (sk_userId sock)
     then ServerHandle.getConnectionCount w
     else S (ServerHandle.getConnectionCount w))
  ∧ ServerHandle.getConnectionCount
      (snd (Async.run (SocketHandler.disconnect sock reason now) w))
    = (if isUserOnline w (sk_userId sock)
       then pred (ServerHandle.getConnectionCount w)
       else ServerHandle.getConnectionCount w)
  ∧ ServerHandle.getConnectionCount
      (snd (Async.run (SocketHandler.disconnect sock reason now)
              (snd (Async.run (SocketHandler.connection sock now) w))))
    = (if isUserOnline w (sk_userId sock)
       then pred (ServerHandle.getConnectionCount w)
       else ServerHandle.getConnectionCount w).
Proof.
  rewrite !disconnect_run, connection_run. unfold ServerHandle.getConnectionCount,
    isUserOnline. cbn. rewrite map_size_insert, !map_size_delete, lookup_insert_eq.
  rewrite map_size_insert.
  destruct (activeConnections w !! sk_userId sock) as [c|] eqn:Hc; cbn.
  - by repeat split.
  - by repeat split.
Qed.

(** X22.  [updateStatus] registers and unregisters nobody: a user without a
    registry entry stays without one (the status is dropped), a registered
    user keeps socket id and connection time and gets the new status, and
    no other entry, room, waiting entry or session changes. *)
Theorem updateStatus_keeps_registry (w : World) (sock : Socket) (status : string) (now : Z) :
  let w' := snd (Async.run (SocketHandler.updateStatus sock status now) w) in
  fst (Async.run (SocketHandler.updateStatus sock status now) w) = []
  ∧ (∀ userId, isUserOnline w' userId = isUserOnline w userId)
  ∧ ServerHandle.getConnectionCount w' = ServerHandle.getConnectionCount w
  ∧ activeConnections w' !! sk_userId sock
    = setStatus status <$> activeConnections w !! sk_userId sock
  ∧ (∀ userId, userId ≠ sk_userId sock →
               activeConnections w' !! userId = activeConnections w !! userId)
  ∧ rooms w' = rooms w ∧ waitingPool w' = waitingPool w ∧ sessions w' = sessions w.
Proof.
  cbn zeta. cbn. split; [done|]. split; [|split].
  - intros userId. unfold isUserOnline. cbn. rewrite lookup_alter.
    case_decide; [|done]. subst. by destruct (activeConnections w !! sk_userId sock).
  - unfold ServerHandle.getConnectionCount. cbn.
    rewrite <- !size_dom. f_equal. apply leibniz_equiv, dom_alter.
  - split; [apply lookup_alter_eq|]. split; [|done].
    intros userId Hne. by apply lookup_alter_ne.
Qed.

(** ** Binding a waiting entry to a socket *)

Lemma qEntryOf_rebind u t sid e : qEntryOf u t (setSocketId sid e) = qEntryOf u t e.
Proof. reflexivity. Qed.

(** With one entry per user and topic, the active entry of the user for the
    topic is the one a rebind writes. *)
Lemma rebind_socket (l : list WaitingEntry) (u t sid : string) (e : WaitingEntry) :
  NoDup (map (fun e => (we_user e, we_topic e)) l) →
  In e (updateFirst (qEntryOf u t) (setSocketId sid) l) →
  qEntryOf u t e = true →
  we_socketId e = sid.
Proof.
  induction l as [|x l IH]; cbn; [done|].
  intros [Hx Hl]%NoDup_cons Hin Hq.
  destruct (qEntryOf u t x) eqn:Hqx.
  - destruct Hin as [<-|Hin]; [done|]. exfalso. apply Hx.
    unfold qEntryOf in Hq, Hqx.
    apply andb_true_iff in Hq as [[Hu Ht]%andb_true_iff _].
    apply andb_true_iff in Hqx as [[Hu' Ht']%andb_true_iff _].
    apply String.eqb_eq in Hu, Ht, Hu', Ht'.
    apply list_elem_of_In, in_map_iff. exists e. split; [congruence | done].
  - destruct Hin as [<-|Hin]; [congruence|]. by apply IH.
Qed.

Lemma In_updateFirst_other {A} (q : A → bool) (g : A → A) l x :
  In x l → q x = false → In x (updateFirst q g l).
Proof.
  induction l as [|y l IH]; cbn; [done|].
  intros [->|Hin] Hq.
  - rewrite Hq. by left.
  - destruct (q y); right; auto.
Qed.

(** X23.  [joinWaitingPool] creates and deletes no entry ([upsert:
    false]).  With a [topicId] that cannot be cast to an ObjectId the
    listener answers the error "Failed to join waiting pool", joins no
    room and changes nothing.  Otherwise the user's active entry for the
    topic, if there is one, gets the socket's id, and without one the
    pool is as before; the socket joins the topic's waiting room and is
    acknowledged.  In both cases the ids of the pool's entries and the
    sessions are as before. *)
Theorem joinWaitingPool_rebinds (w : World) (sock : Socket) (topicId : SentId) :
  let w' := snd (Async.run (SocketHandler.joinWaitingPool sock topicId) w) in
  match topicId with
  | OtherText _ =>
      Async.run (SocketHandler.joinWaitingPool sock topicId) w
      = ([mkEmit (ToSocket (sk_id sock)) (ErrorEvent "Failed to join waiting pool")], w)
  | ObjectIdText t =>
      fst (Async.run (SocketHandler.joinWaitingPool sock topicId) w)
      = [mkEmit (ToSocket (sk_id sock)) (WaitingPoolJoined t (sk_id sock))]
      ∧ (hasEntry w (sk_userId sock) t = false → waitingPool w' = waitingPool w)
      ∧ (∀ e, List.find (qEntryOf (sk_userId sock) t) (waitingPool w) = Some e →
              List.find (qEntryOf (sk_userId sock) t) (waitingPool w')
              = Some (setSocketId (sk_id sock) e))
      ∧ sk_id sock ∈ members (rooms w') ("waiting_" +:+ t)
      ∧ (∀ room, room ≠ "waiting_" +:+ t → members (rooms w') room = members (rooms w) room)
  end
  ∧ map we_id (waitingPool w') = map we_id (waitingPool w)
  ∧ sessions w' = sessions w.
Proof.
  cbn zeta. rewrite joinWaitingPool_run. destruct topicId as [t|text]; cbn [fst snd].
  - cbn. split; [|split; [by apply ids_rebind | done]].
    split; [done|]. split.
    { intros Hno. apply updateFirst_None. by apply existsb_false_Forall. }
    split.
    { intros e He. apply find_updateFirst_same; [done|].
      rewrite qEntryOf_rebind. by apply find_Some_holds in He. }
    split.
    { rewrite members_insert_eq. apply elem_of_union. left. by apply elem_of_singleton. }
    intros room Hne. by apply members_insert_ne.
  - by repeat split.
Qed.

Lemma joinWaitingPool_rebinds_witness :
  waitingPool (snd (Async.run (SocketHandler.joinWaitingPool Scenario.sockC
                                 (ObjectIdText "css"))
                              Scenario.oneWaiting))
  = waitingPool Scenario.oneWaiting
  ∧ Async.run (SocketHandler.joinWaitingPool Scenario.sockC (OtherText "css "))
              Scenario.oneWaiting
    = ([mkEmit (ToSocket "sock-C") (ErrorEvent "Failed to join waiting pool")],
       Scenario.oneWaiting).
Proof.
  split.
  - destruct (joinWaitingPool_rebinds Scenario.oneWaiting Scenario.sockC
                (ObjectIdText "css")) as ((_ & Hsame & _) & _).
    apply Hsame. reflexivity.
  - by destruct (joinWaitingPool_rebinds Scenario.oneWaiting Scenario.sockC
                   (OtherText "css ")) as (Herr & _).
Defined.

(** X24.  Once the waiting user's socket has sent [joinWaitingPool], its
    disconnect takes the entry away: with one entry per user and topic,
    after [joinWaitingPool] and the disconnect of the same socket the user
    has no active entry for the topic, and the entries of other users are
    all still there. *)
Theorem bind_then_disconnect (w : World) (sock : Socket) (topicId reason : string) (now : Z) :
  pairsUnique w →
  let w2 := snd (Async.run (SocketHandler.disconnect sock reason now)
                   (snd (Async.run (SocketHandler.joinWaitingPool sock (ObjectIdText topicId)) w))) in
  hasEntry w2 (sk_userId sock) topicId = false
  ∧ ∀ e, In e (waitingPool w) → we_user e ≠ sk_userId sock → In e (waitingPool w2).
Proof.
  intros Hu. cbn zeta. rewrite joinWaitingPool_run, disconnect_run. cbn [snd]. cbn.
  unfold hasEntry. cbn. split.
  - apply existsb_false_Forall, Forall_forall. intros e He%list_elem_of_In.
    unfold deleteAll in He. apply filter_In in He as [He Hq].
    destruct (qEntryOf (sk_userId sock) topicId e) eqn:Hqe; [|done].
    pose proof (rebind_socket _ _ _ _ _ Hu He Hqe) as Hsid.
    unfold qEntryOf in Hqe. apply andb_true_iff in Hqe as [[Hus _]%andb_true_iff _].
    unfold qOfSocket in Hq. by rewrite Hus, Hsid, String.eqb_refl in Hq.
  - intros e He Hne. unfold deleteAll. apply filter_In. split.
    + apply In_updateFirst_other; [done|]. unfold qEntryOf.
      by rewrite (eqb_neq_false _ _ Hne).
    + unfold qOfSocket. by rewrite (eqb_neq_false _ _ Hne).
Qed.

Lemma bind_then_disconnect_witness :
  hasEntry
    (snd (Async.run (SocketHandler.disconnect Scenario.sockA1 "transport close" 9)
            (snd (Async.run (SocketHandler.joinWaitingPool Scenario.sockA1 (ObjectIdText "css"))
                            Scenario.oneWaiting))))
    "A" "css"
  = false.
Proof.
  apply (bind_then_disconnect Scenario.oneWaiting Scenario.sockA1 "css"
           "transport close" 9).
  apply (bool_decide_unpack _). by vm_compute.
Defined.

(** X25.  A waiting user whose connected socket has sent [joinWaitingPool]
    for the topic is told about the match: with one entry per user and
    topic, the [matchFound] event of a join that takes this user's entry
    is addressed to a room the socket is in. *)
Theorem bound_entry_is_notified (w w2 : World) (sock : Socket) (topicId : string)
    (userId : string) (socketId : option string) (now : Z) (uuid : string)
    (s : Session) (e : WaitingEntry) (emits : list Emit) :
  pairsUnique w →
  sk_id sock ∈ members (rooms w) (sk_id sock) →
  Async.run (Matching.join userId (Some topicId) socketId now uuid)
            (snd (Async.run (SocketHandler.joinWaitingPool sock (ObjectIdText topicId)) w))
  = ((Matched s e, emits), w2) →
  we_user e = sk_userId sock →
  ∃ target,
    emits = [mkEmit target (MatchFound s userId)]
    ∧ sk_id sock ∈ recipients (rooms w2) target.
Proof.
  intros Hu Hconn Hrun Huser.
  destruct (join_matches_first_stored _ _ _ _ _ _ _ _ _ _ Hrun)
    as [(l1 & l2 & Hl & _ & Hq) _].
  rewrite joinWaitingPool_run in Hrun, Hl. cbn [snd] in Hrun, Hl. cbn in Hl.
  assert (we_socketId e = sk_id sock) as Hsid.
  { apply (rebind_socket (waitingPool w) (sk_userId sock) topicId); [done| |].
    - rewrite Hl. apply in_app_iff. right. by left.
    - unfold qPartnerFor in Hq. unfold qEntryOf.
      apply andb_true_iff in Hq as [[Ht _]%andb_true_iff Ha].
      by rewrite Huser, String.eqb_refl, Ht, Ha. }
  rewrite join_run in Hrun.
  destruct (negb (topicActive _ topicId)); [done|].
  destruct (hasEntry _ userId topicId); [done|].
  destruct (hasOpenSession _ userId); [done|].
  destruct (List.find (qPartnerFor userId topicId) _) as [e0|];
    [|by destruct (existsb _ _)].
  destruct (existsb _ _); [done|]. injection Hrun as <- <- <- <-.
  eexists. split; [reflexivity|]. cbn. rewrite Hsid.
  by apply members_join_mono.
Qed.

Lemma bound_entry_is_notified_witness :
  let w := snd (serve (OpConnection Scenario.sockA1 6) Scenario.oneWaiting) in
  ∃ target,
    snd (fst (Async.run (Matching.join "B" (Some "css") None 7 "r1")
                (snd (Async.run (SocketHandler.joinWaitingPool Scenario.sockA1 (ObjectIdText "css")) w))))
    = [mkEmit target
         (MatchFound (mkSession 1 "css" "A" "B" "r1" StActive 7 None 0) "B")]
    ∧ "sock-A1" ∈ recipients
        (rooms (snd (Async.run (Matching.join "B" (Some "css") None 7 "r1")
                       (snd (Async.run (SocketHandler.joinWaitingPool Scenario.sockA1 (ObjectIdText "css"))
                                       w)))))
        target.
Proof.
  cbn zeta.
  destruct (bound_entry_is_notified
              (snd (serve (OpConnection Scenario.sockA1 6) Scenario.oneWaiting))
              (snd (Async.run (Matching.join "B" (Some "css") None 7 "r1")
                      (snd (Async.run (SocketHandler.joinWaitingPool Scenario.sockA1 (ObjectIdText "css"))
                              (snd (serve (OpConnection Scenario.sockA1 6)
                                          Scenario.oneWaiting))))))
              Scenario.sockA1 "css" "B" None 7 "r1"
              (mkSession 1 "css" "A" "B" "r1" StActive 7 None 0)
              (mkWaitingEntry 0 "A" "css" 5 "sock-A1" true)
              [mkEmit (ToRoom "sock-A1")
                 (MatchFound (mkSession 1 "css" "A" "B" "r1" StActive 7 None 0) "B")])
    as (target & Hem & Hin).
  - apply (bool_decide_unpack _). by vm_compute.
  - apply (bool_decide_unpack _). by vm_compute.
  - by vm_compute.
  - reflexivity.
  - injection Hem as <-. exists (ToRoom "sock-A1"). split; [by vm_compute | exact Hin].
Defined.

(** ** The registry sweep *)

Lemma cleanup_lookup now connected w u c :
  activeConnections (ServerHandle.cleanup now connected w) !! u = Some c
  ↔ activeConnections w !! u = Some c ∧ ServerHandle.swept now connected c = false.
Proof. unfold ServerHandle.cleanup. cbn. by rewrite map_lookup_filter_Some. Qed.

(** X26.  The minute sweep only deletes registrations, and never one that
    is younger than five minutes or whose socket is connected: what it
    leaves is exactly the registrations it does not sweep, nobody comes
    online by it, a second sweep at the same moment changes nothing, and
    the pool, sessions, users and rooms are as before. *)
Theorem cleanup_keeps_live (now : Z) (connected : gset string) (w : World) :
  let w' := ServerHandle.cleanup now connected w in
  (∀ u c, activeConnections w' !! u = Some c
          ↔ activeConnections w !! u = Some c
            ∧ ServerHandle.swept now connected c = false)
  ∧ (∀ u c, activeConnections w !! u = Some c →
            c_socketId c ∈ connected ∨ (now - 300000 ≤ c_connectedAt c)%Z →
            activeConnections w' !! u = Some c)
  ∧ (∀ u, isUserOnline w' u = true → isUserOnline w u = true)
  ∧ (ServerHandle.getConnectionCount w' ≤ ServerHandle.getConnectionCount w)%nat
  ∧ ServerHandle.cleanup now connected w' = w'
  ∧ waitingPool w' = waitingPool w ∧ sessions w' = sessions w
  ∧ users w' = users w ∧ rooms w' = rooms w.
Proof.
  cbn zeta. split; [intros; apply cleanup_lookup|]. split.
  { intros u c Hc Hlive. apply cleanup_lookup. split; [done|].
    unfold ServerHandle.swept. destruct Hlive as [Hin|Hyoung].
    - rewrite (bool_decide_eq_true_2 _ Hin). apply andb_false_r.
    - apply andb_false_iff. left. apply Z.ltb_ge. lia. }
  split.
  { intros u. unfold isUserOnline. rewrite !bool_decide_eq_true.
    intros [c Hc]. apply cleanup_lookup in Hc as [Hc _]. by exists c. }
  split.
  { unfold ServerHandle.getConnectionCount, ServerHandle.cleanup. cbn.
    apply map_subseteq_size, map_filter_subseteq. }
  split; [|done].
  unfold ServerHandle.cleanup, set_activeConnections. cbn. f_equal.
  apply map_eq. intros u. apply option_eq. intros c.
  rewrite !map_lookup_filter_Some. tauto.
Qed.

(** ** The browser's reconnect logic *)

Lemma happen_serverDisconnect st :
  SocketService.happen SocketService.serverDisconnect st
  = SocketService.handleReconnect st.
Proof. reflexivity. Qed.

Lemma backoff_from (k a : nat) (b : bool) :
  (a ≤ 5)%nat →
  SocketService.timers (repeat SocketService.serverDisconnect k)
                       (SocketService.mkState b a)
  = (map (fun i => 1000 * i)%nat (seq (S a) (Nat.min k (5 - a))),
     SocketService.mkState b (a + Nat.min k (5 - a))).
Proof.
  revert a. induction k as [|k IH]; intros a Ha.
  - cbn. by rewrite Nat.add_0_r.
  - cbn [repeat SocketService.timers]. rewrite happen_serverDisconnect.
    unfold SocketService.handleReconnect, SocketService.maxReconnectAttempts.
    cbn [SocketService.reconnectAttempts SocketService.socketSet].
    destruct (Nat.ltb_spec a 5) as [Hlt|Hge]; cbv zeta.
    + rewrite IH by lia.
      replace (5 - a)%nat with (S (5 - S a)) by lia.
      rewrite <- Nat.succ_min_distr. cbn [seq map]. do 2 f_equal. lia.
    + assert (a = 5%nat) as -> by lia.
      rewrite IH by lia. cbn. by rewrite Nat.min_0_r.
Qed.

(** X27.  After a successful connect, the k-th disconnect by the server in
    a row sets a reconnect timer of k seconds, up to the fifth; from the
    sixth on no timer is set (the delays grow linearly: 1000, 2000, ...,
    5000 ms). *)
Theorem reconnect_backoff (k : nat) (st : SocketService.State) :
  SocketService.timers (SocketService.Connected :: repeat SocketService.serverDisconnect k) st
  = (map (fun i => 1000 * i)%nat (seq 1 (Nat.min k 5)),
     SocketService.mkState (SocketService.socketSet st) (Nat.min k 5)).
Proof.
  cbn [SocketService.timers SocketService.happen].
  rewrite backoff_from by lia. by rewrite Nat.sub_0_r.
Qed.

(** X28.  Between two successful connects at most five reconnect timers
    are set, whatever happens: over any run of happenings without a
    [connect] event, started with the counter at most five, the number of
    timers set is the growth of the counter, which stays at most five;
    every delay is between one and five seconds; and a run in which the
    server never disconnects the client sets no timer at all. *)
Theorem reconnect_bounded (hs : list SocketService.Happening) (st : SocketService.State) :
  (SocketService.reconnectAttempts st ≤ 5)%nat →
  existsb SocketService.isConnectEvent hs = false →
  let ts := fst (SocketService.timers hs st) in
  let st' := snd (SocketService.timers hs st) in
  (SocketService.reconnectAttempts st'
   = SocketService.reconnectAttempts st + List.length ts)%nat
  ∧ (SocketService.reconnectAttempts st' ≤ 5)%nat
  ∧ Forall (fun d => 1000 ≤ d ≤ 5000)%nat ts
  ∧ (Forall (fun h => h ≠ SocketService.serverDisconnect) hs → ts = []).
Proof.
  cbn zeta. revert st. induction hs as [|h hs IH]; intros st Ha Hno.
  { cbn. repeat split; [lia | lia | constructor]. }
  cbn in Hno. apply orb_false_iff in Hno as [Hh Hno].
  cbn [SocketService.timers].
  destruct (SocketService.happen h st) as [st1 t] eqn:Hhap.
  assert ((SocketService.reconnectAttempts st1 ≤ 5)%nat
          ∧ match t with
            | Some d => SocketService.reconnectAttempts st1
                        = S (SocketService.reconnectAttempts st)
                        ∧ (1000 ≤ d ≤ 5000)%nat ∧ h = SocketService.serverDisconnect
            | None => SocketService.reconnectAttempts st1
                      = SocketService.reconnectAttempts st
            end) as [Ha1 Ht].
  { destruct h as [[|]| |reason|]; cbn in Hhap; try discriminate Hh.
    - by injection Hhap as <- <-.
    - by injection Hhap as <- <-.
    - destruct (String.eqb_spec reason "io server disconnect") as [->|Hne].
      + unfold SocketService.handleReconnect, SocketService.maxReconnectAttempts in Hhap.
        destruct (Nat.ltb_spec (SocketService.reconnectAttempts st) 5);
          injection Hhap as <- <-; cbn; [|done]. repeat split; lia.
      + by injection Hhap as <- <-.
    - by injection Hhap as <- <-. }
  specialize (IH st1 Ha1 Hno).
  destruct (SocketService.timers hs st1) as [ts st2]. cbn [fst snd] in IH |- *.
  destruct IH as (Hlen & Hle & Hall & Hnone).
  destruct t as [d|]; cbn [fst snd List.length].
  - destruct Ht as (Hs & Hd & ->). repeat split; [lia | done | by constructor |].
    intros [Hne _]%Forall_cons. done.
  - repeat split; [lia | done | done |].
    intros [_ Hrest]%Forall_cons. by apply Hnone.
Qed.

Lemma reconnect_bounded_witness :
  fst (SocketService.timers
         [SocketService.serverDisconnect; SocketService.Disconnected "transport close";
          SocketService.DisconnectCalled; SocketService.serverDisconnect]
         (SocketService.mkState true 4))
  = [5000%nat]
  ∧ (SocketService.reconnectAttempts
       (snd (SocketService.timers
               [SocketService.serverDisconnect; SocketService.Disconnected "transport close";
                SocketService.DisconnectCalled; SocketService.serverDisconnect]
               (SocketService.mkState true 4))) ≤ 5)%nat.
Proof.
  split; [reflexivity|].
  apply (reconnect_bounded
           [SocketService.serverDisconnect; SocketService.Disconnected "transport close";
            SocketService.DisconnectCalled; SocketService.serverDisconnect]
           (SocketService.mkState true 4)); [cbn; lia | reflexivity].
Defined.

(** X29.  A reconnect timer that fires after the service's [disconnect()]
    does nothing: once [disconnect()] has been called and [connect()] has
    not been called with a token since, the socket field is unset, so the
    timer's callback finds no socket to reconnect. *)
Theorem disconnect_stops_timers (hs1 hs2 : list SocketService.Happening)
    (st : SocketService.State) :
  Forall (fun h => h ≠ SocketService.ConnectCalled true) hs2 →
  SocketService.timerFires
    (snd (SocketService.timers (hs1 ++ SocketService.DisconnectCalled :: hs2) st))
  = false.
Proof.
  intros Hno. revert st. induction hs1 as [|h hs1 IH]; intros st.
  - cbn [app SocketService.timers SocketService.happen].
    generalize (SocketService.reconnectAttempts st). intros a.
    assert (∀ st0, SocketService.socketSet st0 = false →
                   SocketService.timerFires (snd (SocketService.timers hs2 st0)) = false)
      as Hkeep.
    { induction hs2 as [|h hs2 IH2]; intros st0 Hs; [done|].
      apply Forall_cons in Hno as [Hh Hno].
      cbn [SocketService.timers].
      destruct (SocketService.happen h st0) as [st1 t] eqn:Hhap.
      assert (SocketService.socketSet st1 = false) as Hs1.
      { destruct h as [[|]| |reason|]; cbn in Hhap; try done.
        - by injection Hhap as <- <-.
        - by injection Hhap as <- <-.
        - destruct (String.eqb reason "io server disconnect").
          + unfold SocketService.handleReconnect in Hhap.
            destruct (Nat.ltb _ _); by injection Hhap as <- <-.
          + by injection Hhap as <- <-.
        - by injection Hhap as <- <-. }
      specialize (IH2 Hno st1 Hs1).
      destruct (SocketService.timers hs2 st1) as [ts st2]. by destruct t. }
    specialize (Hkeep (SocketService.mkState false a) eq_refl).
    by destruct (SocketService.timers hs2 (SocketService.mkState false a)).
  - cbn [app SocketService.timers].
    destruct (SocketService.happen h st) as [st1 t].
    specialize (IH st1).
    destruct (SocketService.timers (hs1 ++ SocketService.DisconnectCalled :: hs2) st1).
    by destruct t.
Qed.

Lemma disconnect_stops_timers_witness :
  SocketService.timerFires
    (snd (SocketService.timers
            ([SocketService.ConnectCalled true; SocketService.Connected; SocketService.serverDisconnect]
             ++ SocketService.DisconnectCalled :: [SocketService.ConnectCalled false])
            (SocketService.mkState false 0)))
  = false.
Proof.
  apply (disconnect_stops_timers
           [SocketService.ConnectCalled true; SocketService.Connected; SocketService.serverDisconnect]
           [SocketService.ConnectCalled false] (SocketService.mkState false 0)).
  repeat constructor. discriminate.
Defined.
